(** * puzzleblogserver: a shallow embedding of the blog post service

    The repository holds two revisions of the service implementation:
    - [src/blogserver/blogserver.go], embedded in [Module Blogserver];
    - the [blogserver] package carried by [src/server.go], embedded in
      [Module Server].

    Both talk to a MongoDB collection through the Go driver.  The driver and
    the database are not part of the repository; [Module Mongo] gives them an
    executable reference model (a list of documents, a unique index on the
    compound key, and a script of faults and concurrent writers). *)

From Stdlib Require Import ZArith List Ascii String Bool Lia.
From Stdlib Require Import Sorting.Sorted Sorting.Permutation.
From stdpp Require Import base option gmap strings list.

Set Warnings "-register-all".

Local Open Scope string_scope.
Local Open Scope Z_scope.

(** ** Go integer conversions *)

Module GoInt.

Definition two63 : Z := 2 ^ 63.
Definition two64 : Z := 2 ^ 64.
Definition MaxInt64 : Z := two63 - 1.

(** [uint64(x)]: the value of [x] modulo 2^64. *)
Definition toUint64 (x : Z) : Z := x mod two64.

(** [int64(x)]: the two's complement reading of the low 64 bits. *)
Definition toInt64 (x : Z) : Z := (x + two63) mod two64 - two63.

End GoInt.

(** ** The functions of Go's [strings] package used by the service

    A Go string is a sequence of bytes; indices and lengths are [int]. *)

Module GoStrings.

Definition len (s : string) : Z := Z.of_nat (String.length s).

(** [strings.Index(s, substr)], scanning from position [i] of the original
    string: the first index at which [substr] occurs, or -1. *)
Fixpoint IndexFrom (i : Z) (s substr : string) : Z :=
  if String.prefix substr s then i
  else match s with
       | EmptyString => -1
       | String _ s' => IndexFrom (i + 1) s' substr
       end.

Definition Index (s substr : string) : Z := IndexFrom 0 s substr.

(** [strings.LastIndex(s, substr)]: the last index at which [substr]
    occurs, or -1. *)
Fixpoint LastIndexFrom (i : Z) (s substr : string) : Z :=
  match s with
  | EmptyString => if String.prefix substr s then i else -1
  | String _ s' =>
      let r := LastIndexFrom (i + 1) s' substr in
      if (0 <=? r)%Z then r
      else if String.prefix substr s then i else -1
  end.

Definition LastIndex (s substr : string) : Z := LastIndexFrom 0 s substr.

(** [strings.ReplaceAll(s, old, new)] for a non-empty [old]: occurrences
    are replaced left to right without overlap.  [skip] counts the bytes
    of the occurrence just replaced that are still to be dropped. *)
Fixpoint ReplaceAllFrom (skip : nat) (s old new : string) : string :=
  match s with
  | EmptyString => EmptyString
  | String c s' =>
      match skip with
      | S k => ReplaceAllFrom k s' old new
      | O =>
          if String.prefix old s
          then String.append new (ReplaceAllFrom (String.length old - 1) s' old new)
          else String c (ReplaceAllFrom O s' old new)
      end
  end.

Definition ReplaceAll (s old new : string) : string := ReplaceAllFrom O s old new.

End GoStrings.

(** ** BSON values and documents *)

Module Bson.

(** The BSON value kinds that occur in the collection.  An [ObjectID] is
    read as the big-endian number of its twelve bytes. *)
Inductive value : Type :=
| Null
| Int32 (n : Z)
| Int64 (n : Z)
| Str (s : string)
| ObjectID (id : Z)
| Boolean (b : bool)
| Date (ms : Z).

(** [bson.E] and [bson.D]: an ordered document. *)
Definition E : Type := string * value.
Definition D : Type := list E.

(** [bson.M]: an unordered document, a Go map. *)
Abbreviation M := (gmap string value).

(** Decoding a document into a [bson.M]: later keys overwrite earlier ones. *)
Definition toM (d : D) : M :=
  fold_left (fun m e => <[fst e := snd e]> m) d ∅.

(** Field lookup in an ordered document (first occurrence). *)
Fixpoint lookupD (k : string) (d : D) : option value :=
  match d with
  | [] => None
  | (k', v) :: d' => if String.eqb k k' then Some v else lookupD k d'
  end.

(** [primitive.ObjectID.Timestamp().Unix()]: the first four bytes. *)
Definition Timestamp (id : Z) : Z := Z.shiftr id 64.

(** How the driver encodes a Go [uint64]: as an int64, and an encoding
    error when the value overflows int64. *)
Definition encodeUint64 (u : Z) : option value :=
  if (u <=? GoInt.MaxInt64)%Z then Some (Int64 u) else None.

End Bson.

(** ** The values a Go caller hands to the driver *)

Module Go.

(** The dynamic values ([any]) the service puts in filters and documents:
    [uint64] identifiers, [string]s and nested [bson.D] documents. *)
Inductive any : Type :=
| Uint64 (u : Z)
| String_ (s : string)
| Doc (d : list (string * any)).

(** A [bson.D] of Go values, as passed for filters. *)
Definition D : Type := list (string * any).

(** A [bson.M] of Go values, as built for a new post. *)
Abbreviation M := (gmap string any).

End Go.

(** ** Reference model of the MongoDB collection and of the Go driver

    The collection is a list of documents in insertion order.  Every driver
    call consumes one [turn] of the world's script: the writes of concurrent
    clients that land before the call, and possibly a fault the call fails
    with.  When the script is empty the call runs undisturbed. *)

Module Mongo.

Import Bson.

Inductive error : Type :=
| ErrNoDocuments    (* mongo.ErrNoDocuments *)
| ErrDuplicateKey   (* a write error the unique index raises *)
| ErrClient.        (* any other failure: network, command, encoding, decoding *)

Definition IsDuplicateKeyError (e : error) : bool :=
  match e with ErrDuplicateKey => true | _ => false end.

Definition isErrNoDocuments (e : error) : bool :=
  match e with ErrNoDocuments => true | _ => false end.

(** *** Comparison of values, in MongoDB's order of types *)

Definition typeOrder (v : option value) : Z :=
  match v with
  | None | Some Null => 2
  | Some (Int32 _) | Some (Int64 _) => 3
  | Some (Str _) => 4
  | Some (ObjectID _) => 8
  | Some (Boolean _) => 9
  | Some (Date _) => 10
  end.

Definition numeric (v : option value) : option Z :=
  match v with
  | Some (Int32 n) | Some (Int64 n) => Some n
  | _ => None
  end.

Definition compareValue (a b : option value) : comparison :=
  match typeOrder a ?= typeOrder b with
  | Eq =>
      match a, b with
      | Some (Str x), Some (Str y) => String.compare x y
      | Some (ObjectID x), Some (ObjectID y) => x ?= y
      | Some (Boolean x), Some (Boolean y) => Bool.compare x y
      | Some (Date x), Some (Date y) => x ?= y
      | _, _ =>
          match numeric a, numeric b with
          | Some x, Some y => x ?= y
          | _, _ => Eq
          end
      end
  | c => c
  end.

Definition valueEqb (a b : option value) : bool :=
  match compareValue a b with Eq => true | _ => false end.

(** *** Filters *)

(** A regular expression engine: compiling a pattern fails on a malformed
    pattern, and otherwise gives the (unanchored) matcher. *)
Definition regexEngine : Type := string -> option (string -> bool).

Definition regexKey : string := "$regex".

(** One clause of a filter, compiled to a predicate on the field. *)
Definition compileClause (rx : regexEngine) (v : Go.any)
  : option (option value -> bool) :=
  match v with
  | Go.Uint64 u =>
      match encodeUint64 u with
      | Some b => Some (valueEqb (Some b))
      | None => None
      end
  | Go.String_ s => Some (valueEqb (Some (Str s)))
  | Go.Doc [(k, Go.String_ pattern)] =>
      if String.eqb k regexKey then
        match rx pattern with
        | Some matcher =>
            Some (fun f => match f with Some (Str s) => matcher s | _ => false end)
        | None => None
        end
      else None
  | Go.Doc _ => None
  end.

(** A filter is the conjunction of its clauses; [None] is a query the
    driver or the server rejects. *)
Fixpoint compileFilter (rx : regexEngine) (f : Go.D) : option (D -> bool) :=
  match f with
  | [] => Some (fun _ => true)
  | (k, v) :: f' =>
      match compileClause rx v, compileFilter rx f' with
      | Some p, Some q => Some (fun d => p (lookupD k d) && q d)
      | _, _ => None
      end
  end.

(** *** Sorting, projection, skip and limit *)

(** Stable insertion sort on one key; a negative direction is descending. *)
Definition before (key : string) (dir : Z) (d e : D) : bool :=
  match compareValue (lookupD key d) (lookupD key e) with
  | Eq => true
  | Lt => (0 <=? dir)%Z
  | Gt => (dir <? 0)%Z
  end.

Fixpoint insertSorted (key : string) (dir : Z) (d : D) (l : list D) : list D :=
  match l with
  | [] => [d]
  | e :: l' =>
      if before key dir d e then d :: e :: l'
      else e :: insertSorted key dir d l'
  end.

Definition sortBy (key : string) (dir : Z) (l : list D) : list D :=
  fold_right (insertSorted key dir) [] l.

Definition applySort (sort : option (string * Z)) (l : list D) : list D :=
  match sort with
  | Some (key, dir) => sortBy key dir l
  | None => l
  end.

Definition idKey : string := "_id".

(** An inclusion projection keeps [_id] and the listed fields. *)
Definition applyProjection (proj : option (list string)) (d : D) : D :=
  match proj with
  | Some keys =>
      List.filter
        (fun e => String.eqb (fst e) idKey || existsb (String.eqb (fst e)) keys) d
  | None => d
  end.

(** The limit the driver sends: a negative limit asks for that many
    documents in a single batch, and the driver sends its negation, which
    it computes in int64 ([limit = -1 * limit]). *)
Definition sentLimit (n : Z) : Z :=
  if (n <? 0)%Z then GoInt.toInt64 (-1 * n) else n.

(** The server refuses a negative limit; one reaches it, the least int64,
    whose negation in int64 is itself. *)
Definition limitRefused (limit : option Z) : bool :=
  match limit with
  | Some n => (sentLimit n <? 0)%Z
  | None => false
  end.

(** A limit of 0 is no limit. *)
Definition applyLimit (limit : option Z) (l : list D) : list D :=
  match limit with
  | Some n => if (sentLimit n =? 0)%Z then l else firstn (Z.to_nat (sentLimit n)) l
  | None => l
  end.

Record FindOptions : Type := {
  Sort : option (string * Z);
  Projection : option (list string);
  Skip : option Z;
  Limit : option Z
}.

Definition noOptions : FindOptions :=
  {| Sort := None; Projection := None; Skip := None; Limit := None |}.

(** The documents a query selects, or [None] when the server rejects the
    query (malformed filter, negative skip, negative limit). *)
Definition runQuery (rx : regexEngine) (f : Go.D) (o : FindOptions) (c : list D)
  : option (list D) :=
  match compileFilter rx f with
  | None => None
  | Some p =>
      let sorted := applySort (Sort o) (List.filter p c) in
      match Skip o with
      | Some k =>
          if (k <? 0)%Z then None
          else if limitRefused (Limit o) then None
          else Some (map (applyProjection (Projection o))
                       (applyLimit (Limit o) (skipn (Z.to_nat k) sorted)))
      | None =>
          if limitRefused (Limit o) then None
          else Some (map (applyProjection (Projection o)) (applyLimit (Limit o) sorted))
      end
  end.

(** *** The collection, concurrent writers and faults *)

(** The compound key the unique index of the collection is built on. *)
Definition indexBlogId : string := "blogId".
Definition indexPostId : string := "postId".

Definition sameKey (d e : D) : bool :=
  valueEqb (lookupD indexBlogId d) (lookupD indexBlogId e) &&
  valueEqb (lookupD indexPostId d) (lookupD indexPostId e).

(** The driver gives a document without [_id] a fresh ObjectID in front. *)
Definition ensureID (oid : Z) (d : D) : D :=
  match lookupD idKey d with
  | Some _ => d
  | None => (idKey, ObjectID oid) :: d
  end.

(** Appending a document, unless the unique index rejects it. *)
Definition store (c : list D) (d : D) : option (list D) :=
  if existsb (sameKey d) c then None else Some (c ++ [d])%list.

Definition hasKey (blogId postId : Z) (d : D) : bool :=
  valueEqb (Some (Int64 blogId)) (lookupD indexBlogId d) &&
  valueEqb (Some (Int64 postId)) (lookupD indexPostId d).

(** A write of a concurrent client. *)
Inductive write : Type :=
| Insert (d : D)
| Delete (blogId postId : Z).

Record turn : Type := {
  writes : list write;      (* concurrent writes landing before the call *)
  fault : option error      (* the error the call fails with, if any *)
}.

Definition quiet : turn := {| writes := []; fault := None |}.

Record World : Type := {
  docs : list D;            (* the collection, in insertion order *)
  nextOid : Z;              (* the next ObjectID the driver generates *)
  engine : regexEngine;     (* the server's regular expression engine *)
  script : list turn
}.

Definition setDocs (w : World) (c : list D) : World :=
  {| docs := c; nextOid := nextOid w; engine := engine w; script := script w |}.

Definition applyWrite (w : World) (x : write) : World :=
  match x with
  | Insert d =>
      match store (docs w) (ensureID (nextOid w) d) with
      | Some c => {| docs := c; nextOid := nextOid w + 1;
                     engine := engine w; script := script w |}
      | None => w
      end
  | Delete b p => setDocs w (List.filter (fun d => negb (hasKey b p d)) (docs w))
  end.

(** Entering a driver call: the concurrent writes of the turn land, and
    the turn's fault, if any, is what the call will return. *)
Definition enter (w : World) : option error * World :=
  match script w with
  | [] => (None, w)
  | t :: rest =>
      (fault t,
       fold_left applyWrite (writes t)
         {| docs := docs w; nextOid := nextOid w; engine := engine w; script := rest |})
  end.

Inductive result (A : Type) : Type :=
| Ok (a : A)
| Err (e : error).
Arguments Ok {A} a.
Arguments Err {A} e.

(** *** The driver calls the service makes *)

(** [mongo.Connect]. *)
Definition Connect (w : World) : result unit * World :=
  match enter w with
  | (Some e, w') => (Err e, w')
  | (None, w') => (Ok tt, w')
  end.

(** [collection.FindOne(ctx, filter, opts).Decode(&result)]. *)
Definition FindOne (f : Go.D) (o : FindOptions) (w : World) : result D * World :=
  match enter w with
  | (Some e, w') => (Err e, w')
  | (None, w') =>
      match runQuery (engine w') f o (docs w') with
      | None => (Err ErrClient, w')
      | Some [] => (Err ErrNoDocuments, w')
      | Some (d :: _) => (Ok d, w')
      end
  end.

(** Marshalling the values of a Go document. *)
Definition marshalValue (v : Go.any) : option value :=
  match v with
  | Go.Uint64 u => encodeUint64 u
  | Go.String_ s => Some (Str s)
  | Go.Doc _ => None
  end.

Fixpoint marshal (l : list (string * Go.any)) : option D :=
  match l with
  | [] => Some []
  | (k, v) :: l' =>
      match marshalValue v, marshal l' with
      | Some b, Some d => Some ((k, b) :: d)
      | _, _ => None
      end
  end.

(** [collection.InsertOne(ctx, document)]; the value returned is the
    [_id] of the stored document.  Go leaves the iteration order of a map
    unspecified; the model marshals the fields in the order of
    [map_to_list]. *)
Definition InsertOne (document : Go.M) (w : World) : result value * World :=
  match enter w with
  | (Some e, w') => (Err e, w')
  | (None, w') =>
      match marshal (map_to_list document) with
      | None => (Err ErrClient, w')
      | Some d =>
          match store (docs w') (ensureID (nextOid w') d) with
          | None => (Err ErrDuplicateKey, w')
          | Some c =>
              (Ok (ObjectID (nextOid w')),
               {| docs := c; nextOid := nextOid w' + 1;
                  engine := engine w'; script := script w' |})
          end
      end
  end.

(** [collection.CountDocuments(ctx, filter)]. *)
Definition CountDocuments (f : Go.D) (w : World) : result Z * World :=
  match enter w with
  | (Some e, w') => (Err e, w')
  | (None, w') =>
      match runQuery (engine w') f noOptions (docs w') with
      | None => (Err ErrClient, w')
      | Some l => (Ok (Z.of_nat (length l)), w')
      end
  end.

(** [collection.Find(ctx, filter, opts)]: the cursor over the selected
    documents. *)
Definition Find (f : Go.D) (o : FindOptions) (w : World) : result (list D) * World :=
  match enter w with
  | (Some e, w') => (Err e, w')
  | (None, w') =>
      match runQuery (engine w') f o (docs w') with
      | None => (Err ErrClient, w')
      | Some l => (Ok l, w')
      end
  end.

(** [cursor.All(ctx, &results)], decoding every document into a [bson.M]. *)
Definition All (cursor : list D) (w : World) : result (list M) * World :=
  match enter w with
  | (Some e, w') => (Err e, w')
  | (None, w') => (Ok (map toM cursor), w')
  end.

(** [collection.DeleteMany(ctx, filter)]: the number of documents removed. *)
Definition DeleteMany (f : Go.D) (w : World) : result Z * World :=
  match enter w with
  | (Some e, w') => (Err e, w')
  | (None, w') =>
      match compileFilter (engine w') f with
      | None => (Err ErrClient, w')
      | Some p =>
          (Ok (Z.of_nat (length (List.filter p (docs w')))),
           setDocs w' (List.filter (fun d => negb (p d)) (docs w')))
      end
  end.

End Mongo.

(** ** The messages of the [puzzleblogservice] protocol *)

Module Pb.

Record CreateRequest : Type := {
  CreateRequest_BlogId : Z;
  CreateRequest_UserId : Z;
  CreateRequest_Title : string;
  CreateRequest_Text : string
}.

Record IdRequest : Type := {
  IdRequest_BlogId : Z;
  IdRequest_PostId : Z
}.

Record SearchRequest : Type := {
  SearchRequest_BlogId : Z;
  SearchRequest_Start : Z;
  SearchRequest_End : Z;
  SearchRequest_Filter : string
}.

Record Response : Type := {
  Success : bool;
  Id : Z
}.

Record Content : Type := {
  PostId : Z;
  UserId : Z;
  Title : string;
  Text : string;
  CreatedAt : Z
}.

Record Contents : Type := {
  List_ : list Content;
  Total : Z
}.

End Pb.

(** ** What a service method does: return a message, return an error, or
    panic *)

Inductive svcError : Type :=
| errInternal   (* "internal service error" *)
| errNoPost.    (* "no blog post with requested ids" *)

Inductive outcome (A : Type) : Type :=
| Returns (a : A)
| Fails (e : svcError)
| Panics.
Arguments Returns {A} a.
Arguments Fails {A} e.
Arguments Panics {A}.

(** ** [src/blogserver/blogserver.go] *)

Module Blogserver.

Import GoInt GoStrings Bson Mongo Pb.

Definition idKey : string := "_id".
Definition blogIdKey : string := "blogId".
Definition postIdKey : string := "postId".
Definition userIdKey : string := "userId".
Definition titleKey : string := "title".
Definition textKey : string := "text".

Definition optsMaxPostId : FindOptions :=
  {| Sort := Some (postIdKey, -1); Projection := Some [postIdKey];
     Skip := None; Limit := None |}.

(** [extractUint64(v any) uint64]; [None] is the nil interface a missing
    map key yields. *)
Definition extractUint64 (v : option value) : Z :=
  match v with
  | Some (Int32 casted) => toUint64 casted
  | Some (Int64 casted) => toUint64 casted
  | _ => 0
  end.

(** The code at the label [CreatePostStep]; [retry] is the jump back to
    [GeneratePostIdStep]. *)
Definition CreatePostStep
    (retry : Go.M -> Z -> World -> option (outcome Response) * World)
    (post : Go.M) (newPostId : Z) (w : World) : option (outcome Response) * World :=
  let post := <[postIdKey := Go.Uint64 newPostId]> post in
  match InsertOne post w with
  | (Err err, w) =>
      if IsDuplicateKeyError err
      then retry post newPostId w
      else (Some (Fails errInternal), w)
  | (Ok _, w) => (Some (Returns {| Success := true; Id := 0 |}), w)
  end.

(** The code at the label [GeneratePostIdStep]; [fuel] bounds the number
    of passes through the loop, and [None] is a run that has not left the
    loop within them. *)
Fixpoint GeneratePostIdStep (fuel : nat) (blogId : Z) (post : Go.M) (newPostId : Z)
    (w : World) : option (outcome Response) * World :=
  match fuel with
  | O => (None, w)
  | S fuel' =>
      match FindOne [(blogIdKey, Go.Uint64 blogId)] optsMaxPostId w with
      | (Err err, w) =>
          if isErrNoDocuments err
          then CreatePostStep (GeneratePostIdStep fuel' blogId) post newPostId w
          else (Some (Fails errInternal), w)
      | (Ok result, w) =>
          (* can call [0] because result has only one field *)
          match nth_error result 0 with
          | None => (Some Panics, w)
          | Some e =>
              CreatePostStep (GeneratePostIdStep fuel' blogId) post
                (toUint64 (extractUint64 (Some (snd e)) + 1)) w
          end
      end
  end.

Definition CreatePost (fuel : nat) (request : CreateRequest) (w : World)
  : option (outcome Response) * World :=
  match Connect w with
  | (Err _, w) => (Some (Fails errInternal), w)
  | (Ok _, w) =>
      let blogId := CreateRequest_BlogId request in
      let post : Go.M :=
        <[blogIdKey := Go.Uint64 blogId]>
        (<[userIdKey := Go.Uint64 (CreateRequest_UserId request)]>
        (<[titleKey := Go.String_ (CreateRequest_Title request)]>
        (<[textKey := Go.String_ (CreateRequest_Text request)]> ∅))) in
      (* rely on the mongo server to ensure there will be no duplicate *)
      GeneratePostIdStep fuel blogId post 1 w
  end.

Definition convertToContent (post : M) : Content :=
  let title := match post !! titleKey with Some (Str s) => s | _ => "" end in
  let text := match post !! textKey with Some (Str s) => s | _ => "" end in
  let id := match post !! idKey with Some (ObjectID i) => i | _ => 0 end in
  {| PostId := extractUint64 (post !! postIdKey);
     UserId := extractUint64 (post !! userIdKey);
     Title := title; Text := text; CreatedAt := Timestamp id |}.

Definition GetPost (request : IdRequest) (w : World) : outcome Content * World :=
  match Connect w with
  | (Err _, w) => (Fails errInternal, w)
  | (Ok _, w) =>
      match FindOne [(blogIdKey, Go.Uint64 (IdRequest_BlogId request));
                     (postIdKey, Go.Uint64 (IdRequest_PostId request))]
              noOptions w with
      | (Err err, w) =>
          if isErrNoDocuments err then (Fails errNoPost, w)
          else (Fails errInternal, w)
      | (Ok result, w) => (Returns (convertToContent (toM result)), w)
      end
  end.

(** [make([]*pb.Content, 0, len(posts))], a slice of length 0 (its
    capacity cannot be observed), returned as it is. *)
Definition convertToContents (posts : list M) : list Content := [].

Definition buildFilterRegex (filter : string) : Go.D :=
  let regexBuilder := "" in
  let regexBuilder :=
    if negb (Index filter ".*" =? 0) then regexBuilder +:+ ".*" else regexBuilder in
  let regexBuilder := regexBuilder +:+ filter in
  let regexBuilder :=
    if negb (LastIndex filter ".*" =? len filter - 2)
    then regexBuilder +:+ ".*" else regexBuilder in
  [("$regex", Go.String_ regexBuilder)].

Definition GetPosts (request : SearchRequest) (w : World) : outcome Contents * World :=
  match Connect w with
  | (Err _, w) => (Fails errInternal, w)
  | (Ok _, w) =>
      let filters : Go.D := [(blogIdKey, Go.Uint64 (SearchRequest_BlogId request))] in
      match CountDocuments filters w with
      | (Err _, w) => (Fails errInternal, w)
      | (Ok total, w) =>
          let start := toInt64 (SearchRequest_Start request) in
          let paginate :=
            {| Sort := Some (postIdKey, -1); Projection := None;
               Skip := Some start;
               Limit := Some (toInt64 (toInt64 (SearchRequest_End request) - start)) |} in
          let filter := SearchRequest_Filter request in
          let filters :=
            if negb (String.eqb filter "")
            then (filters ++ [(titleKey, Go.Doc (buildFilterRegex filter))])%list
            else filters in
          (* the options in [paginate] are not handed to [Find] *)
          match Find filters noOptions w with
          | (Err _, w) => (Fails errInternal, w)
          | (Ok cursor, w) =>
              match All cursor w with
              | (Err _, w) => (Fails errInternal, w)
              | (Ok results, w) =>
                  (Returns {| List_ := convertToContents results;
                              Total := toUint64 total |}, w)
              end
          end
      end
  end.

Definition DeletePost (request : IdRequest) (w : World) : outcome Response * World :=
  match Connect w with
  | (Err _, w) => (Fails errInternal, w)
  | (Ok _, w) =>
      match DeleteMany [(blogIdKey, Go.Uint64 (IdRequest_BlogId request));
                        (postIdKey, Go.Uint64 (IdRequest_PostId request))] w with
      | (Err err, w) =>
          if negb (isErrNoDocuments err) then (Fails errInternal, w)
          else (Returns {| Success := true; Id := 0 |}, w)
      | (Ok _, w) => (Returns {| Success := true; Id := 0 |}, w)
      end
  end.

End Blogserver.

(** ** The helpers of the [puzzlemongoclient] package used by [src/server.go] *)

Module Mongoclient.

Import GoInt Bson.

(** Modelled from the spec: [mongoclient.ExtractUint64] is not in the
    sources; a numeric field that is absent or has an unexpected type
    defaults to zero, as [extractUint64] of the other revision does. *)
Definition ExtractUint64 (v : option value) : Z :=
  match v with
  | Some (Int32 casted) => toUint64 casted
  | Some (Int64 casted) => toUint64 casted
  | _ => 0
  end.

(** Modelled from the spec: [mongoclient.ExtractCreateDate] is not in the
    sources; the creation timestamp is derived from the record identifier
    of the storage engine.  The result is the Unix time in seconds. *)
Definition ExtractCreateDate (post : M) : Z :=
  match post !! "_id" with
  | Some (ObjectID i) => Timestamp i
  | _ => 0
  end.

(** Modelled from the spec: [mongoclient.ConvertSlice] is not in the
    sources; each returned post is converted to a response entity. *)
Definition ConvertSlice {A B : Type} (slice : list A) (converter : A -> B) : list B :=
  map converter slice.

End Mongoclient.

(** ** The [blogserver] package of [src/server.go] *)

Module Server.

Import GoInt GoStrings Bson Mongo Pb.

Definition blogIdKey : string := "blogId".
Definition postIdKey : string := "postId".
Definition userIdKey : string := "userId".
Definition titleKey : string := "title".
Definition textKey : string := "text".

Definition optsMaxPostId : FindOptions :=
  {| Sort := Some (postIdKey, -1); Projection := Some [postIdKey];
     Skip := None; Limit := None |}.

(** The code at the label [CreatePostStep]; [retry] is the jump back to
    [GeneratePostIdStep]. *)
Definition CreatePostStep
    (retry : Go.M -> Z -> World -> option (outcome Response) * World)
    (post : Go.M) (newPostId : Z) (w : World) : option (outcome Response) * World :=
  let post := <[postIdKey := Go.Uint64 newPostId]> post in
  match InsertOne post w with
  | (Err err, w) =>
      if IsDuplicateKeyError err
      then retry post newPostId w
      else (Some (Fails errInternal), w)
  | (Ok _, w) => (Some (Returns {| Success := true; Id := newPostId |}), w)
  end.

(** The code at the label [GeneratePostIdStep]; [fuel] bounds the number
    of passes through the loop, and [None] is a run that has not left the
    loop within them. *)
Fixpoint GeneratePostIdStep (fuel : nat) (filter : Go.D) (post : Go.M) (newPostId : Z)
    (w : World) : option (outcome Response) * World :=
  match fuel with
  | O => (None, w)
  | S fuel' =>
      match FindOne filter optsMaxPostId w with
      | (Err err, w) =>
          if isErrNoDocuments err
          then CreatePostStep (GeneratePostIdStep fuel' filter) post newPostId w
          else (Some (Fails errInternal), w)
      | (Ok result, w) =>
          (* call [1] to get picture because result has only the id and one field *)
          match nth_error result 1 with
          | None => (Some Panics, w)
          | Some e =>
              CreatePostStep (GeneratePostIdStep fuel' filter) post
                (toUint64 (Mongoclient.ExtractUint64 (Some (snd e)) + 1)) w
          end
      end
  end.

Definition CreatePost (fuel : nat) (request : CreateRequest) (w : World)
  : option (outcome Response) * World :=
  match Connect w with
  | (Err _, w) => (Some (Fails errInternal), w)
  | (Ok _, w) =>
      let blogId := CreateRequest_BlogId request in
      let filter : Go.D := [(blogIdKey, Go.Uint64 blogId)] in
      let post : Go.M :=
        <[blogIdKey := Go.Uint64 blogId]>
        (<[userIdKey := Go.Uint64 (CreateRequest_UserId request)]>
        (<[titleKey := Go.String_ (CreateRequest_Title request)]>
        (<[textKey := Go.String_ (CreateRequest_Text request)]> ∅))) in
      (* rely on the mongo server to ensure there will be no duplicate *)
      GeneratePostIdStep fuel filter post 1 w
  end.

Definition convertToContent (post : M) : Content :=
  let title := match post !! titleKey with Some (Str s) => s | _ => "" end in
  let text := match post !! textKey with Some (Str s) => s | _ => "" end in
  {| PostId := Mongoclient.ExtractUint64 (post !! postIdKey);
     UserId := Mongoclient.ExtractUint64 (post !! userIdKey);
     Title := title; Text := text;
     CreatedAt := Mongoclient.ExtractCreateDate post |}.

Definition GetPost (request : IdRequest) (w : World) : outcome Content * World :=
  match Connect w with
  | (Err _, w) => (Fails errInternal, w)
  | (Ok _, w) =>
      match FindOne [(blogIdKey, Go.Uint64 (IdRequest_BlogId request));
                     (postIdKey, Go.Uint64 (IdRequest_PostId request))]
              noOptions w with
      | (Err err, w) =>
          if isErrNoDocuments err then (Fails errNoPost, w)
          else (Fails errInternal, w)
      | (Ok result, w) => (Returns (convertToContent (toM result)), w)
      end
  end.

Definition buildRegexFilter (filter : string) : Go.D :=
  let filter := ReplaceAll filter "%" ".*" in
  let regexBuilder := "" in
  let regexBuilder :=
    if negb (Index filter ".*" =? 0) then regexBuilder +:+ ".*" else regexBuilder in
  let regexBuilder := regexBuilder +:+ filter in
  let regexBuilder :=
    if negb (LastIndex filter ".*" =? len filter - 2)
    then regexBuilder +:+ ".*" else regexBuilder in
  [("$regex", Go.String_ regexBuilder)].

Definition GetPosts (request : SearchRequest) (w : World) : outcome Contents * World :=
  match Connect w with
  | (Err _, w) => (Fails errInternal, w)
  | (Ok _, w) =>
      let filters : Go.D := [(blogIdKey, Go.Uint64 (SearchRequest_BlogId request))] in
      let filter := SearchRequest_Filter request in
      let filters :=
        if negb (String.eqb filter "")
        then (filters ++ [(titleKey, Go.Doc (buildRegexFilter filter))])%list
        else filters in
      match CountDocuments filters w with
      | (Err _, w) => (Fails errInternal, w)
      | (Ok total, w) =>
          let start := toInt64 (SearchRequest_Start request) in
          let paginate :=
            {| Sort := Some (postIdKey, -1); Projection := None;
               Skip := Some start;
               Limit := Some (toInt64 (toInt64 (SearchRequest_End request) - start)) |} in
          match Find filters paginate w with
          | (Err _, w) => (Fails errInternal, w)
          | (Ok cursor, w) =>
              match All cursor w with
              | (Err _, w) => (Fails errInternal, w)
              | (Ok results, w) =>
                  (Returns {| List_ := Mongoclient.ConvertSlice results convertToContent;
                              Total := toUint64 total |}, w)
              end
          end
      end
  end.

Definition DeletePost (request : IdRequest) (w : World) : outcome Response * World :=
  match Connect w with
  | (Err _, w) => (Fails errInternal, w)
  | (Ok _, w) =>
      match DeleteMany [(blogIdKey, Go.Uint64 (IdRequest_BlogId request));
                        (postIdKey, Go.Uint64 (IdRequest_PostId request))] w with
      | (Err err, w) =>
          if negb (isErrNoDocuments err) then (Fails errInternal, w)
          else (Returns {| Success := true; Id := 0 |}, w)
      | (Ok _, w) => (Returns {| Success := true; Id := 0 |}, w)
      end
  end.

End Server.

(** ** Fixtures for the examples

    A regular expression engine for patterns made of literal bytes and the
    token [.*]; it rejects every other metacharacter. *)

Module Fixture.

Import Bson Mongo.

Inductive item : Type :=
| AnySequence
| Byte (c : ascii).

Definition isMeta (c : ascii) : bool :=
  existsb (Ascii.eqb c)
    (list_ascii_of_string "\^$.|?*+()[]{}").

Fixpoint parse (p : string) : option (list item) :=
  match p with
  | EmptyString => Some []
  | String "." (String "*" p') =>
      match parse p' with
      | Some l => Some (AnySequence :: l)
      | None => None
      end
  | String c p' =>
      if isMeta c then None
      else match parse p' with
           | Some l => Some (Byte c :: l)
           | None => None
           end
  end.

Fixpoint matchHere (items : list item) : string -> bool :=
  match items with
  | [] => fun _ => true
  | Byte c :: r =>
      fun s => match s with
               | String c' s' => Ascii.eqb c c' && matchHere r s'
               | EmptyString => false
               end
  | AnySequence :: r =>
      fix star (s : string) : bool :=
        matchHere r s ||
        match s with
        | String _ s' => star s'
        | EmptyString => false
        end
  end.

Fixpoint search (items : list item) (s : string) : bool :=
  matchHere items s ||
  match s with
  | String _ s' => search items s'
  | EmptyString => false
  end.

Definition literalEngine : regexEngine :=
  fun p => match parse p with
           | Some items => Some (search items)
           | None => None
           end.

(** A stored post. *)
Definition post (oid blogId postId userId : Z) (title text : string) : D :=
  [("_id", ObjectID oid); ("blogId", Int64 blogId); ("userId", Int64 userId);
   ("title", Str title); ("text", Str text); ("postId", Int64 postId)].

Definition world (c : list D) (s : list turn) : World :=
  {| docs := c; nextOid := 1000; engine := literalEngine; script := s |}.

End Fixture.

(** * Specifications *)

Import GoInt GoStrings Bson Mongo Pb.

(** A document is the post [(blogId, postId)] when both fields hold these
    numbers. *)
Definition isPost (blogId postId : Z) (d : D) : Prop :=
  numeric (lookupD "blogId" d) = Some blogId /\
  numeric (lookupD "postId" d) = Some postId.

(** A document belongs to the blog when its blogId is this number. *)
Definition inBlog (blogId : Z) (d : D) : bool :=
  valueEqb (Some (Int64 blogId)) (lookupD "blogId" d).

(** The world once every document under the compound key is removed. *)
Definition deleted (b p : Z) (w : World) : World :=
  setDocs w (List.filter (fun d => negb (hasKey b p d)) (docs w)).

(** [&pb.Response{Success: true}]. *)
Definition success : Response := {| Success := true; Id := 0 |}.

(** The filter of a Search: the blog, and the title pattern when the request
    carries one. *)
Definition searchFilters (normalize : string -> Go.D) (request : SearchRequest) : Go.D :=
  if negb (String.eqb (SearchRequest_Filter request) "")
  then [("blogId", Go.Uint64 (SearchRequest_BlogId request));
        ("title", Go.Doc (normalize (SearchRequest_Filter request)))]
  else [("blogId", Go.Uint64 (SearchRequest_BlogId request))].

(** The options of the page [start, end): newest first, skip [start], limit
    [end - start], in int64 arithmetic. *)
Definition pageOptions (request : SearchRequest) : FindOptions :=
  let start := toInt64 (SearchRequest_Start request) in
  {| Sort := Some ("postId", -1); Projection := None;
     Skip := Some start;
     Limit := Some (toInt64 (toInt64 (SearchRequest_End request) - start)) |}.

(** The token of the storage engine that matches any sequence. *)
Definition anySequence : string := ".*".

(** Every ['%'] replaced by the token. *)
Fixpoint replacePercent (pattern : string) : string :=
  match pattern with
  | EmptyString => EmptyString
  | String c rest =>
      if Ascii.eqb c "%" then anySequence +:+ replacePercent rest
      else String c (replacePercent rest)
  end.

Definition startsWith (s t : string) : bool := String.prefix t s.

(** [s] ends with [t] when it is [t] or its tail ends with [t]. *)
Fixpoint endsWith (s t : string) : bool :=
  String.eqb s t ||
  match s with
  | EmptyString => false
  | String _ s' => endsWith s' t
  end.

(** The normalization as the specification words it: replace, then prepend
    the token unless the pattern starts with it, and append it unless the
    pattern ends with it. *)
Definition normalizePattern (pattern : string) : string :=
  let p := replacePercent pattern in
  (if startsWith p anySequence then "" else anySequence) +:+ p +:+
  (if endsWith p anySequence then "" else anySequence).

Definition titleMatches (matcher : string -> bool) (d : D) : bool :=
  match lookupD "title" d with
  | Some (Str s) => matcher s
  | _ => false
  end.

(** The posts a Search is about: those of the blog, restricted to the ones
    whose title the matcher accepts when there is one. *)
Definition searchMatch (blogId : Z) (m : option (string -> bool)) (d : D) : bool :=
  inBlog blogId d &&
  match m with
  | Some matcher => titleMatches matcher d
  | None => true
  end.

(** The title matcher of a request: none for the empty pattern, otherwise
    the one the engine compiles from the normalized pattern. *)
Inductive titleMatcher (rx : regexEngine) (normalize : string -> Go.D)
    (request : SearchRequest) : option (string -> bool) -> Prop :=
| noPattern :
    SearchRequest_Filter request = "" ->
    titleMatcher rx normalize request None
| withPattern (pattern : string) (matcher : string -> bool) :
    SearchRequest_Filter request <> "" ->
    normalize (SearchRequest_Filter request) = [("$regex", Go.String_ pattern)] ->
    rx pattern = Some matcher ->
    titleMatcher rx normalize request (Some matcher).

(** [d] may stand before [e] in a page sorted by postId, newest first. *)
Definition notOlder (d e : D) : Prop :=
  compareValue (lookupD "postId" d) (lookupD "postId" e) <> Lt.

(** The selected posts of the blog, newest first. *)
Definition selected (blogId : Z) (m : option (string -> bool)) (c : list D) : list D :=
  sortBy "postId" (-1) (List.filter (searchMatch blogId m) c).

(** The page [start, end) of a list, as the specification reads it. *)
Definition halfOpen {A : Type} (s e : Z) (l : list A) : list A :=
  firstn (Z.to_nat (e - s)) (skipn (Z.to_nat s) l).

(** A post as the service stores it: [_id] first and only there, and a
    numeric postId that leaves room for a successor. *)
Definition wellFormed (d : D) : bool :=
  match d with
  | (k, _) :: fields =>
      String.eqb k "_id" &&
      negb (existsb (fun e => String.eqb (fst e) "_id") fields) &&
      match numeric (lookupD "postId" fields) with
      | Some p => (0 <=? p) && (p <? MaxInt64)
      | None => false
      end
  | [] => false
  end.

(** Every post of the blog is well formed. *)
Definition wfBlog (blogId : Z) (c : list D) : Prop :=
  forall d, In d c -> inBlog blogId d = true -> wellFormed d = true.

Definition noPosts (blogId : Z) (c : list D) : Prop :=
  forall d, In d c -> inBlog blogId d = false.

(** [m] is the greatest postId of the blog. *)
Definition isMaxPostId (blogId : Z) (c : list D) (m : Z) : Prop :=
  (exists d, In d c /\ inBlog blogId d = true /\ numeric (lookupD "postId" d) = Some m) /\
  (forall d p, In d c -> inBlog blogId d = true ->
               numeric (lookupD "postId" d) = Some p -> p <= m).

(** The document [CreatePost] builds before the identifier is known. *)
Definition post0 (request : CreateRequest) : Go.M :=
  <["blogId" := Go.Uint64 (CreateRequest_BlogId request)]>
  (<["userId" := Go.Uint64 (CreateRequest_UserId request)]>
  (<["title" := Go.String_ (CreateRequest_Title request)]>
  (<["text" := Go.String_ (CreateRequest_Text request)]> ∅))).

(** The post as it is stored under the identifier [n]. *)
Definition newPost (oid : Z) (request : CreateRequest) (n : Z) : D :=
  [("_id", ObjectID oid);
   ("userId", Int64 (CreateRequest_UserId request));
   ("blogId", Int64 (CreateRequest_BlogId request));
   ("text", Str (CreateRequest_Text request));
   ("title", Str (CreateRequest_Title request));
   ("postId", Int64 n)].

(** [post] is the document of the request, whatever postId it carries. *)
Definition carries (request : CreateRequest) (post : Go.M) : Prop :=
  forall n, <["postId" := Go.Uint64 n]> post = <["postId" := Go.Uint64 n]> (post0 request).

Definition inserted (w : World) (d : D) : World :=
  {| docs := docs w ++ [d]; nextOid := nextOid w + 1;
     engine := engine w; script := script w |}.

(** A turn without fault whose concurrent inserts into the blog are
    well-formed posts. *)
Definition calm (b : Z) (t : turn) : Prop :=
  fault t = None /\
  forall d, In (Insert d) (writes t) -> inBlog b d = true -> wellFormed d = true.

(** What a Create that succeeds leaves behind: the response carries [k], and
    the post of the request stands last in the collection under [k], which
    no other post of the blog bears. *)
Definition created (request : CreateRequest) (k : Z)
    (r : option (outcome Response) * World) : Prop :=
  exists w' c oid,
    r = (Some (Returns {| Success := true; Id := k |}), w') /\
    docs w' = (c ++ [newPost oid request k])%list /\
    forall e, In e c -> ~ isPost (CreateRequest_BlogId request) k e.

(** * Collections and requests of the examples *)

Definition getWorld : World :=
  Fixture.world [Fixture.post 1 1 5 7 "dog" "x"; Fixture.post 2 1 3 7 "cat" "y"] [].

Definition getFaulty : World :=
  Fixture.world [Fixture.post 1 1 5 7 "dog" "x"]
    [quiet; {| writes := []; fault := Some ErrClient |}].

Definition getDown : World :=
  Fixture.world [Fixture.post 1 1 5 7 "dog" "x"]
    [{| writes := []; fault := Some ErrClient |}].

Definition getRequest : IdRequest := {| IdRequest_BlogId := 1; IdRequest_PostId := 4 |}.

Definition deleteRequest : IdRequest := {| IdRequest_BlogId := 1; IdRequest_PostId := 3 |}.

Definition deleteFaulty : World :=
  Fixture.world [Fixture.post 1 1 3 7 "dog" "x"]
    [quiet; {| writes := []; fault := Some ErrClient |}].

(** A document whose title is a number, whose text and userId are absent
    and whose postId is a string. *)
Definition oddPost : D :=
  [("_id", ObjectID 1); ("blogId", Int64 1); ("title", Int32 3); ("postId", Str "x")].

Definition oddWorld : World := Fixture.world [oddPost] [].

Definition oddRequest : SearchRequest :=
  {| SearchRequest_BlogId := 1; SearchRequest_Start := 0; SearchRequest_End := 5;
     SearchRequest_Filter := "" |}.

Definition searchWorld : World :=
  Fixture.world
    [Fixture.post 1 1 3 7 "cat" "y"; Fixture.post 2 1 5 7 "dog" "x";
     Fixture.post 3 2 9 7 "cat" "z"] [].

Definition search (filter : string) (s e : Z) : SearchRequest :=
  {| SearchRequest_BlogId := 1; SearchRequest_Start := s; SearchRequest_End := e;
     SearchRequest_Filter := filter |}.

Definition cat : Content :=
  {| PostId := 3; UserId := 7; Title := "cat"; Text := "y"; CreatedAt := 0 |}.

Definition dog : Content :=
  {| PostId := 5; UserId := 7; Title := "dog"; Text := "x"; CreatedAt := 0 |}.

Definition emptyWorld : World := Fixture.world [] [].

Definition createRequest : CreateRequest :=
  {| CreateRequest_BlogId := 1; CreateRequest_UserId := 4;
     CreateRequest_Title := "t"; CreateRequest_Text := "b" |}.

Definition fiveWorld : World := Fixture.world [Fixture.post 1 1 5 7 "dog" "x"] [].

(** When the candidate 1 is taken, the loop of
    [src/blogserver/blogserver.go] computes it again on every pass. *)
Definition oneWorld : World := Fixture.world [Fixture.post 1 1 1 7 "dog" "x"] [].

(** In both revisions [newPostId] is set to 1 before the label
    [GeneratePostIdStep] only: a retry that finds the blog empty keeps the
    candidate of the pass before.  Here the first pass computes 6 and
    collides with a concurrent insert of 6, the posts 5 and 6 are deleted
    before the second query, and the post is stored under 6. *)
Definition staleWorld : World :=
  Fixture.world [Fixture.post 1 1 5 7 "dog" "x"]
    [quiet; quiet;
     {| writes := [Insert (Fixture.post 2 1 6 7 "cat" "y")]; fault := None |};
     {| writes := [Delete 1 5; Delete 1 6]; fault := None |}].

(** The world of that Create when it reaches its first insert, after the
    insert has collided, and after the second query has found no post. *)
Definition staleInsert : World :=
  Fixture.world [Fixture.post 1 1 5 7 "dog" "x"]
    [{| writes := [Insert (Fixture.post 2 1 6 7 "cat" "y")]; fault := None |};
     {| writes := [Delete 1 5; Delete 1 6]; fault := None |}].

Definition staleConflict : World :=
  {| docs := [Fixture.post 1 1 5 7 "dog" "x"; Fixture.post 2 1 6 7 "cat" "y"];
     nextOid := 1001; engine := Fixture.literalEngine;
     script := [{| writes := [Delete 1 5; Delete 1 6]; fault := None |}] |}.

Definition staleEmptied : World :=
  {| docs := []; nextOid := 1001; engine := Fixture.literalEngine; script := [] |}.

(** A blog whose greatest postId is 5; while the Create runs, concurrent
    writers insert the posts 6 and 7 ahead of its insert of 6. *)
Definition conflictWorld : World :=
  Fixture.world [Fixture.post 1 1 5 7 "dog" "x"]
    [quiet; quiet;
     {| writes := [Insert (Fixture.post 2 1 6 7 "cat" "y");
                   Insert (Fixture.post 3 1 7 7 "cow" "z")];
        fault := None |}].

(** The world of that Create when it reaches its first insert. *)
Definition beforeInsert : World :=
  Fixture.world [Fixture.post 1 1 5 7 "dog" "x"]
    [{| writes := [Insert (Fixture.post 2 1 6 7 "cat" "y");
                   Insert (Fixture.post 3 1 7 7 "cow" "z")];
        fault := None |}].

Definition afterConflict : World :=
  {| docs := [Fixture.post 1 1 5 7 "dog" "x"; Fixture.post 2 1 6 7 "cat" "y";
              Fixture.post 3 1 7 7 "cow" "z"];
     nextOid := 1002; engine := Fixture.literalEngine; script := [] |}.

Definition insertFails : World :=
  Fixture.world [Fixture.post 1 1 5 7 "dog" "x"]
    [{| writes := []; fault := Some ErrClient |}].

(** A blog with six posts, stored in no particular order. *)
Definition sixWorld : World :=
  Fixture.world
    [Fixture.post 1 1 2 7 "b" ""; Fixture.post 2 1 6 7 "f" ""; Fixture.post 3 1 1 7 "a" "";
     Fixture.post 4 1 4 7 "d" ""; Fixture.post 5 1 3 7 "c" ""; Fixture.post 6 1 5 7 "e" ""]
    [].

(** * Further specifications *)

(** A turn in which no concurrent write lands. *)
Definition writeFree (t : turn) : Prop := writes t = [].

(** The string holds a ['%']. *)
Definition hasPercent (s : string) : bool :=
  existsb (Ascii.eqb "%") (list_ascii_of_string s).

(** A document that starts with its [_id] and has no other [_id] and no
    postId. *)
Definition bare (d : D) : bool :=
  match d with
  | (k, _) :: fields =>
      String.eqb k "_id" &&
      negb (existsb (fun e => String.eqb (fst e) "_id" || String.eqb (fst e) "postId")
              fields)
  | [] => false
  end.

(** The request for the post [(b, p)]. *)
Definition idRequest (b p : Z) : IdRequest :=
  {| IdRequest_BlogId := b; IdRequest_PostId := p |}.

(** The content a stored post of the request converts to. *)
Definition contentOf (oid : Z) (request : CreateRequest) (k : Z) : Content :=
  {| PostId := k; UserId := CreateRequest_UserId request;
     Title := CreateRequest_Title request; Text := CreateRequest_Text request;
     CreatedAt := Timestamp oid |}.

(** A blog whose only document carries no postId. *)
Definition bareWorld : World :=
  Fixture.world [[("_id", ObjectID 1); ("blogId", Int64 1); ("title", Str "x")]] [].

(** A script with a fault and no concurrent write. *)
Definition faultyWorld : World :=
  Fixture.world [Fixture.post 1 1 5 7 "dog" "x"]
    [quiet; quiet; {| writes := []; fault := Some ErrClient |}].

(** The collection is [c], no concurrent write is to come, and the script
    is empty if it was at the start. *)
Definition settled (q : Prop) (c : list D) (w : World) : Prop :=
  docs w = c /\ Forall writeFree (script w) /\ (q -> script w = []).

(** What the loop of either revision leaves in the collection. *)
Definition outcomeStored (q : Prop) (request : CreateRequest) (c : list D)
    (carried : Response -> Z -> Prop) (r : option (outcome Response) * World) : Prop :=
  match r with
  | (Some (Returns x), w') =>
      exists oid k, carried x k /\ settled q (c ++ [newPost oid request k])%list w'
  | (_, w') => settled q c w'
  end.

(** * Properties *)

(** ** The compound key *)

Lemma valueEqb_Int64 (n : Z) (v : option value) :
  valueEqb (Some (Int64 n)) v = true <-> numeric v = Some n.
Proof.
  unfold valueEqb, compareValue.
  destruct v as [[| m | m | s | i | b | t] |]; simpl; split; intros H;
    try discriminate.
  - destruct (Z.compare_spec n m); try discriminate. subst. reflexivity.
  - injection H as ->. rewrite Z.compare_refl. reflexivity.
  - destruct (Z.compare_spec n m); try discriminate. subst. reflexivity.
  - injection H as ->. rewrite Z.compare_refl. reflexivity.
Qed.

Lemma hasKey_isPost (b p : Z) (d : D) : hasKey b p d = true <-> isPost b p d.
Proof.
  unfold hasKey, isPost, indexBlogId, indexPostId.
  rewrite andb_true_iff, !valueEqb_Int64. reflexivity.
Qed.

Lemma encodeUint64_range (u : Z) :
  u <= MaxInt64 -> encodeUint64 u = Some (Int64 u).
Proof.
  intros H. unfold encodeUint64.
  destruct (Z.leb_spec u MaxInt64); [reflexivity | lia].
Qed.

(** The filter both revisions build for a compound key selects the
    documents [hasKey] selects. *)
Lemma compileFilter_key (rx : regexEngine) (b p : Z) :
  b <= MaxInt64 -> p <= MaxInt64 ->
  exists q, compileFilter rx [("blogId", Go.Uint64 b); ("postId", Go.Uint64 p)] = Some q
            /\ forall d, q d = hasKey b p d.
Proof.
  intros Hb Hp. simpl. rewrite (encodeUint64_range b Hb), (encodeUint64_range p Hp).
  eexists; split; [reflexivity |].
  intros d. unfold hasKey, indexBlogId, indexPostId. now rewrite andb_true_r.
Qed.

Lemma filter_ext_nil {A : Type} (f g : A -> bool) (l : list A) :
  (forall x, f x = g x) -> (forall x, In x l -> g x = false) -> List.filter f l = [].
Proof.
  intros Hfg Hg. induction l as [| x l IH]; simpl; [reflexivity |].
  rewrite Hfg, (Hg x (or_introl eq_refl)). apply IH. intros y Hy. apply Hg. now right.
Qed.

(** ** Get: not found against internal errors *)

Lemma FindOne_key_none (b p : Z) (w w1 : World) :
  enter w = (None, w1) -> b <= MaxInt64 -> p <= MaxInt64 ->
  (forall d, In d (docs w1) -> ~ isPost b p d) ->
  FindOne [("blogId", Go.Uint64 b); ("postId", Go.Uint64 p)] noOptions w
  = (Err ErrNoDocuments, w1).
Proof.
  intros He Hb Hp Hnone. unfold FindOne, runQuery. rewrite He.
  destruct (compileFilter_key (engine w1) b p Hb Hp) as (q & -> & Hq).
  rewrite (filter_ext_nil q (hasKey b p)); [reflexivity | exact Hq |].
  intros d Hd. destruct (hasKey b p d) eqn:E; [| reflexivity].
  apply hasKey_isPost in E. now destruct (Hnone d Hd).
Qed.

(** C7: a Get with no post under the compound key fails with the not-found
    error, which differs from the internal error; a failed connection and
    every other failure of the lookup (anything but "no documents") give the
    internal error.  Both revisions. *)
Theorem GetPost_not_found_vs_internal (request : IdRequest) (w : World) :
  errNoPost <> errInternal /\
  (forall e w0, Connect w = (Err e, w0) ->
     Server.GetPost request w = (Fails errInternal, w0) /\
     Blogserver.GetPost request w = (Fails errInternal, w0)) /\
  (forall w0 w1, Connect w = (Ok tt, w0) -> enter w0 = (None, w1) ->
     IdRequest_BlogId request <= MaxInt64 -> IdRequest_PostId request <= MaxInt64 ->
     (forall d, In d (docs w1) ->
        ~ isPost (IdRequest_BlogId request) (IdRequest_PostId request) d) ->
     Server.GetPost request w = (Fails errNoPost, w1) /\
     Blogserver.GetPost request w = (Fails errNoPost, w1)) /\
  (forall w0 e w1, Connect w = (Ok tt, w0) ->
     FindOne [("blogId", Go.Uint64 (IdRequest_BlogId request));
              ("postId", Go.Uint64 (IdRequest_PostId request))] noOptions w0
     = (Err e, w1) ->
     e <> ErrNoDocuments ->
     Server.GetPost request w = (Fails errInternal, w1) /\
     Blogserver.GetPost request w = (Fails errInternal, w1)).
Proof.
  split; [discriminate |]. split; [| split].
  - intros e w0 Hc. unfold Server.GetPost, Blogserver.GetPost. now rewrite Hc.
  - intros w0 w1 Hc He Hb Hp Hnone.
    pose proof (FindOne_key_none _ _ _ _ He Hb Hp Hnone) as Hf.
    unfold Server.GetPost, Blogserver.GetPost. rewrite Hc.
    unfold Server.blogIdKey, Server.postIdKey, Blogserver.blogIdKey, Blogserver.postIdKey.
    now rewrite Hf.
  - intros w0 e w1 Hc Hf Hne.
    unfold Server.GetPost, Blogserver.GetPost. rewrite Hc.
    unfold Server.blogIdKey, Server.postIdKey, Blogserver.blogIdKey, Blogserver.postIdKey.
    rewrite Hf. destruct e; simpl; [congruence | split; reflexivity | split; reflexivity].
Qed.

Lemma GetPost_not_found_vs_internal_witness :
  (Server.GetPost getRequest getWorld = (Fails errNoPost, getWorld) /\
   Blogserver.GetPost getRequest getWorld = (Fails errNoPost, getWorld)) /\
  (fst (Server.GetPost getRequest getFaulty) = Fails errInternal /\
   fst (Blogserver.GetPost getRequest getFaulty) = Fails errInternal) /\
  (fst (Server.GetPost getRequest getDown) = Fails errInternal /\
   fst (Blogserver.GetPost getRequest getDown) = Fails errInternal).
Proof.
  split; [| split].
  - apply (proj1 (proj2 (proj2 (GetPost_not_found_vs_internal getRequest getWorld)))
             getWorld getWorld); try reflexivity; try (vm_compute; discriminate).
    intros d Hd [_ Hp]. simpl in Hd.
    destruct Hd as [<- | [<- | []]]; vm_compute in Hp; discriminate.
  - pose proof (proj2 (proj2 (proj2 (GetPost_not_found_vs_internal getRequest getFaulty)))
                  (snd (Connect getFaulty)) ErrClient
                  (snd (enter (snd (Connect getFaulty))))
                  eq_refl eq_refl ltac:(discriminate)) as [H1 H2].
    rewrite H1, H2. split; reflexivity.
  - pose proof (proj1 (proj2 (GetPost_not_found_vs_internal getRequest getDown))
                  ErrClient (snd (Connect getDown)) eq_refl) as [H1 H2].
    rewrite H1, H2. split; reflexivity.
Defined.

(** ** Delete *)

Lemma DeleteMany_key (b p : Z) (w w1 : World) :
  enter w = (None, w1) -> b <= MaxInt64 -> p <= MaxInt64 ->
  exists n, DeleteMany [("blogId", Go.Uint64 b); ("postId", Go.Uint64 p)] w
            = (Ok n, deleted b p w1).
Proof.
  intros He Hb Hp. unfold DeleteMany. rewrite He.
  destruct (compileFilter_key (engine w1) b p Hb Hp) as (q & -> & Hq).
  eexists. unfold deleted. f_equal. f_equal.
  apply List.filter_ext. intros d. now rewrite Hq.
Qed.

Lemma deleted_spec (b p : Z) (w : World) (d : D) :
  In d (docs (deleted b p w)) <-> In d (docs w) /\ ~ isPost b p d.
Proof.
  unfold deleted, setDocs. simpl. rewrite List.filter_In, negb_true_iff.
  rewrite <- hasKey_isPost. destruct (hasKey b p d); intuition congruence.
Qed.

Lemma enter_quiet (w : World) : script w = [] -> enter w = (None, w).
Proof. intros H. unfold enter. now rewrite H. Qed.

Lemma Connect_quiet (w : World) : script w = [] -> Connect w = (Ok tt, w).
Proof. intros H. unfold Connect. now rewrite (enter_quiet w H). Qed.

(** C8: a Delete removes every document under the compound key and keeps
    the others, and returns success whatever the number of documents
    removed, so that a second Delete of the same key succeeds as well; a
    failed connection and every failure of the removal other than "no
    documents" give the internal error.  Both revisions. *)
Theorem DeletePost_removes_and_succeeds (request : IdRequest) (w : World) :
  let b := IdRequest_BlogId request in
  let p := IdRequest_PostId request in
  (forall w0 w1, Connect w = (Ok tt, w0) -> enter w0 = (None, w1) ->
     b <= MaxInt64 -> p <= MaxInt64 ->
     Server.DeletePost request w = (Returns success, deleted b p w1) /\
     Blogserver.DeletePost request w = (Returns success, deleted b p w1) /\
     (forall d, In d (docs (deleted b p w1)) <-> In d (docs w1) /\ ~ isPost b p d)) /\
  (script w = [] -> b <= MaxInt64 -> p <= MaxInt64 ->
     let w' := deleted b p w in
     Server.DeletePost request w = (Returns success, w') /\
     Server.DeletePost request w' = (Returns success, w') /\
     Blogserver.DeletePost request w = (Returns success, w') /\
     Blogserver.DeletePost request w' = (Returns success, w')) /\
  (forall e w0, Connect w = (Err e, w0) ->
     Server.DeletePost request w = (Fails errInternal, w0) /\
     Blogserver.DeletePost request w = (Fails errInternal, w0)) /\
  (forall w0 e w1, Connect w = (Ok tt, w0) ->
     DeleteMany [("blogId", Go.Uint64 b); ("postId", Go.Uint64 p)] w0 = (Err e, w1) ->
     (e <> ErrNoDocuments ->
      Server.DeletePost request w = (Fails errInternal, w1) /\
      Blogserver.DeletePost request w = (Fails errInternal, w1)) /\
     (e = ErrNoDocuments ->
      Server.DeletePost request w = (Returns success, w1) /\
      Blogserver.DeletePost request w = (Returns success, w1))).
Proof.
  intros b p.
  assert (Hrun : forall v v0 v1, Connect v = (Ok tt, v0) -> enter v0 = (None, v1) ->
            b <= MaxInt64 -> p <= MaxInt64 ->
            Server.DeletePost request v = (Returns success, deleted b p v1) /\
            Blogserver.DeletePost request v = (Returns success, deleted b p v1)).
  { intros v v0 v1 Hc He Hb Hp.
    destruct (DeleteMany_key b p v0 v1 He Hb Hp) as [n Hn].
    unfold Server.DeletePost, Blogserver.DeletePost. rewrite Hc.
    unfold Server.blogIdKey, Server.postIdKey, Blogserver.blogIdKey, Blogserver.postIdKey.
    fold b p. now rewrite Hn. }
  split; [| split; [| split]].
  - intros w0 w1 Hc He Hb Hp.
    destruct (Hrun w w0 w1 Hc He Hb Hp) as [H1 H2].
    split; [exact H1 | split; [exact H2 |]]. intros d. apply deleted_spec.
  - intros Hs Hb Hp w'.
    destruct (Hrun w w w (Connect_quiet w Hs) (enter_quiet w Hs) Hb Hp) as [H1 H2].
    assert (Hs' : script w' = []) by exact Hs.
    destruct (Hrun w' w' w' (Connect_quiet w' Hs') (enter_quiet w' Hs') Hb Hp) as [H3 H4].
    assert (Hidem : deleted b p w' = w').
    { unfold w', deleted, setDocs. simpl. f_equal.
      induction (docs w) as [| d l IH]; simpl; [reflexivity |].
      destruct (hasKey b p d) eqn:E; simpl; [exact IH |]. rewrite E. simpl. now f_equal. }
    rewrite Hidem in H3, H4. auto.
  - intros e w0 Hc. unfold Server.DeletePost, Blogserver.DeletePost. now rewrite Hc.
  - intros w0 e w1 Hc Hd.
    unfold Server.DeletePost, Blogserver.DeletePost. rewrite Hc.
    unfold Server.blogIdKey, Server.postIdKey, Blogserver.blogIdKey, Blogserver.postIdKey.
    fold b p. rewrite Hd. split; intros He.
    + destruct e; simpl; [congruence | split; reflexivity | split; reflexivity].
    + subst e. split; reflexivity.
Qed.

Lemma DeletePost_removes_and_succeeds_witness :
  (Server.DeletePost deleteRequest getWorld
   = (Returns success, Fixture.world [Fixture.post 1 1 5 7 "dog" "x"] []) /\
   Server.DeletePost deleteRequest (Fixture.world [Fixture.post 1 1 5 7 "dog" "x"] [])
   = (Returns success, Fixture.world [Fixture.post 1 1 5 7 "dog" "x"] [])) /\
  fst (Server.DeletePost deleteRequest deleteFaulty) = Fails errInternal /\
  fst (Blogserver.DeletePost deleteRequest getDown) = Fails errInternal.
Proof.
  split; [| split].
  - pose proof (proj1 (proj2 (DeletePost_removes_and_succeeds deleteRequest getWorld))
                  eq_refl ltac:(vm_compute; discriminate) ltac:(vm_compute; discriminate))
      as (H1 & H2 & _).
    split; [exact H1 | exact H2].
  - pose proof (proj2 (proj2 (proj2 (DeletePost_removes_and_succeeds deleteRequest deleteFaulty)))
                  (snd (Connect deleteFaulty)) ErrClient
                  (snd (enter (snd (Connect deleteFaulty)))) eq_refl eq_refl) as [H _].
    destruct (H ltac:(discriminate)) as [H1 _]. now rewrite H1.
  - pose proof (proj1 (proj2 (proj2 (DeletePost_removes_and_succeeds deleteRequest getDown)))
                  ErrClient (snd (Connect getDown)) eq_refl) as [_ H2].
    now rewrite H2.
Defined.

(** ** Search: the calls a Search makes *)

Lemma Server_GetPosts_run (request : SearchRequest)
    (w w0 w1 w2 w3 : World) (total : Z) (cursor : list D) (results : list M) :
  Connect w = (Ok tt, w0) ->
  CountDocuments (searchFilters Server.buildRegexFilter request) w0 = (Ok total, w1) ->
  Find (searchFilters Server.buildRegexFilter request) (pageOptions request) w1
  = (Ok cursor, w2) ->
  All cursor w2 = (Ok results, w3) ->
  Server.GetPosts request w
  = (Returns {| List_ := map Server.convertToContent results; Total := toUint64 total |}, w3).
Proof.
  intros Hc Hn Hf Ha. unfold Server.GetPosts. rewrite Hc.
  unfold searchFilters, pageOptions in *.
  unfold Server.blogIdKey, Server.titleKey, Server.postIdKey.
  destruct (negb (SearchRequest_Filter request =? "")%string); simpl app;
    rewrite Hn, Hf, Ha; reflexivity.
Qed.

(** ** Conversion of stored documents *)

(** C9: converting a stored document never fails; a title or text that is
    absent or not a string becomes the empty string, a postId or userId that
    is absent or not an integer becomes zero.  A Get that finds a document
    returns its conversion whatever the document holds, and a Search of
    [src/server.go] whose driver calls succeed returns one entity per
    document.  Both revisions of [convertToContent]. *)
Theorem convertToContent_defaults (post : M) :
  ((forall s, post !! "title" <> Some (Str s)) ->
     Title (Server.convertToContent post) = "" /\
     Title (Blogserver.convertToContent post) = "") /\
  ((forall s, post !! "text" <> Some (Str s)) ->
     Text (Server.convertToContent post) = "" /\
     Text (Blogserver.convertToContent post) = "") /\
  ((forall n, post !! "postId" <> Some (Int32 n) /\ post !! "postId" <> Some (Int64 n)) ->
     PostId (Server.convertToContent post) = 0 /\
     PostId (Blogserver.convertToContent post) = 0) /\
  ((forall n, post !! "userId" <> Some (Int32 n) /\ post !! "userId" <> Some (Int64 n)) ->
     UserId (Server.convertToContent post) = 0 /\
     UserId (Blogserver.convertToContent post) = 0) /\
  (forall request w w0 d w1,
     Connect w = (Ok tt, w0) ->
     FindOne [("blogId", Go.Uint64 (IdRequest_BlogId request));
              ("postId", Go.Uint64 (IdRequest_PostId request))] noOptions w0
     = (Ok d, w1) ->
     Server.GetPost request w = (Returns (Server.convertToContent (toM d)), w1) /\
     Blogserver.GetPost request w = (Returns (Blogserver.convertToContent (toM d)), w1)) /\
  (forall request w w0 w1 w2 w3 total cursor results,
     Connect w = (Ok tt, w0) ->
     CountDocuments (searchFilters Server.buildRegexFilter request) w0 = (Ok total, w1) ->
     Find (searchFilters Server.buildRegexFilter request) (pageOptions request) w1
     = (Ok cursor, w2) ->
     All cursor w2 = (Ok results, w3) ->
     exists c, Server.GetPosts request w = (Returns c, w3) /\
               List_ c = map Server.convertToContent results /\
               length (List_ c) = length cursor).
Proof.
  split; [| split; [| split; [| split; [| split]]]].
  - intros H. unfold Server.convertToContent, Blogserver.convertToContent,
      Server.titleKey, Blogserver.titleKey. simpl.
    destruct (post !! "title") as [[]|] eqn:E; try (split; reflexivity).
    now destruct (H s).
  - intros H. unfold Server.convertToContent, Blogserver.convertToContent,
      Server.textKey, Blogserver.textKey. simpl.
    destruct (post !! "text") as [[]|] eqn:E; try (split; reflexivity).
    now destruct (H s).
  - intros H. unfold Server.convertToContent, Blogserver.convertToContent,
      Server.postIdKey, Blogserver.postIdKey. simpl.
    destruct (post !! "postId") as [[]|] eqn:E; try (split; reflexivity);
      destruct (H n) as [H1 H2]; congruence.
  - intros H. unfold Server.convertToContent, Blogserver.convertToContent,
      Server.userIdKey, Blogserver.userIdKey. simpl.
    destruct (post !! "userId") as [[]|] eqn:E; try (split; reflexivity);
      destruct (H n) as [H1 H2]; congruence.
  - intros request w w0 d w1 Hc Hf.
    unfold Server.GetPost, Blogserver.GetPost. rewrite Hc.
    unfold Server.blogIdKey, Server.postIdKey, Blogserver.blogIdKey, Blogserver.postIdKey.
    rewrite Hf. split; reflexivity.
  - intros request w w0 w1 w2 w3 total cursor results Hc Hn Hf Ha.
    eexists. split; [exact (Server_GetPosts_run _ _ _ _ _ _ _ _ _ Hc Hn Hf Ha) |].
    split; [reflexivity |]. simpl. rewrite length_map.
    unfold All in Ha. destruct (enter w2) as [[e |] w']; [discriminate |].
    injection Ha as <- _. now rewrite length_map.
Qed.

Lemma convertToContent_defaults_witness :
  Server.convertToContent (toM oddPost)
  = {| PostId := 0; UserId := 0; Title := ""; Text := ""; CreatedAt := 0 |} /\
  Blogserver.convertToContent (toM oddPost)
  = {| PostId := 0; UserId := 0; Title := ""; Text := ""; CreatedAt := 0 |} /\
  (exists c, Server.GetPosts oddRequest oddWorld = (Returns c, oddWorld) /\
             length (List_ c) = 1%nat).
Proof.
  destruct (convertToContent_defaults (toM oddPost)) as (Ht & Hx & Hp & Hu & _ & Hs).
  assert (T : forall s, toM oddPost !! "title" <> Some (Str s))
    by (intros s; vm_compute; discriminate).
  assert (X : forall s, toM oddPost !! "text" <> Some (Str s))
    by (intros s; vm_compute; discriminate).
  assert (P : forall n, toM oddPost !! "postId" <> Some (Int32 n) /\
                        toM oddPost !! "postId" <> Some (Int64 n))
    by (intros n; split; vm_compute; discriminate).
  assert (U : forall n, toM oddPost !! "userId" <> Some (Int32 n) /\
                        toM oddPost !! "userId" <> Some (Int64 n))
    by (intros n; split; vm_compute; discriminate).
  destruct (Ht T) as [T1 T2], (Hx X) as [X1 X2], (Hp P) as [P1 P2], (Hu U) as [U1 U2].
  split; [| split].
  - destruct (Server.convertToContent (toM oddPost)) eqn:E. simpl in *. subst.
    f_equal. apply (f_equal CreatedAt) in E. simpl in E. rewrite <- E. reflexivity.
  - destruct (Blogserver.convertToContent (toM oddPost)) eqn:E. simpl in *. subst.
    f_equal. apply (f_equal CreatedAt) in E. simpl in E. rewrite <- E. reflexivity.
  - destruct (Hs oddRequest oddWorld oddWorld oddWorld oddWorld oddWorld 1 [oddPost]
                [toM oddPost] eq_refl eq_refl eq_refl eq_refl) as (c & Hc & _ & Hl).
    exists c. split; [exact Hc | exact Hl].
Defined.

(** ** The page of [src/blogserver/blogserver.go] *)

(** C10: in [src/blogserver/blogserver.go], [convertToContents] returns a
    list of length zero for every input, and so every Search that succeeds
    returns an empty page, whatever the number of documents found. *)
Theorem Blogserver_page_always_empty :
  (forall posts : list M, length (Blogserver.convertToContents posts) = 0%nat) /\
  (forall request w c w',
     Blogserver.GetPosts request w = (Returns c, w') -> List_ c = []).
Proof.
  split; [reflexivity |].
  intros request w c w'. unfold Blogserver.GetPosts.
  destruct (Connect w) as [[[] | e] w0]; [| discriminate].
  destruct (CountDocuments _ w0) as [[total | e] w1]; [| discriminate].
  destruct (Find _ _ w1) as [[cursor | e] w2]; [| discriminate].
  destruct (All cursor w2) as [[results | e] w3]; [| discriminate].
  intros H. injection H as <- _. reflexivity.
Qed.

Lemma Blogserver_page_always_empty_witness :
  Blogserver.GetPosts oddRequest getWorld = (Returns {| List_ := []; Total := 2 |}, getWorld)
  /\ List_ {| List_ := []; Total := 2 |} = [].
Proof.
  split; [reflexivity |].
  exact (proj2 Blogserver_page_always_empty oddRequest getWorld _ getWorld eq_refl).
Defined.

(** ** Filter normalization *)

Lemma startsWith_spec (s t : string) :
  startsWith s t = true <-> exists u, s = t +:+ u.
Proof.
  unfold startsWith. revert s. induction t as [| c t IH]; intros s; simpl.
  - split; [intros _; now exists s | now destruct s].
  - destruct s as [| c' s]; simpl.
    + split; [discriminate | intros [u Hu]; discriminate].
    + destruct (ascii_dec c c') as [-> | Hne].
      * rewrite IH. split; intros [u Hu]; exists u; [now rewrite Hu | now injection Hu].
      * split; [discriminate | intros [u Hu]; injection Hu; congruence].
Qed.

Lemma endsWith_spec (s t : string) :
  endsWith s t = true <-> exists u, s = u +:+ t.
Proof.
  induction s as [| c s IH]; cbn [endsWith].
  - rewrite orb_false_r. split.
    + intros H. apply String.eqb_eq in H. subst t. now exists "".
    + intros [[| c u] Hu]; [apply String.eqb_eq; exact Hu | discriminate].
  - rewrite orb_true_iff, IH. split.
    + intros [H | [u ->]]; [| now exists (String c u)].
      apply String.eqb_eq in H. subst t. now exists "".
    + intros [[| c' u] Hu]; [left; apply String.eqb_eq; exact Hu | right].
      injection Hu as _ ->. now exists u.
Qed.

Lemma prefix_empty (s : string) : String.prefix "" s = true.
Proof. now destruct s. Qed.

Lemma prefix_cons (c c' : ascii) (t s : string) :
  String.prefix (String c t) (String c' s) = Ascii.eqb c c' && String.prefix t s.
Proof.
  cbn [String.prefix]. destruct (ascii_dec c c') as [-> | Hne].
  - now rewrite Ascii.eqb_refl.
  - destruct (Ascii.eqb_spec c c'); [contradiction | reflexivity].
Qed.

Lemma ReplaceAll_percent (s : string) :
  ReplaceAll s "%" anySequence = replacePercent s.
Proof.
  unfold ReplaceAll. induction s as [| c s IH]; [reflexivity |].
  cbn [ReplaceAllFrom replacePercent]. rewrite prefix_cons, prefix_empty, andb_true_r.
  rewrite (Ascii.eqb_sym "%" c). cbn [String.length Nat.sub]. rewrite IH.
  now destruct (Ascii.eqb c "%").
Qed.

Lemma IndexFrom_range (s sub : string) (i : Z) :
  0 <= i -> IndexFrom i s sub = -1 \/ i <= IndexFrom i s sub.
Proof.
  revert i. induction s as [| c s IH]; intros i Hi; cbn [IndexFrom].
  - destruct (String.prefix sub ""); [right; lia | now left].
  - destruct (String.prefix sub (String c s)); [right; lia |].
    destruct (IH (i + 1) ltac:(lia)) as [H | H]; [now left | right; lia].
Qed.

(** [strings.Index(s, t) != 0] is "[s] does not start with [t]". *)
Lemma Index_zero (s sub : string) : (Index s sub =? 0) = startsWith s sub.
Proof.
  unfold Index, startsWith. destruct s as [| c s]; cbn [IndexFrom].
  - now destruct (String.prefix sub "").
  - destruct (String.prefix sub (String c s)); [reflexivity |].
    change (0 + 1) with 1.
    destruct (IndexFrom_range s sub 1 ltac:(lia)) as [H | H];
      apply Z.eqb_neq; lia.
Qed.

Lemma length_append (s t : string) :
  String.length (s +:+ t) = (String.length s + String.length t)%nat.
Proof. induction s as [| c s IH]; simpl; [reflexivity | now rewrite IH]. Qed.

Lemma endsWith_length (s t : string) :
  endsWith s t = true -> (String.length t <= String.length s)%nat.
Proof.
  rewrite endsWith_spec. intros [u ->]. rewrite length_append. lia.
Qed.

Lemma append_empty_r (s : string) : s +:+ "" = s.
Proof.
  induction s as [| c s IH]; [reflexivity |].
  change (String c (s +:+ "") = String c s). now rewrite IH.
Qed.

Lemma startsWith_same_length (s t : string) :
  startsWith s t = true -> String.length s = String.length t -> s = t.
Proof.
  rewrite startsWith_spec. intros [u ->]. rewrite length_append.
  intros H. destruct u; [| simpl in H; lia].
  apply append_empty_r.
Qed.

Lemma startsWith_length (s t : string) :
  startsWith s t = true -> (String.length t <= String.length s)%nat.
Proof.
  rewrite startsWith_spec. intros [u ->]. rewrite length_append. lia.
Qed.

Lemma LastIndexFrom_token (s : string) (i : Z) :
  0 <= i ->
  let r := LastIndexFrom i s anySequence in
  (r = -1 \/ (i <= r /\ r <= i + len s - 2)) /\
  (endsWith s anySequence = true -> r = i + len s - 2) /\
  (2 <= len s -> r = i + len s - 2 -> endsWith s anySequence = true).
Proof.
  revert i. induction s as [| c s IH]; intros i Hi.
  - cbn. repeat split; [now left | discriminate | lia].
  - specialize (IH (i + 1) ltac:(lia)). cbn zeta in IH.
    destruct IH as (Hrange & Hends & Hback).
    cbn [LastIndexFrom endsWith]. cbn zeta.
    assert (Hlen : len (String c s) = len s + 1).
    { unfold len. cbn [String.length]. lia. }
    rewrite Hlen.
    set (r' := LastIndexFrom (i + 1) s anySequence) in *.
    assert (Hexact : String.eqb (String c s) anySequence = true -> r' = -1).
    { intros H. apply String.eqb_eq in H. injection H as -> ->. reflexivity. }
    destruct (Z.leb_spec 0 r') as [Hpos | Hneg].
    + destruct Hrange as [Hr | Hr]; [lia |].
      repeat split.
      * right. lia.
      * intros H. apply orb_true_iff in H. destruct H as [H | H].
        -- apply Hexact in H. lia.
        -- rewrite (Hends H). lia.
      * intros _ Hr'. apply orb_true_iff. right. apply Hback; lia.
    + assert (Hr' : r' = -1) by (destruct Hrange; lia).
      assert (Hno : endsWith s anySequence = false).
      { destruct (endsWith s anySequence) eqn:E; [| reflexivity].
        pose proof (Hends eq_refl) as H. apply endsWith_length in E.
        unfold len in H. simpl in E. lia. }
      rewrite Hno, orb_false_r.
      destruct (String.prefix anySequence (String c s)) eqn:Hp.
      * pose proof (startsWith_length _ _ Hp) as Hl. simpl in Hl.
        assert (Hl' : 1 <= len s) by (unfold len; lia).
        repeat split.
        -- right. lia.
        -- intros H. apply String.eqb_eq in H. injection H as _ ->. unfold len. simpl String.length. lia.
        -- intros _ H. apply String.eqb_eq. apply startsWith_same_length; [exact Hp |].
           unfold len in H. simpl. lia.
      * repeat split.
        -- now left.
        -- intros H. apply String.eqb_eq in H. rewrite H in Hp. discriminate.
        -- intros H2 H. lia.
Qed.

(** [strings.LastIndex(s, ".*") != len(s)-2] is "[s] does not end with the
    token", except for a string of one byte: there the search gives -1,
    which is [len(s)-2]. *)
Lemma LastIndex_token (s : string) :
  len s <> 1 -> (LastIndex s anySequence =? len s - 2) = endsWith s anySequence.
Proof.
  intros Hne. unfold LastIndex.
  destruct (LastIndexFrom_token s 0 ltac:(lia)) as (Hrange & Hends & Hback).
  cbn zeta in *.
  destruct (endsWith s anySequence) eqn:E.
  - apply Z.eqb_eq. rewrite (Hends eq_refl). lia.
  - apply Z.eqb_neq. intros H.
    assert (Hl : 0 <= len s) by (unfold len; lia).
    destruct (Z.le_gt_cases 2 (len s)) as [H2 | H2].
    + assert (false = true) by (apply Hback; lia). discriminate.
    + destruct Hrange as [Hr | Hr]; lia.
Qed.

Lemma LastIndex_one_byte (s : string) :
  len s = 1 -> LastIndex s anySequence = len s - 2.
Proof.
  intros H. destruct s as [| c [| c' s]]; unfold len in H; simpl in H; try lia.
  unfold LastIndex, anySequence. cbn [LastIndexFrom].
  change (String.prefix ".*" "") with false. cbv iota zeta.
  change (0 <=? -1) with false. cbv iota.
  rewrite prefix_cons. change (String.prefix "*" "") with false.
  now rewrite andb_false_r.
Qed.

(** [src/server.go] normalizes as the specification says whenever the
    pattern, after replacement, is not a single byte. *)
Lemma Server_buildRegexFilter_normalizes (filter : string) :
  len (replacePercent filter) <> 1 ->
  Server.buildRegexFilter filter = [("$regex", Go.String_ (normalizePattern filter))].
Proof.
  intros Hne. unfold Server.buildRegexFilter, normalizePattern.
  change ".*" with anySequence. rewrite ReplaceAll_percent.
  rewrite Index_zero, (LastIndex_token _ Hne).
  destruct (startsWith (replacePercent filter) anySequence),
           (endsWith (replacePercent filter) anySequence);
    rewrite ?append_empty_r; reflexivity.
Qed.

(** A pattern of one byte other than ['%'] only gets the leading token. *)
Lemma Server_buildRegexFilter_one_byte (c : ascii) :
  c <> "%"%char ->
  Server.buildRegexFilter (String c "") = [("$regex", Go.String_ (".*" +:+ String c ""))]
  /\ normalizePattern (String c "") = ".*" +:+ String c "" +:+ ".*".
Proof.
  intros Hc.
  assert (Hr : replacePercent (String c "") = String c "").
  { cbn [replacePercent]. destruct (Ascii.eqb_spec c "%"); [contradiction | reflexivity]. }
  split.
  - unfold Server.buildRegexFilter. change ".*" with anySequence.
    rewrite ReplaceAll_percent, Hr, Index_zero.
    rewrite (LastIndex_one_byte (String c "") eq_refl), Z.eqb_refl.
    unfold startsWith, anySequence. rewrite prefix_cons.
    change (String.prefix "*" "") with false. now rewrite andb_false_r.
  - unfold normalizePattern. rewrite Hr.
    unfold startsWith, anySequence. rewrite prefix_cons.
    change (String.prefix "*" "") with false. rewrite andb_false_r.
    cbn [endsWith]. rewrite orb_false_r.
    destruct (String.eqb_spec (String c "") ".*"); [discriminate | reflexivity].
Qed.

Example Server_buildRegexFilter_cat :
  Server.buildRegexFilter "cat" = [("$regex", Go.String_ ".*cat.*")] /\
  Server.buildRegexFilter "%cat" = [("$regex", Go.String_ ".*cat.*")].
Proof. split; reflexivity. Qed.

(** C3, at the inputs where the code departs from it: [src/server.go]
    gives the one-byte pattern ["a"] the leading token only, although ["a"]
    does not end with the token; [src/blogserver/blogserver.go] does not
    replace ['%'], so that ["%cat"] keeps its ['%'] and is prefixed. *)
Theorem buildRegexFilter_departs_from_normalization :
  Server.buildRegexFilter "a" = [("$regex", Go.String_ ".*a")] /\
  endsWith (replacePercent "a") anySequence = false /\
  normalizePattern "a" = ".*a.*" /\
  Blogserver.buildFilterRegex "%cat" = [("$regex", Go.String_ ".*%cat.*")] /\
  normalizePattern "%cat" = ".*cat.*".
Proof. repeat split; reflexivity. Qed.

(** ** Search: count and page *)

Lemma applyWrite_engine (w : World) (x : write) : engine (applyWrite w x) = engine w.
Proof.
  destruct x as [d | b p]; simpl; [| reflexivity].
  now destruct (store (docs w) (ensureID (nextOid w) d)).
Qed.

Lemma applyWrites_engine (l : list write) (w : World) :
  engine (fold_left applyWrite l w) = engine w.
Proof.
  revert w. induction l as [| x l IH]; intros w; simpl; [reflexivity |].
  now rewrite IH, applyWrite_engine.
Qed.

Lemma enter_engine (w w' : World) (f : option error) :
  enter w = (f, w') -> engine w' = engine w.
Proof.
  unfold enter. destruct (script w) as [| t rest]; intros H; injection H as _ <-;
    [reflexivity |]. now rewrite applyWrites_engine.
Qed.

Lemma compileFilter_search (rx : regexEngine) (normalize : string -> Go.D)
    (request : SearchRequest) (m : option (string -> bool)) :
  SearchRequest_BlogId request <= MaxInt64 ->
  titleMatcher rx normalize request m ->
  exists q, compileFilter rx (searchFilters normalize request) = Some q /\
            forall d, q d = searchMatch (SearchRequest_BlogId request) m d.
Proof.
  intros Hb Hm. unfold searchFilters.
  destruct Hm as [He | pattern matcher Hne Hn Hrx].
  - rewrite He. cbn. rewrite (encodeUint64_range _ Hb).
    eexists; split; [reflexivity |]. intros d. unfold searchMatch, inBlog. reflexivity.
  - destruct (String.eqb_spec (SearchRequest_Filter request) ""); [contradiction |].
    cbn [negb]. cbn [compileFilter compileClause]. rewrite (encodeUint64_range _ Hb), Hn.
    cbn. rewrite Hrx.
    eexists; split; [reflexivity |]. intros d.
    unfold searchMatch, inBlog, titleMatches. now rewrite andb_true_r.
Qed.

Lemma CountDocuments_search (normalize : string -> Go.D) (request : SearchRequest)
    (m : option (string -> bool)) (w w1 : World) :
  enter w = (None, w1) ->
  SearchRequest_BlogId request <= MaxInt64 ->
  titleMatcher (engine w) normalize request m ->
  CountDocuments (searchFilters normalize request) w
  = (Ok (Z.of_nat (length (List.filter (searchMatch (SearchRequest_BlogId request) m)
                             (docs w1)))), w1).
Proof.
  intros He Hb Hm. unfold CountDocuments, runQuery. rewrite He.
  rewrite (enter_engine _ _ _ He).
  destruct (compileFilter_search _ _ _ _ Hb Hm) as (q & -> & Hq).
  cbn. rewrite length_map. now rewrite (List.filter_ext _ _ Hq).
Qed.

Lemma Find_search (normalize : string -> Go.D) (request : SearchRequest)
    (m : option (string -> bool)) (o : FindOptions) (k : Z) (w w1 : World) :
  enter w = (None, w1) ->
  SearchRequest_BlogId request <= MaxInt64 ->
  titleMatcher (engine w) normalize request m ->
  Projection o = None -> Skip o = Some k -> 0 <= k ->
  limitRefused (Limit o) = false ->
  Find (searchFilters normalize request) o w
  = (Ok (applyLimit (Limit o)
           (skipn (Z.to_nat k)
              (applySort (Sort o)
                 (List.filter (searchMatch (SearchRequest_BlogId request) m) (docs w1))))), w1).
Proof.
  intros He Hb Hm Hp Hs Hk Hl. unfold Find, runQuery. rewrite He.
  rewrite (enter_engine _ _ _ He).
  destruct (compileFilter_search _ _ _ _ Hb Hm) as (q & -> & Hq).
  rewrite Hs, Hp, Hl. destruct (Z.ltb_spec k 0); [lia |].
  rewrite (List.filter_ext _ _ Hq). cbn [applyProjection]. now rewrite map_id.
Qed.

(** *** The sort of the model sorts *)

Lemma compareValue_antisym (a b : option value) :
  compareValue b a = CompOpp (compareValue a b).
Proof.
  unfold compareValue.
  destruct a as [[| x | x | x | x | x | x] |], b as [[| y | y | y | y | y | y] |];
    cbn; try reflexivity;
    try apply Z.compare_antisym; try apply String.compare_antisym.
  now destruct x, y.
Qed.

Lemma before_desc (d e : D) :
  before "postId" (-1) d e = true <-> notOlder d e.
Proof.
  unfold before, notOlder.
  destruct (compareValue (lookupD "postId" d) (lookupD "postId" e)); cbn;
    split; congruence.
Qed.

Lemma not_before_desc (d e : D) :
  before "postId" (-1) d e = false -> notOlder e d.
Proof.
  unfold before, notOlder. rewrite (compareValue_antisym (lookupD "postId" d)).
  destruct (compareValue (lookupD "postId" d) (lookupD "postId" e)); cbn;
    congruence.
Qed.

Lemma insertSorted_HdRel (a d : D) (l : list D) :
  HdRel notOlder a l -> notOlder a d ->
  HdRel notOlder a (insertSorted "postId" (-1) d l).
Proof.
  intros Hl Hd. destruct l as [| e l]; simpl; [now constructor |].
  destruct (before "postId" (-1) d e); constructor; [exact Hd |].
  now inversion Hl.
Qed.

Lemma insertSorted_Sorted (d : D) (l : list D) :
  Sorted notOlder l -> Sorted notOlder (insertSorted "postId" (-1) d l).
Proof.
  induction 1 as [| e l Hs IH Hh]; simpl; [repeat constructor |].
  destruct (before "postId" (-1) d e) eqn:E.
  - constructor; [now constructor |]. constructor. now apply before_desc.
  - constructor; [exact IH |]. apply insertSorted_HdRel; [exact Hh |].
    now apply not_before_desc.
Qed.

Lemma insertSorted_Permutation (key : string) (dir : Z) (d : D) (l : list D) :
  Permutation (insertSorted key dir d l) (d :: l).
Proof.
  induction l as [| e l IH]; simpl; [reflexivity |].
  destruct (before key dir d e); [reflexivity |].
  rewrite IH. apply perm_swap.
Qed.

(** The page order: a permutation of the selected documents in which no
    document stands before one with a greater postId. *)
Lemma sortBy_newest_first (l : list D) :
  Sorted notOlder (sortBy "postId" (-1) l) /\ Permutation (sortBy "postId" (-1) l) l.
Proof.
  unfold sortBy. induction l as [| d l [IHs IHp]]; simpl; [split; constructor |].
  split; [now apply insertSorted_Sorted |].
  rewrite insertSorted_Permutation. now constructor.
Qed.

(** *** What a Search of [src/server.go] returns *)

Lemma toInt64_small (x : Z) : - two63 <= x <= MaxInt64 -> toInt64 x = x.
Proof.
  unfold toInt64, MaxInt64, two64, two63. intros H.
  rewrite Z.mod_small; lia.
Qed.

Lemma sentLimit_small (n : Z) :
  - MaxInt64 <= n <= MaxInt64 -> sentLimit n = Z.abs n.
Proof.
  intros H. unfold sentLimit. destruct (Z.ltb_spec n 0).
  - rewrite toInt64_small by (unfold MaxInt64, two63 in *; lia). lia.
  - lia.
Qed.

(** A limit other than the least int64 is accepted. *)
Lemma limitRefused_small (n : Z) :
  - MaxInt64 <= n <= MaxInt64 -> limitRefused (Some n) = false.
Proof.
  intros H. cbn [limitRefused]. rewrite (sentLimit_small n H).
  destruct (Z.ltb_spec (Z.abs n) 0); [lia | reflexivity].
Qed.

Lemma toUint64_small (x : Z) : 0 <= x < two64 -> toUint64 x = x.
Proof. unfold toUint64. intros H. now apply Z.mod_small. Qed.

Lemma Connect_engine (w w0 : World) (r : result unit) :
  Connect w = (r, w0) -> engine w0 = engine w.
Proof.
  unfold Connect. destruct (enter w) as [[e |] w'] eqn:E; intros H;
    injection H as _ <-; exact (enter_engine _ _ _ E).
Qed.

Lemma filter_length_le {A : Type} (f : A -> bool) (l : list A) :
  (length (List.filter f l) <= length l)%nat.
Proof. induction l as [| x l IH]; simpl; [lia |]. destruct (f x); simpl; lia. Qed.

(** When no driver call fails, a Search of [src/server.go] counts the
    selected posts of the collection as it is when counted, and returns the
    conversion of the selected posts of the collection as it is when read,
    newest first, from position [start], limited by [end - start] as the
    server reads a limit. *)
Lemma Server_GetPosts_page (request : SearchRequest) (m : option (string -> bool))
    (w w0 w1 w2 w3 : World) :
  let b := SearchRequest_BlogId request in
  let s := SearchRequest_Start request in
  let e := SearchRequest_End request in
  Connect w = (Ok tt, w0) -> enter w0 = (None, w1) ->
  enter w1 = (None, w2) -> enter w2 = (None, w3) ->
  b <= MaxInt64 -> 0 <= s <= MaxInt64 -> 0 <= e <= MaxInt64 ->
  titleMatcher (engine w) Server.buildRegexFilter request m ->
  Z.of_nat (length (docs w1)) < two64 ->
  Server.GetPosts request w
  = (Returns
       {| List_ := map Server.convertToContent
                     (map toM (applyLimit (Some (e - s))
                                 (skipn (Z.to_nat s) (selected b m (docs w2)))));
          Total := Z.of_nat (length (List.filter (searchMatch b m) (docs w1))) |},
     w3).
Proof.
  intros b s e Hc E1 E2 E3 Hb Hs He Hm Hbig.
  pose proof (Connect_engine _ _ _ Hc) as G0.
  pose proof (enter_engine _ _ _ E1) as G1.
  assert (Hm0 : titleMatcher (engine w0) Server.buildRegexFilter request m)
    by now rewrite G0.
  assert (Hm1 : titleMatcher (engine w1) Server.buildRegexFilter request m)
    by now rewrite G1, G0.
  pose proof (CountDocuments_search _ _ _ _ _ E1 Hb Hm0) as Hn.
  pose proof (Find_search _ _ _ (pageOptions request) (toInt64 s) _ _ E2 Hb Hm1
                eq_refl eq_refl) as Hf.
  assert (Hs' : toInt64 s = s) by (apply toInt64_small; unfold two63 in *; lia).
  assert (He' : toInt64 e = e) by (apply toInt64_small; unfold two63 in *; lia).
  assert (Hl : toInt64 (e - s) = e - s)
    by (apply toInt64_small; unfold MaxInt64, two63 in *; lia).
  rewrite Hs' in Hf. specialize (Hf ltac:(lia)).
  cbn [pageOptions Limit] in Hf. fold s e in Hf. rewrite Hs', He', Hl in Hf.
  specialize (Hf (limitRefused_small (e - s) ltac:(lia))).
  assert (Ha : forall cursor, All cursor w2 = (Ok (map toM cursor), w3)).
  { intros cursor. unfold All. now rewrite E3. }
  rewrite (Server_GetPosts_run request w w0 w1 w2 w3 _ _ _ Hc Hn Hf (Ha _)).
  cbn [Sort applySort]. fold b. unfold selected.
  rewrite toUint64_small; [reflexivity |].
  pose proof (filter_length_le (searchMatch b m) (docs w1)). lia.
Qed.

Lemma applyLimit_positive (n : Z) (l : list D) :
  0 < n -> applyLimit (Some n) l = firstn (Z.to_nat n) l.
Proof.
  intros H. unfold applyLimit, sentLimit.
  destruct (Z.ltb_spec n 0); [lia |]. destruct (Z.eqb_spec n 0); [lia | reflexivity].
Qed.

(** For [start < end], a Search of [src/server.go] returns the half-open
    page of the selected posts, newest first. *)
Lemma Server_GetPosts_half_open (request : SearchRequest) (m : option (string -> bool))
    (w w0 w1 w2 w3 : World) :
  let b := SearchRequest_BlogId request in
  let s := SearchRequest_Start request in
  let e := SearchRequest_End request in
  Connect w = (Ok tt, w0) -> enter w0 = (None, w1) ->
  enter w1 = (None, w2) -> enter w2 = (None, w3) ->
  b <= MaxInt64 -> 0 <= s -> s < e -> e <= MaxInt64 ->
  titleMatcher (engine w) Server.buildRegexFilter request m ->
  Z.of_nat (length (docs w1)) < two64 ->
  exists c, Server.GetPosts request w = (Returns c, w3) /\
    List_ c = map Server.convertToContent (map toM (halfOpen s e (selected b m (docs w2)))) /\
    Total c = Z.of_nat (length (List.filter (searchMatch b m) (docs w1))) /\
    (length (List_ c) <= Z.to_nat (e - s))%nat.
Proof.
  intros b s e Hc E1 E2 E3 Hb Hs Hse He Hm Hbig.
  eexists. split.
  - apply (Server_GetPosts_page request m w w0 w1 w2 w3); try assumption;
      fold s e; lia.
  - cbn [List_ Total]. fold b s e. rewrite applyLimit_positive by lia.
    unfold halfOpen. repeat split. rewrite !length_map, length_firstn. lia.
Qed.

(** For [start = end] the limit handed to the server is 0, which the server
    reads as "no limit": the Search returns every selected post from
    position [start] on. *)
Lemma Server_GetPosts_empty_range (request : SearchRequest) (m : option (string -> bool))
    (w w0 w1 w2 w3 : World) :
  let b := SearchRequest_BlogId request in
  let s := SearchRequest_Start request in
  Connect w = (Ok tt, w0) -> enter w0 = (None, w1) ->
  enter w1 = (None, w2) -> enter w2 = (None, w3) ->
  b <= MaxInt64 -> 0 <= s <= MaxInt64 -> SearchRequest_End request = s ->
  titleMatcher (engine w) Server.buildRegexFilter request m ->
  Z.of_nat (length (docs w1)) < two64 ->
  exists c, Server.GetPosts request w = (Returns c, w3) /\
    List_ c = map Server.convertToContent
                (map toM (skipn (Z.to_nat s) (selected b m (docs w2)))).
Proof.
  intros b s Hc E1 E2 E3 Hb Hs He Hm Hbig.
  eexists. split.
  - apply (Server_GetPosts_page request m w w0 w1 w2 w3); try assumption.
    rewrite He. exact Hs.
  - cbn [List_]. fold b s. rewrite He. fold s. now rewrite Z.sub_diag.
Qed.


(** *** The two revisions on a small collection *)

(** C4, at an input where [src/blogserver/blogserver.go] departs from it:
    the count is taken before the title pattern joins the filter, so the
    total of a Search for ["cat"] is the number of posts of the blog, 2, and
    not the number of posts of the blog whose title matches, 1, which is the
    total [src/server.go] returns. *)
Theorem Blogserver_total_ignores_pattern :
  fst (Blogserver.GetPosts (search "cat" 0 10) searchWorld)
  = Returns {| List_ := []; Total := 2 |} /\
  length (List.filter (searchMatch 1 (Fixture.literalEngine ".*cat.*")) (docs searchWorld))
  = 1%nat /\
  fst (Server.GetPosts (search "cat" 0 10) searchWorld)
  = Returns {| List_ := [cat]; Total := 1 |}.
Proof. repeat split; vm_compute; reflexivity. Qed.

(** The page [2, 5) of six posts in [src/server.go]: the posts 4, 3 and 2,
    after the two newest, 6 and 5. *)
Example Server_GetPosts_2_5 :
  option_map (fun c => (map PostId (List_ c), Total c))
    (match fst (Server.GetPosts (search "" 2 5) sixWorld) with
     | Returns c => Some c
     | _ => None
     end)
  = Some ([4; 3; 2], 6).
Proof. vm_compute. reflexivity. Qed.

(** C5, at inputs where the code departs from it: for [start = end = 0]
    [src/server.go] hands the limit 0 to the server, which reads it as "no
    limit", and returns both posts of the blog instead of none; and
    [src/blogserver/blogserver.go] returns an empty page for [0, 5) although
    the blog has two posts. *)
Theorem GetPosts_page_departs :
  fst (Server.GetPosts (search "" 0 0) searchWorld)
  = Returns {| List_ := [dog; cat]; Total := 2 |} /\
  halfOpen 0 0 [dog; cat] = [] /\
  fst (Blogserver.GetPosts (search "" 0 5) searchWorld)
  = Returns {| List_ := []; Total := 2 |} /\
  fst (Server.GetPosts (search "" 0 5) searchWorld)
  = Returns {| List_ := [dog; cat]; Total := 2 |}.
Proof. repeat split; vm_compute; reflexivity. Qed.

(** ** Create: the candidate identifier *)

Lemma wellFormed_inv (d : D) :
  wellFormed d = true ->
  exists i fields v p,
    d = ("_id", i) :: fields /\
    existsb (fun e => String.eqb (fst e) "_id") fields = false /\
    lookupD "postId" fields = Some v /\ numeric (Some v) = Some p /\
    0 <= p < MaxInt64.
Proof.
  destruct d as [| [k i] fields]; [discriminate |]. cbn [wellFormed].
  intros H. apply andb_true_iff in H as [H Hp]. apply andb_true_iff in H as [Hk Hn].
  apply String.eqb_eq in Hk. subst k. apply negb_true_iff in Hn.
  destruct (lookupD "postId" fields) as [v |] eqn:Hl; [| discriminate].
  destruct (numeric (Some v)) as [p |] eqn:Hv; [| discriminate].
  apply andb_true_iff in Hp as [H0 H1].
  exists i, fields, v, p. repeat split; try assumption; lia.
Qed.

Lemma wellFormed_postId (d : D) :
  wellFormed d = true ->
  exists p, numeric (lookupD "postId" d) = Some p /\ 0 <= p < MaxInt64.
Proof.
  intros H. destruct (wellFormed_inv d H) as (i & fields & v & p & -> & _ & Hl & Hv & Hp).
  exists p. split; [| exact Hp]. cbn [lookupD].
  change (String.eqb "postId" "_id") with false. cbv iota. now rewrite Hl.
Qed.

(** The projection on postId of a well-formed post: [_id], then postId. *)
Lemma projection_postId (i : value) (fields : D) (v : value) :
  existsb (fun e => String.eqb (fst e) "_id") fields = false ->
  lookupD "postId" fields = Some v ->
  exists rest,
    applyProjection (Some ["postId"]) (("_id", i) :: fields)
    = ("_id", i) :: ("postId", v) :: rest.
Proof.
  intros Hn Hl. cbn [applyProjection List.filter fst]. unfold idKey.
  change (String.eqb "_id" "_id") with true. cbn [orb].
  induction fields as [| [k x] fields IH]; [discriminate |].
  cbn [existsb fst] in Hn. apply orb_false_iff in Hn as [Hk Hn].
  cbn [lookupD] in Hl. cbn [List.filter fst existsb]. rewrite Hk, orb_false_r. cbn [orb].
  rewrite String.eqb_sym. destruct (String.eqb "postId" k) eqn:E.
  - apply String.eqb_eq in E. subst k. injection Hl as ->. eexists. reflexivity.
  - destruct (IH Hn Hl) as [rest Hr]. exists rest.
    injection Hr as Hr. now rewrite Hr.
Qed.

Lemma compareValue_numeric (a b : option value) (x y : Z) :
  numeric a = Some x -> numeric b = Some y -> compareValue a b = (x ?= y).
Proof.
  destruct a as [[| n | n | s | i | t | t] |], b as [[| n' | n' | s' | i' | t' | t'] |];
    cbn; try discriminate; intros Ha Hb; injection Ha as ->; injection Hb as ->;
    reflexivity.
Qed.

(** On documents with numeric keys, the first document of the descending
    sort has the greatest key. *)
Lemma sortBy_head (l : list D) :
  (forall d, In d l -> exists p, numeric (lookupD "postId" d) = Some p) ->
  match sortBy "postId" (-1) l with
  | [] => l = []
  | d :: _ =>
      In d l /\
      forall e p pd, In e l -> numeric (lookupD "postId" e) = Some p ->
                     numeric (lookupD "postId" d) = Some pd -> p <= pd
  end.
Proof.
  induction l as [| x l IH]; intros Hnum; [reflexivity |].
  assert (Hl : forall d, In d l -> exists p, numeric (lookupD "postId" d) = Some p)
    by (intros d Hd; apply Hnum; now right).
  specialize (IH Hl). unfold sortBy in *. cbn [fold_right].
  destruct (fold_right (insertSorted "postId" (-1)) [] l) as [| y ys].
  - subst l. cbn. split; [now left |].
    intros e p pd [<- | []] Hp Hd. rewrite Hp in Hd. injection Hd as ->. lia.
  - destruct IH as [Hy Hmax]. cbn [insertSorted].
    destruct (Hnum x (or_introl eq_refl)) as [px Hpx].
    destruct (Hl y Hy) as [py Hpy].
    unfold before. rewrite (compareValue_numeric _ _ _ _ Hpx Hpy).
    destruct (Z.compare_spec px py) as [Heq | Hlt | Hgt]; cbn.
    + split; [now left |]. intros e p pd [<- | He] Hp Hd.
      * rewrite Hp in Hd. injection Hd as ->. lia.
      * rewrite Hpx in Hd. injection Hd as <-.
        pose proof (Hmax e p py He Hp Hpy). lia.
    + split; [now right |]. intros e p pd [<- | He] Hp Hd.
      * rewrite Hpx in Hp. rewrite Hpy in Hd. injection Hp as <-. injection Hd as <-. lia.
      * exact (Hmax e p pd He Hp Hd).
    + split; [now left |]. intros e p pd [<- | He] Hp Hd.
      * rewrite Hp in Hd. injection Hd as ->. lia.
      * rewrite Hpx in Hd. injection Hd as <-.
        pose proof (Hmax e p py He Hp Hpy). lia.
Qed.

Lemma compileFilter_blog (rx : regexEngine) (b : Z) :
  b <= MaxInt64 ->
  exists q, compileFilter rx [("blogId", Go.Uint64 b)] = Some q /\
            forall d, q d = inBlog b d.
Proof.
  intros Hb. cbn. rewrite (encodeUint64_range b Hb).
  eexists; split; [reflexivity |]. intros d. unfold inBlog. now rewrite andb_true_r.
Qed.

(** The query for the greatest postId: no document when the blog is empty,
    otherwise [_id] and postId of a post whose postId is the greatest. *)
Lemma FindOne_max (b : Z) (w w1 : World) :
  enter w = (None, w1) -> b <= MaxInt64 -> wfBlog b (docs w1) ->
  (noPosts b (docs w1) /\
   FindOne [("blogId", Go.Uint64 b)] Server.optsMaxPostId w = (Err ErrNoDocuments, w1))
  \/
  (exists i v rest m,
     FindOne [("blogId", Go.Uint64 b)] Server.optsMaxPostId w
     = (Ok (("_id", i) :: ("postId", v) :: rest), w1) /\
     numeric (Some v) = Some m /\ 0 <= m < MaxInt64 /\
     isMaxPostId b (docs w1) m).
Proof.
  intros He Hb Hwf. unfold FindOne, runQuery. rewrite He.
  destruct (compileFilter_blog (engine w1) b Hb) as (q & -> & Hq).
  rewrite (List.filter_ext _ _ Hq).
  cbn [Server.optsMaxPostId Skip Sort Limit Projection applySort applyLimit limitRefused].
  unfold Server.postIdKey.
  set (l := List.filter (inBlog b) (docs w1)).
  assert (Hl : forall d, In d l <-> In d (docs w1) /\ inBlog b d = true)
    by (intros d; apply List.filter_In).
  assert (Hnum : forall d, In d l -> exists p, numeric (lookupD "postId" d) = Some p).
  { intros d Hd. apply Hl in Hd as [Hd Hin].
    destruct (wellFormed_postId d (Hwf d Hd Hin)) as (p & Hp & _). now exists p. }
  pose proof (sortBy_head l Hnum) as Hhead.
  destruct (sortBy "postId" (-1) l) as [| d ds].
  - left. split; [| reflexivity].
    intros d Hd. destruct (inBlog b d) eqn:E; [| reflexivity].
    assert (In d l) by (apply Hl; now split). rewrite Hhead in *. contradiction.
  - right. destruct Hhead as [Hd Hmax]. apply Hl in Hd as [Hd Hin].
    pose proof (Hwf d Hd Hin) as Hw.
    destruct (wellFormed_postId d Hw) as (pd & Hpd & Hrange).
    destruct (wellFormed_inv d Hw) as (i & fields & v & p & Heq & Hn & Hv & Hp & _).
    destruct (projection_postId i fields v Hn Hv) as [rest Hr].
    assert (p = pd).
    { subst d. cbn [lookupD] in Hpd. change (String.eqb "postId" "_id") with false in Hpd.
      cbv iota in Hpd. rewrite Hv in Hpd. congruence. }
    subst p. exists i, v, rest, pd. cbn [map]. rewrite Heq, Hr.
    split; [reflexivity |]. split; [exact Hp |]. split; [exact Hrange |].
    split.
    + exists d. auto.
    + intros e p' He' Hin' Hp'.
      apply (Hmax e p' pd); [apply Hl; now split | exact Hp' | exact Hpd].
Qed.

(** ** Create: the insert *)

Lemma carries_post0 (request : CreateRequest) : carries request (post0 request).
Proof. intros n. reflexivity. Qed.

Lemma carries_insert (request : CreateRequest) (post : Go.M) (n : Z) :
  carries request post -> carries request (<["postId" := Go.Uint64 n]> post).
Proof. intros H k. rewrite insert_insert_eq. apply H. Qed.

Lemma marshal_post (request : CreateRequest) (n : Z) :
  CreateRequest_BlogId request <= MaxInt64 ->
  CreateRequest_UserId request <= MaxInt64 -> n <= MaxInt64 ->
  forall oid,
    option_map (ensureID oid)
      (marshal (map_to_list (<["postId" := Go.Uint64 n]> (post0 request))))
    = Some (newPost oid request n).
Proof.
  intros Hb Hu Hn oid.
  assert (Hl : map_to_list (<["postId" := Go.Uint64 n]> (post0 request))
               = [("userId", Go.Uint64 (CreateRequest_UserId request));
                  ("blogId", Go.Uint64 (CreateRequest_BlogId request));
                  ("text", Go.String_ (CreateRequest_Text request));
                  ("title", Go.String_ (CreateRequest_Title request));
                  ("postId", Go.Uint64 n)]).
  { destruct request. vm_compute. reflexivity. }
  rewrite Hl. cbn [marshal marshalValue].
  rewrite (encodeUint64_range _ Hb), (encodeUint64_range _ Hu), (encodeUint64_range _ Hn).
  reflexivity.
Qed.

Lemma sameKey_newPost (oid : Z) (request : CreateRequest) (n : Z) (e : D) :
  sameKey (newPost oid request n) e = hasKey (CreateRequest_BlogId request) n e.
Proof. reflexivity. Qed.

Lemma store_newPost (c : list D) (oid : Z) (request : CreateRequest) (n : Z) :
  (forall e, In e c -> ~ isPost (CreateRequest_BlogId request) n e) ->
  store c (newPost oid request n) = Some (c ++ [newPost oid request n])%list.
Proof.
  intros Hfree. unfold store.
  destruct (existsb (sameKey (newPost oid request n)) c) eqn:E; [| reflexivity].
  apply existsb_exists in E as (e & He & Hk). rewrite sameKey_newPost in Hk.
  apply hasKey_isPost in Hk. now destruct (Hfree e He).
Qed.


(** The insert of the post of the request under the identifier [n]. *)
Lemma InsertOne_post (request : CreateRequest) (post : Go.M) (n : Z) (w w1 : World) :
  enter w = (None, w1) -> carries request post ->
  CreateRequest_BlogId request <= MaxInt64 ->
  CreateRequest_UserId request <= MaxInt64 -> n <= MaxInt64 ->
  InsertOne (<["postId" := Go.Uint64 n]> post) w
  = match store (docs w1) (newPost (nextOid w1) request n) with
    | None => (Err ErrDuplicateKey, w1)
    | Some c =>
        (Ok (ObjectID (nextOid w1)),
         {| docs := c; nextOid := nextOid w1 + 1;
            engine := engine w1; script := script w1 |})
    end.
Proof.
  intros He Hc Hb Hu Hn. unfold InsertOne. rewrite He, (Hc n).
  pose proof (marshal_post request n Hb Hu Hn (nextOid w1)) as Hm.
  destruct (marshal (map_to_list (<["postId" := Go.Uint64 n]> (post0 request))))
    as [d |]; [| discriminate].
  cbn [option_map] in Hm. injection Hm as ->. reflexivity.
Qed.

(** ** Create: one pass of the loop *)

Lemma ExtractUint64_numeric (v : value) (m : Z) :
  numeric (Some v) = Some m -> 0 <= m < MaxInt64 ->
  toUint64 (Mongoclient.ExtractUint64 (Some v) + 1) = m + 1.
Proof.
  intros Hv Hm.
  assert (Hx : Mongoclient.ExtractUint64 (Some v) = m).
  { destruct v; try discriminate; injection Hv as ->; cbn;
      apply toUint64_small; unfold MaxInt64, two63, two64 in *; lia. }
  rewrite Hx. apply toUint64_small. unfold MaxInt64, two63, two64 in *. lia.
Qed.

(** In [src/server.go] a pass that enters [GeneratePostIdStep] with
    [newPostId = n] reaches [CreatePostStep] with [n] when the blog has no
    post, and with the greatest postId of the blog plus one otherwise. *)
Lemma Server_candidate (fuel : nat) (b : Z) (post : Go.M) (n : Z) (w w1 : World) :
  enter w = (None, w1) -> b <= MaxInt64 -> wfBlog b (docs w1) ->
  (noPosts b (docs w1) /\
   Server.GeneratePostIdStep (S fuel) [("blogId", Go.Uint64 b)] post n w
   = Server.CreatePostStep (Server.GeneratePostIdStep fuel [("blogId", Go.Uint64 b)])
       post n w1)
  \/
  (exists m, isMaxPostId b (docs w1) m /\ 0 <= m < MaxInt64 /\
     Server.GeneratePostIdStep (S fuel) [("blogId", Go.Uint64 b)] post n w
     = Server.CreatePostStep (Server.GeneratePostIdStep fuel [("blogId", Go.Uint64 b)])
         post (m + 1) w1).
Proof.
  intros He Hb Hwf.
  destruct (FindOne_max b w w1 He Hb Hwf)
    as [[Hnone Hf] | (i & v & rest & m & Hf & Hv & Hm & Hmax)].
  - left. split; [exact Hnone |]. cbn [Server.GeneratePostIdStep]. now rewrite Hf.
  - right. exists m. split; [exact Hmax |]. split; [exact Hm |].
    cbn [Server.GeneratePostIdStep]. rewrite Hf. cbn [nth_error snd].
    now rewrite (ExtractUint64_numeric v m Hv Hm).
Qed.

(** The first candidate of a Create of [src/server.go]: 1 for an empty blog,
    the greatest postId plus one otherwise. *)
Lemma Server_first_candidate (fuel : nat) (request : CreateRequest) (w w0 w1 : World) :
  let b := CreateRequest_BlogId request in
  let retry := Server.GeneratePostIdStep fuel [("blogId", Go.Uint64 b)] in
  Connect w = (Ok tt, w0) -> enter w0 = (None, w1) ->
  b <= MaxInt64 -> wfBlog b (docs w1) ->
  (noPosts b (docs w1) /\
   Server.CreatePost (S fuel) request w
   = Server.CreatePostStep retry (post0 request) 1 w1)
  \/
  (exists m, isMaxPostId b (docs w1) m /\
     Server.CreatePost (S fuel) request w
     = Server.CreatePostStep retry (post0 request) (m + 1) w1).
Proof.
  intros b retry Hc He Hb Hwf. unfold Server.CreatePost. rewrite Hc.
  destruct (Server_candidate fuel b (post0 request) 1 w0 w1 He Hb Hwf)
    as [[Hnone Hg] | (m & Hmax & _ & Hg)].
  - left. split; [exact Hnone | exact Hg].
  - right. exists m. split; [exact Hmax | exact Hg].
Qed.


(** ** Create: concurrent writers *)

Lemma wellFormed_ensureID (oid : Z) (d : D) : wellFormed d = true -> ensureID oid d = d.
Proof.
  intros H. destruct (wellFormed_inv d H) as (i & fields & _ & _ & -> & _). reflexivity.
Qed.

Lemma inBlog_ensureID (b oid : Z) (d : D) : inBlog b (ensureID oid d) = inBlog b d.
Proof. unfold ensureID. now destruct (lookupD idKey d). Qed.

Lemma store_inv (c c' : list D) (d : D) :
  store c d = Some c' -> c' = (c ++ [d])%list /\ forall e, In e c -> sameKey d e = false.
Proof.
  unfold store. destruct (existsb (sameKey d) c) eqn:E; [discriminate |].
  intros H. injection H as <-. split; [reflexivity |].
  intros e He. destruct (sameKey d e) eqn:Ek; [| reflexivity].
  assert (existsb (sameKey d) c = true) by (apply existsb_exists; eauto). congruence.
Qed.

Lemma applyWrite_script (w : World) (x : write) : script (applyWrite w x) = script w.
Proof.
  destruct x as [d | b p]; simpl; [| reflexivity].
  now destruct (store (docs w) (ensureID (nextOid w) d)).
Qed.

Lemma applyWrite_wfBlog (b : Z) (w : World) (x : write) :
  wfBlog b (docs w) ->
  (forall d, x = Insert d -> inBlog b d = true -> wellFormed d = true) ->
  wfBlog b (docs (applyWrite w x)).
Proof.
  intros Hwf Hx. destruct x as [d | b' p]; cbn [applyWrite].
  - destruct (store (docs w) (ensureID (nextOid w) d)) as [c |] eqn:E; [| exact Hwf].
    apply store_inv in E as [-> _]. cbn [docs].
    intros e He Hin. apply in_app_or in He as [He | [<- | []]]; [now apply Hwf |].
    rewrite inBlog_ensureID in Hin.
    rewrite (wellFormed_ensureID _ _ (Hx d eq_refl Hin)). now apply Hx.
  - cbn [setDocs docs]. intros e He Hin. apply List.filter_In in He as [He _].
    now apply Hwf.
Qed.

Lemma applyWrites_calm (b : Z) (l : list write) (w : World) :
  wfBlog b (docs w) ->
  (forall d, In (Insert d) l -> inBlog b d = true -> wellFormed d = true) ->
  wfBlog b (docs (fold_left applyWrite l w)) /\
  script (fold_left applyWrite l w) = script w.
Proof.
  revert w. induction l as [| x l IH]; intros w Hwf Hl; [split; [exact Hwf | reflexivity] |].
  cbn [fold_left].
  destruct (IH (applyWrite w x)) as [H1 H2].
  - apply applyWrite_wfBlog; [exact Hwf |]. intros d -> Hin. apply Hl; [now left | exact Hin].
  - intros d Hd. apply Hl. now right.
  - split; [exact H1 |]. now rewrite H2, applyWrite_script.
Qed.

(** Entering a driver call under a calm script. *)
Lemma enter_calm (b : Z) (w : World) :
  Forall (calm b) (script w) -> wfBlog b (docs w) ->
  exists w1, enter w = (None, w1) /\ wfBlog b (docs w1) /\ Forall (calm b) (script w1) /\
             (script w = [] -> w1 = w) /\
             (script w <> [] -> S (length (script w1)) = length (script w)).
Proof.
  intros Hs Hwf. unfold enter. destruct (script w) as [| t rest] eqn:E.
  - exists w. rewrite E.
    split; [reflexivity |]. split; [exact Hwf |]. split; [constructor |].
    split; [reflexivity | congruence].
  - inversion Hs as [| t' rest' [Hf Hw] Hrest]; subst.
    destruct (applyWrites_calm b (writes t)
                {| docs := docs w; nextOid := nextOid w; engine := engine w;
                   script := rest |} Hwf Hw) as [H1 H2].
    eexists. rewrite Hf. split; [reflexivity |]. cbn [script] in H2.
    split; [exact H1 |]. rewrite H2.
    split; [exact Hrest |]. split; [discriminate | reflexivity].
Qed.

Lemma isPost_inBlog (b p : Z) (d : D) : isPost b p d -> inBlog b d = true.
Proof. intros [Hb _]. unfold inBlog. now apply valueEqb_Int64. Qed.

(** The insert step of [src/server.go] for a free candidate, given that the
    retry succeeds. *)
Lemma Server_CreatePostStep_created (request : CreateRequest)
    (retry : Go.M -> Z -> World -> option (outcome Response) * World)
    (post : Go.M) (n : Z) (w : World) :
  let b := CreateRequest_BlogId request in
  carries request post -> n <= MaxInt64 -> b <= MaxInt64 ->
  CreateRequest_UserId request <= MaxInt64 ->
  wfBlog b (docs w) -> Forall (calm b) (script w) ->
  (forall e, In e (docs w) -> ~ isPost b n e) ->
  (forall w2, wfBlog b (docs w2) -> Forall (calm b) (script w2) ->
              S (length (script w2)) = length (script w) ->
              exists k, created request k (retry (<["postId" := Go.Uint64 n]> post) n w2)) ->
  exists k, created request k (Server.CreatePostStep retry post n w).
Proof.
  intros b Hc Hn Hb Hu Hwf Hs Hfree Hretry.
  destruct (enter_calm b w Hs Hwf) as (w2 & He & Hwf2 & Hs2 & Hquiet & Hlen).
  unfold Server.CreatePostStep, Server.postIdKey.
  rewrite (InsertOne_post request post n w w2 He Hc Hb Hu Hn).
  destruct (store (docs w2) (newPost (nextOid w2) request n)) as [c |] eqn:E.
  - exists n. apply store_inv in E as [-> Hno].
    eexists _, (docs w2), (nextOid w2). split; [reflexivity |]. split; [reflexivity |].
    intros e He' Hp. apply hasKey_isPost in Hp.
    rewrite <- sameKey_newPost with (oid := nextOid w2) (request := request) in Hp.
    rewrite (Hno e He') in Hp. discriminate.
  - cbn [IsDuplicateKeyError]. apply Hretry; try assumption.
    apply Hlen. intros Hempty. rewrite (Hquiet Hempty) in E.
    rewrite (store_newPost _ _ _ _ Hfree) in E. discriminate.
Qed.

(** The loop of [src/server.go] under a calm script: with more passes
    allowed than the script has turns, the loop ends in a successful insert,
    whatever conflicts the concurrent writers cause on the way. *)
Lemma Server_loop_created (request : CreateRequest) (fuel : nat) :
  let b := CreateRequest_BlogId request in
  b <= MaxInt64 -> CreateRequest_UserId request <= MaxInt64 ->
  forall post n w,
    (length (script w) < fuel)%nat ->
    carries request post -> n <= MaxInt64 ->
    wfBlog b (docs w) -> Forall (calm b) (script w) ->
    exists k, created request k
                (Server.GeneratePostIdStep fuel [("blogId", Go.Uint64 b)] post n w).
Proof.
  intros b Hb Hu. induction fuel as [| fuel IH]; intros post n w Hlen Hc Hn Hwf Hs; [lia |].
  destruct (enter_calm b w Hs Hwf) as (w1 & He & Hwf1 & Hs1 & Hquiet & Hlen1).
  assert (Hle : (length (script w1) <= fuel)%nat).
  { destruct (script w) as [| t rest] eqn:E.
    - rewrite (Hquiet eq_refl), E. simpl. lia.
    - specialize (Hlen1 ltac:(discriminate)). simpl in Hlen, Hlen1. lia. }
  assert (Hstep : forall n', n' <= MaxInt64 ->
            (forall e, In e (docs w1) -> ~ isPost b n' e) ->
            exists k, created request k
              (Server.CreatePostStep
                 (Server.GeneratePostIdStep fuel [("blogId", Go.Uint64 b)]) post n' w1)).
  { intros n' Hn' Hfree.
    apply Server_CreatePostStep_created; try assumption.
    intros w2 Hwf2 Hs2 Hlen2. apply IH; try assumption; [lia |].
    now apply carries_insert. }
  destruct (Server_candidate fuel b post n w w1 He Hb Hwf1)
    as [[Hnone ->] | (m & [_ Hmax] & Hm & ->)].
  - apply Hstep; [exact Hn |]. intros e He' Hp.
    apply isPost_inBlog in Hp as Hin. rewrite (Hnone e He') in Hin. discriminate.
  - apply Hstep; [lia |]. intros e He' Hp.
    pose proof (Hmax e (m + 1) He' (isPost_inBlog _ _ _ Hp) (proj2 Hp)). lia.
Qed.

(** A Create of [src/server.go] under a calm script succeeds. *)
Lemma Server_CreatePost_created (request : CreateRequest) (w : World) :
  let b := CreateRequest_BlogId request in
  b <= MaxInt64 -> CreateRequest_UserId request <= MaxInt64 ->
  wfBlog b (docs w) -> Forall (calm b) (script w) ->
  exists k, created request k (Server.CreatePost (S (length (script w))) request w).
Proof.
  intros b Hb Hu Hwf Hs.
  destruct (enter_calm b w Hs Hwf) as (w0 & He & Hwf0 & Hs0 & Hquiet & Hlen).
  unfold Server.CreatePost, Connect. rewrite He.
  apply (Server_loop_created request); try assumption.
  - destruct (script w) as [| t rest] eqn:E.
    + rewrite (Hquiet eq_refl), E. simpl. lia.
    + specialize (Hlen ltac:(discriminate)). simpl in Hlen. simpl. lia.
  - apply carries_post0.
  - unfold MaxInt64, two63. lia.
Qed.

(** ** Create: the response *)

Lemma marshal_post_inv (request : CreateRequest) (post : Go.M) (n oid : Z) (d : D) :
  carries request post ->
  marshal (map_to_list (<["postId" := Go.Uint64 n]> post)) = Some d ->
  ensureID oid d = newPost oid request n.
Proof.
  intros Hc. rewrite (Hc n).
  assert (Hl : map_to_list (<["postId" := Go.Uint64 n]> (post0 request))
               = [("userId", Go.Uint64 (CreateRequest_UserId request));
                  ("blogId", Go.Uint64 (CreateRequest_BlogId request));
                  ("text", Go.String_ (CreateRequest_Text request));
                  ("title", Go.String_ (CreateRequest_Title request));
                  ("postId", Go.Uint64 n)]).
  { destruct request. vm_compute. reflexivity. }
  rewrite Hl. cbn [marshal marshalValue]. unfold encodeUint64.
  destruct (CreateRequest_UserId request <=? MaxInt64); [| discriminate].
  destruct (CreateRequest_BlogId request <=? MaxInt64); [| discriminate].
  destruct (n <=? MaxInt64); [| discriminate].
  intros H. injection H as <-. reflexivity.
Qed.

(** An insert of the post that succeeds appends it under the identifier
    handed over. *)
Lemma InsertOne_ok (request : CreateRequest) (post : Go.M) (n : Z) (w w' : World)
    (id : value) :
  carries request post ->
  InsertOne (<["postId" := Go.Uint64 n]> post) w = (Ok id, w') ->
  exists c oid, docs w' = (c ++ [newPost oid request n])%list.
Proof.
  intros Hc. unfold InsertOne. destruct (enter w) as [[e |] w1]; [discriminate |].
  destruct (marshal (map_to_list (<["postId" := Go.Uint64 n]> post))) as [d |] eqn:Em;
    [| discriminate].
  rewrite (marshal_post_inv request post n (nextOid w1) d Hc Em).
  destruct (store (docs w1) (newPost (nextOid w1) request n)) as [c |] eqn:Es;
    [| discriminate].
  intros H. injection H as _ <-. apply store_inv in Es as [-> _].
  now exists (docs w1), (nextOid w1).
Qed.

Lemma Server_loop_response (request : CreateRequest) (filter : Go.D) (fuel : nat) :
  forall post n w r w',
    carries request post ->
    Server.GeneratePostIdStep fuel filter post n w = (Some (Returns r), w') ->
    Success r = true /\
    exists c oid, docs w' = (c ++ [newPost oid request (Id r)])%list.
Proof.
  induction fuel as [| fuel IH]; intros post n w r w' Hc; [discriminate |].
  assert (Hstep : forall k v,
            Server.CreatePostStep (Server.GeneratePostIdStep fuel filter) post k v
            = (Some (Returns r), w') ->
            Success r = true /\
            exists c oid, docs w' = (c ++ [newPost oid request (Id r)])%list).
  { intros k v. unfold Server.CreatePostStep, Server.postIdKey.
    destruct (InsertOne (<["postId" := Go.Uint64 k]> post) v) as [[id | e] v'] eqn:Ei.
    - intros H. injection H as <- <-. split; [reflexivity |].
      exact (InsertOne_ok request post k v v' id Hc Ei).
    - destruct (IsDuplicateKeyError e); [| discriminate].
      apply IH. now apply carries_insert. }
  cbn [Server.GeneratePostIdStep].
  destruct (FindOne filter Server.optsMaxPostId w) as [[result | e] w1].
  - destruct (nth_error result 1) as [x |]; [apply Hstep | discriminate].
  - destruct (isErrNoDocuments e); [apply Hstep | discriminate].
Qed.

(** Whenever a Create of [src/server.go] succeeds, the response has the
    success flag set and carries the postId under which the post of the
    request was appended to the collection. *)
Lemma Server_response_carries_postId (fuel : nat) (request : CreateRequest)
    (w w' : World) (r : Response) :
  Server.CreatePost fuel request w = (Some (Returns r), w') ->
  Success r = true /\
  exists c oid, docs w' = (c ++ [newPost oid request (Id r)])%list.
Proof.
  unfold Server.CreatePost. destruct (Connect w) as [[[] | e] w0]; [| discriminate].
  apply Server_loop_response. apply carries_post0.
Qed.

(** C6, at an input where [src/blogserver/blogserver.go] departs from it: a
    Create on an empty collection stores the post under postId 1 and
    returns a response with the success flag only, its identifier left at
    zero; [src/server.go] returns the identifier 1. *)
Theorem Blogserver_response_without_postId :
  Blogserver.CreatePost 1 createRequest emptyWorld
  = (Some (Returns {| Success := true; Id := 0 |}),
     inserted emptyWorld (newPost 1000 createRequest 1)) /\
  Server.CreatePost 1 createRequest emptyWorld
  = (Some (Returns {| Success := true; Id := 1 |}),
     inserted emptyWorld (newPost 1000 createRequest 1)).
Proof. split; vm_compute; reflexivity. Qed.

(** ** Create: the two revisions on a small collection *)

(** C1, at an input where [src/blogserver/blogserver.go] departs from it:
    the blog has one post, with postId 5; the query returns [_id] and
    postId, the code reads the first of the two, which is no integer, and the
    candidate is 0 + 1 = 1 instead of 6.  [src/server.go] reads the second
    and stores the post under 6. *)
Theorem Blogserver_candidate_ignores_maximum :
  isMaxPostId 1 (docs fiveWorld) 5 /\
  FindOne [("blogId", Go.Uint64 1)] Blogserver.optsMaxPostId fiveWorld
  = (Ok [("_id", ObjectID 1); ("postId", Int64 5)], fiveWorld) /\
  Blogserver.CreatePost 1 createRequest fiveWorld
  = (Some (Returns {| Success := true; Id := 0 |}),
     inserted fiveWorld (newPost 1000 createRequest 1)) /\
  Server.CreatePost 1 createRequest fiveWorld
  = (Some (Returns {| Success := true; Id := 6 |}),
     inserted fiveWorld (newPost 1000 createRequest 6)).
Proof.
  split; [| repeat split; vm_compute; reflexivity].
  split.
  - eexists. split; [now left |]. split; reflexivity.
  - intros d p [<- | []] _ H. vm_compute in H. injection H as <-. lia.
Qed.

Lemma Blogserver_loop_never_ends (fuel : nat) (post : Go.M) (n : Z) :
  carries createRequest post ->
  Blogserver.GeneratePostIdStep fuel 1 post n oneWorld = (None, oneWorld).
Proof.
  revert post n. induction fuel as [| fuel IH]; intros post n Hc; [reflexivity |].
  cbn [Blogserver.GeneratePostIdStep].
  assert (Hf : FindOne [(Blogserver.blogIdKey, Go.Uint64 1)] Blogserver.optsMaxPostId oneWorld
               = (Ok [("_id", ObjectID 1); ("postId", Int64 1)], oneWorld))
    by (vm_compute; reflexivity).
  rewrite Hf. cbn [nth_error snd Blogserver.extractUint64].
  change (toUint64 (0 + 1)) with 1.
  unfold Blogserver.CreatePostStep, Blogserver.postIdKey.
  rewrite (InsertOne_post createRequest post 1 oneWorld oneWorld eq_refl Hc)
    by (vm_compute; discriminate).
  assert (Hs : store (docs oneWorld) (newPost (nextOid oneWorld) createRequest 1) = None)
    by (vm_compute; reflexivity).
  rewrite Hs. cbn [IsDuplicateKeyError]. apply IH. now apply carries_insert.
Qed.

Example Server_candidate_kept_on_retry :
  fst (Server.CreatePost 2 createRequest staleWorld)
  = Some (Returns {| Success := true; Id := 6 |}) /\
  docs (snd (Server.CreatePost 2 createRequest staleWorld))
  = [newPost 1001 createRequest 6].
Proof. split; vm_compute; reflexivity. Qed.

(** ** Create: the retry *)

Lemma isMaxPostId_unique (b : Z) (c : list D) (m m' : Z) :
  isMaxPostId b c m -> isMaxPostId b c m' -> m = m'.
Proof.
  intros [(d & Hd & Hin & Hp) Hle] [(d' & Hd' & Hin' & Hp') Hle'].
  pose proof (Hle d' m' Hd' Hin' Hp'). pose proof (Hle' d m Hd Hin Hp). lia.
Qed.

Lemma isMaxPostId_some (b : Z) (c : list D) (m : Z) :
  isMaxPostId b c m -> ~ noPosts b c.
Proof. intros [(d & Hd & Hin & _) _] Hnone. rewrite (Hnone d Hd) in Hin. discriminate. Qed.

Lemma Server_loop_fails_internal (filter : Go.D) (fuel : nat) :
  forall post n w e w',
    Server.GeneratePostIdStep fuel filter post n w = (Some (Fails e), w') ->
    e = errInternal.
Proof.
  induction fuel as [| fuel IH]; intros post n w e w'; [discriminate |].
  assert (Hstep : forall k v,
            Server.CreatePostStep (Server.GeneratePostIdStep fuel filter) post k v
            = (Some (Fails e), w') -> e = errInternal).
  { intros k v. unfold Server.CreatePostStep.
    destruct (InsertOne _ v) as [[id | x] v']; [discriminate |].
    destruct (IsDuplicateKeyError x); [apply IH | congruence]. }
  cbn [Server.GeneratePostIdStep].
  destruct (FindOne filter Server.optsMaxPostId w) as [[result | x] w1].
  - destruct (nth_error result 1); [apply Hstep | discriminate].
  - destruct (isErrNoDocuments x); [apply Hstep | congruence].
Qed.

Lemma Blogserver_loop_fails_internal (b : Z) (fuel : nat) :
  forall post n w e w',
    Blogserver.GeneratePostIdStep fuel b post n w = (Some (Fails e), w') ->
    e = errInternal.
Proof.
  induction fuel as [| fuel IH]; intros post n w e w'; [discriminate |].
  assert (Hstep : forall k v,
            Blogserver.CreatePostStep (Blogserver.GeneratePostIdStep fuel b) post k v
            = (Some (Fails e), w') -> e = errInternal).
  { intros k v. unfold Blogserver.CreatePostStep.
    destruct (InsertOne _ v) as [[id | x] v']; [discriminate |].
    destruct (IsDuplicateKeyError x); [apply IH | congruence]. }
  cbn [Blogserver.GeneratePostIdStep].
  destruct (FindOne _ Blogserver.optsMaxPostId w) as [[result | x] w1].
  - destruct (nth_error result 0); [apply Hstep | discriminate].
  - destruct (isErrNoDocuments x); [apply Hstep | congruence].
Qed.

(** What the retry does hold to.  When the insert of a candidate fails on a
    duplicate key, both revisions jump back to [GeneratePostIdStep], which
    queries the greatest postId again; in [src/server.go], when the blog then
    has a post, the next candidate is the greatest postId plus one, whatever
    the candidate that collided was.  Any other failure of the insert ends
    the call with the internal error, whatever the retry would do.  The only
    error a Create returns is the internal error; and under a script of
    concurrent well-formed inserts and deletes without faults a Create of
    [src/server.go] ends in a successful insert, given more passes than the
    script has turns. *)
Theorem CreatePost_retries_on_duplicate_key (request : CreateRequest) :
  let b := CreateRequest_BlogId request in
  (forall fuel post n w w',
     InsertOne (<["postId" := Go.Uint64 n]> post) w = (Err ErrDuplicateKey, w') ->
     Server.CreatePostStep (Server.GeneratePostIdStep fuel [("blogId", Go.Uint64 b)])
       post n w
     = Server.GeneratePostIdStep fuel [("blogId", Go.Uint64 b)]
         (<["postId" := Go.Uint64 n]> post) n w' /\
     Blogserver.CreatePostStep (Blogserver.GeneratePostIdStep fuel b) post n w
     = Blogserver.GeneratePostIdStep fuel b (<["postId" := Go.Uint64 n]> post) n w') /\
  (forall fuel post n w w1 w2 m,
     InsertOne (<["postId" := Go.Uint64 n]> post) w = (Err ErrDuplicateKey, w1) ->
     enter w1 = (None, w2) -> b <= MaxInt64 -> wfBlog b (docs w2) ->
     isMaxPostId b (docs w2) m ->
     Server.CreatePostStep (Server.GeneratePostIdStep (S fuel) [("blogId", Go.Uint64 b)])
       post n w
     = Server.CreatePostStep (Server.GeneratePostIdStep fuel [("blogId", Go.Uint64 b)])
         (<["postId" := Go.Uint64 n]> post) (m + 1) w2) /\
  (forall retry retry' post n w e w',
     InsertOne (<["postId" := Go.Uint64 n]> post) w = (Err e, w') ->
     e <> ErrDuplicateKey ->
     Server.CreatePostStep retry post n w = (Some (Fails errInternal), w') /\
     Blogserver.CreatePostStep retry' post n w = (Some (Fails errInternal), w')) /\
  (forall fuel w e w',
     Server.CreatePost fuel request w = (Some (Fails e), w') \/
     Blogserver.CreatePost fuel request w = (Some (Fails e), w') ->
     e = errInternal) /\
  (forall w,
     b <= MaxInt64 -> CreateRequest_UserId request <= MaxInt64 ->
     wfBlog b (docs w) -> Forall (calm b) (script w) ->
     exists k, created request k (Server.CreatePost (S (length (script w))) request w)).
Proof.
  intros b. split; [| split; [| split; [| split]]].
  - intros fuel post n w w' Hi.
    unfold Server.CreatePostStep, Blogserver.CreatePostStep,
      Server.postIdKey, Blogserver.postIdKey.
    rewrite Hi. split; reflexivity.
  - intros fuel post n w w1 w2 m Hi He Hb Hwf Hmax.
    unfold Server.CreatePostStep at 1. unfold Server.postIdKey. rewrite Hi.
    cbn [IsDuplicateKeyError].
    destruct (Server_candidate fuel b (<["postId" := Go.Uint64 n]> post) n w1 w2 He Hb Hwf)
      as [[Hnone _] | (m' & Hmax' & _ & ->)].
    + destruct (isMaxPostId_some _ _ _ Hmax Hnone).
    + now rewrite (isMaxPostId_unique _ _ _ _ Hmax Hmax').
  - intros retry retry' post n w e w' Hi Hne.
    unfold Server.CreatePostStep, Blogserver.CreatePostStep,
      Server.postIdKey, Blogserver.postIdKey.
    rewrite Hi. destruct e; try (split; reflexivity). congruence.
  - intros fuel w e w' [H | H].
    + unfold Server.CreatePost in H.
      destruct (Connect w) as [[[] | x] w0]; [| congruence].
      exact (Server_loop_fails_internal _ _ _ _ _ _ _ H).
    + unfold Blogserver.CreatePost in H.
      destruct (Connect w) as [[[] | x] w0]; [| congruence].
      exact (Blogserver_loop_fails_internal _ _ _ _ _ _ _ H).
  - intros w Hb Hu Hwf Hs. now apply Server_CreatePost_created.
Qed.

Lemma CreatePost_retries_on_duplicate_key_witness :
  (exists k, created createRequest k (Server.CreatePost 4 createRequest conflictWorld)) /\
  fst (Server.CreatePost 4 createRequest conflictWorld)
  = Some (Returns {| Success := true; Id := 8 |}) /\
  Server.CreatePostStep (Server.GeneratePostIdStep 1 [("blogId", Go.Uint64 1)])
    (post0 createRequest) 6 beforeInsert
  = Server.CreatePostStep (Server.GeneratePostIdStep 0 [("blogId", Go.Uint64 1)])
      (<["postId" := Go.Uint64 6]> (post0 createRequest)) (7 + 1) afterConflict /\
  Blogserver.CreatePostStep (Blogserver.GeneratePostIdStep 1 1) (post0 createRequest) 6
    beforeInsert
  = Blogserver.GeneratePostIdStep 1 1 (<["postId" := Go.Uint64 6]> (post0 createRequest)) 6
      afterConflict /\
  Server.CreatePostStep (Server.GeneratePostIdStep 1 [("blogId", Go.Uint64 1)])
    (post0 createRequest) 6 insertFails
  = (Some (Fails errInternal), Fixture.world [Fixture.post 1 1 5 7 "dog" "x"] []).
Proof.
  destruct (CreatePost_retries_on_duplicate_key createRequest)
    as (Hretry & Hfresh & Hother & Honly & Hends).
  assert (Hdup : InsertOne (<["postId" := Go.Uint64 6]> (post0 createRequest)) beforeInsert
                 = (Err ErrDuplicateKey, afterConflict)) by (vm_compute; reflexivity).
  split; [| split; [| split; [| split]]].
  - apply (Hends conflictWorld).
    + vm_compute; discriminate.
    + vm_compute; discriminate.
    + intros d [<- | []] _. reflexivity.
    + repeat constructor; cbn; intros d H; try contradiction.
      destruct H as [H | [H | []]]; injection H as <-; reflexivity.
  - vm_compute. reflexivity.
  - apply (Hfresh 0%nat (post0 createRequest) 6 beforeInsert afterConflict afterConflict 7
             Hdup eq_refl).
    + vm_compute; discriminate.
    + intros d [<- | [<- | [<- | []]]] _; reflexivity.
    + split.
      * exists (Fixture.post 3 1 7 7 "cow" "z"). split; [cbn; tauto |]. split; reflexivity.
      * intros d p [<- | [<- | [<- | []]]] _ H; vm_compute in H; injection H as <-; lia.
  - exact (proj2 (Hretry 1%nat (post0 createRequest) 6 beforeInsert afterConflict Hdup)).
  - exact (proj1 (Hother (Server.GeneratePostIdStep 1 [("blogId", Go.Uint64 1)])
                    (Blogserver.GeneratePostIdStep 0 1) (post0 createRequest) 6 insertFails
                    ErrClient _ eq_refl ltac:(discriminate))).
Defined.

(** C2, at inputs where the code departs from it.

    [src/blogserver/blogserver.go]: the blog has one post, with postId 1.
    The query of every pass returns [_id] and postId, the code reads the
    first of the two, the candidate derived again is 1, its insert collides
    again, and the loop ends for no number of passes: no insert ever
    succeeds.  [src/server.go] stores the post under 2 in one pass.

    [src/server.go]: the blog has one post, with postId 5.  The candidate 6
    collides with a concurrent insert of 6, the posts 5 and 6 are deleted
    before the second query, and that query finds no post.  [newPostId] is set
    to 1 above the label only, so the candidate is not derived again: it
    stays 6, and the post is stored under 6 in a blog without posts, where a
    Create that starts on the empty blog stores it under 1. *)
Theorem CreatePost_retry_departs :
  (FindOne [("blogId", Go.Uint64 1)] Blogserver.optsMaxPostId oneWorld
   = (Ok [("_id", ObjectID 1); ("postId", Int64 1)], oneWorld) /\
   InsertOne (<["postId" := Go.Uint64 1]> (post0 createRequest)) oneWorld
   = (Err ErrDuplicateKey, oneWorld) /\
   (forall fuel, Blogserver.CreatePost fuel createRequest oneWorld = (None, oneWorld)) /\
   Server.CreatePost 1 createRequest oneWorld
   = (Some (Returns {| Success := true; Id := 2 |}),
      inserted oneWorld (newPost 1000 createRequest 2))) /\
  (InsertOne (<["postId" := Go.Uint64 6]> (post0 createRequest)) staleInsert
   = (Err ErrDuplicateKey, staleConflict) /\
   FindOne [("blogId", Go.Uint64 1)] Server.optsMaxPostId staleConflict
   = (Err ErrNoDocuments, staleEmptied) /\
   noPosts 1 (docs staleEmptied) /\
   Server.CreatePost 2 createRequest staleWorld
   = (Some (Returns {| Success := true; Id := 6 |}),
      inserted staleEmptied (newPost 1001 createRequest 6)) /\
   Server.CreatePost 1 createRequest emptyWorld
   = (Some (Returns {| Success := true; Id := 1 |}),
      inserted emptyWorld (newPost 1000 createRequest 1))).
Proof.
  split.
  - split; [vm_compute; reflexivity |]. split; [vm_compute; reflexivity |]. split.
    + intros fuel. unfold Blogserver.CreatePost.
      rewrite (Connect_quiet oneWorld eq_refl).
      apply Blogserver_loop_never_ends, carries_post0.
    + vm_compute. reflexivity.
  - split; [vm_compute; reflexivity |]. split; [vm_compute; reflexivity |]. split.
    + intros d [].
    + split; vm_compute; reflexivity.
Qed.

(** ** The newer revision where it does what the specification says *)

Lemma Server_buildRegexFilter_normalizes_witness :
  Server.buildRegexFilter "%cat" = [("$regex", Go.String_ ".*cat.*")].
Proof.
  exact (Server_buildRegexFilter_normalizes "%cat" ltac:(vm_compute; discriminate)).
Defined.

Lemma Server_GetPosts_half_open_witness :
  exists c, Server.GetPosts (search "" 2 5) sixWorld = (Returns c, sixWorld) /\
    List_ c = map Server.convertToContent
                (map toM (halfOpen 2 5 (selected 1 None (docs sixWorld)))) /\
    Total c = 6 /\ (length (List_ c) <= 3)%nat.
Proof.
  apply (Server_GetPosts_half_open (search "" 2 5) None sixWorld sixWorld sixWorld
           sixWorld sixWorld eq_refl eq_refl eq_refl eq_refl);
    try (vm_compute; first [discriminate | reflexivity]).
  now apply noPattern.
Defined.

Lemma Server_GetPosts_empty_range_witness :
  exists c, Server.GetPosts (search "" 1 1) searchWorld = (Returns c, searchWorld) /\
    List_ c = map Server.convertToContent
                (map toM (skipn 1 (selected 1 None (docs searchWorld)))).
Proof.
  apply (Server_GetPosts_empty_range (search "" 1 1) None searchWorld searchWorld
           searchWorld searchWorld searchWorld eq_refl eq_refl eq_refl eq_refl);
    try (vm_compute; first [discriminate | reflexivity]).
  - split; vm_compute; discriminate.
  - now apply noPattern.
Defined.


Lemma Server_first_candidate_witness :
  (noPosts 1 (docs fiveWorld) /\
   Server.CreatePost 1 createRequest fiveWorld
   = Server.CreatePostStep (Server.GeneratePostIdStep 0 [("blogId", Go.Uint64 1)])
       (post0 createRequest) 1 fiveWorld)
  \/
  (exists m, isMaxPostId 1 (docs fiveWorld) m /\
     Server.CreatePost 1 createRequest fiveWorld
     = Server.CreatePostStep (Server.GeneratePostIdStep 0 [("blogId", Go.Uint64 1)])
         (post0 createRequest) (m + 1) fiveWorld).
Proof.
  apply (Server_first_candidate 0 createRequest fiveWorld fiveWorld fiveWorld
           eq_refl eq_refl).
  - vm_compute; discriminate.
  - intros d [<- | []] _. reflexivity.
Defined.

Lemma Server_response_carries_postId_witness :
  Success {| Success := true; Id := 1 |} = true /\
  exists c oid,
    docs (inserted emptyWorld (newPost 1000 createRequest 1))
    = (c ++ [newPost oid createRequest (Id {| Success := true; Id := 1 |})])%list.
Proof.
  apply (Server_response_carries_postId 1 createRequest emptyWorld).
  vm_compute. reflexivity.
Defined.

(** ** Undisturbed calls *)

Lemma Server_GetPost_quiet (request : IdRequest) (w : World) :
  let b := IdRequest_BlogId request in
  let p := IdRequest_PostId request in
  script w = [] -> b <= MaxInt64 -> p <= MaxInt64 ->
  Server.GetPost request w
  = (match List.filter (hasKey b p) (docs w) with
     | [] => Fails errNoPost
     | d :: _ => Returns (Server.convertToContent (toM d))
     end, w).
Proof.
  intros b p Hs Hb Hp. unfold Server.GetPost, FindOne, runQuery.
  rewrite (Connect_quiet w Hs), (enter_quiet w Hs).
  unfold Server.blogIdKey, Server.postIdKey. fold b p.
  destruct (compileFilter_key (engine w) b p Hb Hp) as (q & -> & Hq).
  rewrite (List.filter_ext _ _ Hq). cbn [noOptions Skip Sort Limit Projection
                                          applySort applyLimit limitRefused].
  destruct (List.filter (hasKey b p) (docs w)); reflexivity.
Qed.

Lemma Blogserver_GetPost_quiet (request : IdRequest) (w : World) :
  let b := IdRequest_BlogId request in
  let p := IdRequest_PostId request in
  script w = [] -> b <= MaxInt64 -> p <= MaxInt64 ->
  Blogserver.GetPost request w
  = (match List.filter (hasKey b p) (docs w) with
     | [] => Fails errNoPost
     | d :: _ => Returns (Blogserver.convertToContent (toM d))
     end, w).
Proof.
  intros b p Hs Hb Hp. unfold Blogserver.GetPost, FindOne, runQuery.
  rewrite (Connect_quiet w Hs), (enter_quiet w Hs).
  unfold Blogserver.blogIdKey, Blogserver.postIdKey. fold b p.
  destruct (compileFilter_key (engine w) b p Hb Hp) as (q & -> & Hq).
  rewrite (List.filter_ext _ _ Hq). cbn [noOptions Skip Sort Limit Projection
                                          applySort applyLimit limitRefused].
  destruct (List.filter (hasKey b p) (docs w)); reflexivity.
Qed.

Lemma DeletePost_quiet (request : IdRequest) (w : World) :
  let b := IdRequest_BlogId request in
  let p := IdRequest_PostId request in
  script w = [] -> b <= MaxInt64 -> p <= MaxInt64 ->
  Server.DeletePost request w = (Returns success, deleted b p w) /\
  Blogserver.DeletePost request w = (Returns success, deleted b p w).
Proof.
  intros b p Hs Hb Hp.
  destruct (DeleteMany_key b p w w (enter_quiet w Hs) Hb Hp) as [n Hn].
  unfold Server.DeletePost, Blogserver.DeletePost. rewrite (Connect_quiet w Hs).
  unfold Server.blogIdKey, Server.postIdKey, Blogserver.blogIdKey, Blogserver.postIdKey.
  fold b p. rewrite Hn. split; reflexivity.
Qed.

Lemma filter_deleted_same (b p : Z) (c : list D) :
  List.filter (hasKey b p) (List.filter (fun d => negb (hasKey b p d)) c) = [].
Proof.
  induction c as [| d c IH]; [reflexivity |]. cbn [List.filter].
  destruct (hasKey b p d) eqn:E; cbn [negb]; [exact IH |].
  cbn [List.filter]. now rewrite E.
Qed.

Lemma filter_deleted_other (b p b' p' : Z) (c : list D) :
  b <> b' \/ p <> p' ->
  List.filter (hasKey b' p') (List.filter (fun d => negb (hasKey b p d)) c)
  = List.filter (hasKey b' p') c.
Proof.
  intros Hne. induction c as [| d c IH]; [reflexivity |]. cbn [List.filter].
  destruct (hasKey b p d) eqn:E; cbn [negb].
  - rewrite IH. destruct (hasKey b' p' d) eqn:E'; [| reflexivity].
    apply hasKey_isPost in E as [Eb Ep]. apply hasKey_isPost in E' as [Eb' Ep'].
    rewrite Eb in Eb'. rewrite Ep in Ep'. destruct Hne; congruence.
  - cbn [List.filter]. now rewrite IH.
Qed.

(** ** Delete, then Get *)

(** After an undisturbed Delete of a compound key, a Get of the same key
    fails with the not-found error.  Both revisions. *)
Theorem Delete_then_Get_not_found (request : IdRequest) (w : World) :
  script w = [] ->
  IdRequest_BlogId request <= MaxInt64 -> IdRequest_PostId request <= MaxInt64 ->
  fst (Server.GetPost request (snd (Server.DeletePost request w))) = Fails errNoPost /\
  fst (Blogserver.GetPost request (snd (Blogserver.DeletePost request w)))
  = Fails errNoPost.
Proof.
  intros Hs Hb Hp. destruct (DeletePost_quiet request w Hs Hb Hp) as [-> ->].
  cbn [snd].
  rewrite (Server_GetPost_quiet request (deleted _ _ w) Hs Hb Hp).
  rewrite (Blogserver_GetPost_quiet request (deleted _ _ w) Hs Hb Hp).
  unfold deleted. cbn [docs setDocs]. rewrite filter_deleted_same. split; reflexivity.
Qed.

Lemma Delete_then_Get_not_found_witness :
  fst (Server.GetPost deleteRequest (snd (Server.DeletePost deleteRequest getWorld)))
  = Fails errNoPost /\
  fst (Blogserver.GetPost deleteRequest (snd (Blogserver.DeletePost deleteRequest getWorld)))
  = Fails errNoPost.
Proof.
  apply (Delete_then_Get_not_found deleteRequest getWorld eq_refl);
    vm_compute; discriminate.
Defined.

(** An undisturbed Delete of one compound key does not change what a Get of
    another compound key returns.  Both revisions. *)
Theorem Delete_keeps_other_posts (request other : IdRequest) (w : World) :
  script w = [] ->
  IdRequest_BlogId request <= MaxInt64 -> IdRequest_PostId request <= MaxInt64 ->
  IdRequest_BlogId other <= MaxInt64 -> IdRequest_PostId other <= MaxInt64 ->
  IdRequest_BlogId request <> IdRequest_BlogId other \/
  IdRequest_PostId request <> IdRequest_PostId other ->
  fst (Server.GetPost other (snd (Server.DeletePost request w)))
  = fst (Server.GetPost other w) /\
  fst (Blogserver.GetPost other (snd (Blogserver.DeletePost request w)))
  = fst (Blogserver.GetPost other w).
Proof.
  intros Hs Hb Hp Hb' Hp' Hne. destruct (DeletePost_quiet request w Hs Hb Hp) as [-> ->].
  cbn [snd].
  rewrite (Server_GetPost_quiet other (deleted _ _ w) Hs Hb' Hp').
  rewrite (Blogserver_GetPost_quiet other (deleted _ _ w) Hs Hb' Hp').
  rewrite (Server_GetPost_quiet other w Hs Hb' Hp').
  rewrite (Blogserver_GetPost_quiet other w Hs Hb' Hp').
  unfold deleted. cbn [docs setDocs fst].
  rewrite (filter_deleted_other _ _ _ _ _ Hne). split; reflexivity.
Qed.

Lemma Delete_keeps_other_posts_witness :
  fst (Server.GetPost (idRequest 1 5) (snd (Server.DeletePost deleteRequest getWorld)))
  = Returns dog /\
  fst (Blogserver.GetPost (idRequest 1 5)
         (snd (Blogserver.DeletePost deleteRequest getWorld)))
  = Returns dog.
Proof.
  destruct (Delete_keeps_other_posts deleteRequest (idRequest 1 5) getWorld eq_refl)
    as [H1 H2]; try (vm_compute; discriminate).
  - right. vm_compute. discriminate.
  - rewrite H1, H2. split; vm_compute; reflexivity.
Defined.

(** ** Calls under a script without concurrent writes *)

(** The collection is [c] and no concurrent write is to come. *)
Lemma enter_writeFree (c : list D) (w : World) :
  docs w = c /\ Forall writeFree (script w) ->
  docs (snd (enter w)) = c /\ Forall writeFree (script (snd (enter w))).
Proof.
  intros [Hd Hs]. unfold enter. destruct (script w) as [| t rest] eqn:E.
  - cbn [snd]. rewrite E. now split.
  - inversion Hs as [| t' rest' Ht Hrest]; subst. unfold writeFree in Ht.
    rewrite Ht. cbn. now split.
Qed.

Lemma Connect_world (w : World) : snd (Connect w) = snd (enter w).
Proof. unfold Connect. now destruct (enter w) as [[e |] w']. Qed.

Lemma FindOne_world (f : Go.D) (o : FindOptions) (w : World) :
  snd (FindOne f o w) = snd (enter w).
Proof.
  unfold FindOne. destruct (enter w) as [[e |] w']; [reflexivity |].
  now destruct (runQuery (engine w') f o (docs w')) as [[| d l] |].
Qed.

Lemma CountDocuments_world (f : Go.D) (w : World) :
  snd (CountDocuments f w) = snd (enter w).
Proof.
  unfold CountDocuments. destruct (enter w) as [[e |] w']; [reflexivity |].
  now destruct (runQuery (engine w') f noOptions (docs w')).
Qed.

Lemma Find_world (f : Go.D) (o : FindOptions) (w : World) :
  snd (Find f o w) = snd (enter w).
Proof.
  unfold Find. destruct (enter w) as [[e |] w']; [reflexivity |].
  now destruct (runQuery (engine w') f o (docs w')).
Qed.

Lemma All_world (cursor : list D) (w : World) : snd (All cursor w) = snd (enter w).
Proof. unfold All. now destruct (enter w) as [[e |] w']. Qed.

(** Whatever faults occur, a Get and a Search leave the collection as it is:
    without concurrent writers, the collection after the call is the one
    before it.  Both revisions. *)
Theorem reads_leave_collection (get : IdRequest) (search : SearchRequest) (w : World) :
  Forall writeFree (script w) ->
  docs (snd (Server.GetPost get w)) = docs w /\
  docs (snd (Blogserver.GetPost get w)) = docs w /\
  docs (snd (Server.GetPosts search w)) = docs w /\
  docs (snd (Blogserver.GetPosts search w)) = docs w.
Proof.
  intros Hs.
  enough (Hall : forall c, docs w = c /\ Forall writeFree (script w) ->
            docs (snd (Server.GetPost get w)) = c /\
            docs (snd (Blogserver.GetPost get w)) = c /\
            docs (snd (Server.GetPosts search w)) = c /\
            docs (snd (Blogserver.GetPosts search w)) = c)
    by (apply Hall; now split).
  intros c H.
  pose proof (enter_writeFree c w H) as H0. rewrite <- Connect_world in H0.
  assert (Hget : forall f v, docs v = c /\ Forall writeFree (script v) ->
                             docs (snd (FindOne f noOptions v)) = c).
  { intros f v Hv. rewrite FindOne_world. now apply enter_writeFree. }
  assert (Hsearch : forall f f' o v, docs v = c /\ Forall writeFree (script v) ->
            forall (k : Z -> list M -> Contents),
              docs (snd (match CountDocuments f v with
                         | (Err _, v1) => (Fails errInternal, v1)
                         | (Ok total, v1) =>
                             match Find f' o v1 with
                             | (Err _, v2) => (Fails errInternal, v2)
                             | (Ok cursor, v2) =>
                                 match All cursor v2 with
                                 | (Err _, v3) => (Fails errInternal, v3)
                                 | (Ok results, v3) => (Returns (k total results), v3)
                                 end
                             end
                         end)) = c).
  { intros f f' o v Hv k.
    pose proof (enter_writeFree c v Hv) as H1. rewrite <- (CountDocuments_world f) in H1.
    destruct (CountDocuments f v) as [[total | e] v1]; cbn [snd] in *; [| apply H1].
    pose proof (enter_writeFree c v1 H1) as H2. rewrite <- (Find_world f' o) in H2.
    destruct (Find f' o v1) as [[cursor | e] v2]; cbn [snd] in *; [| apply H2].
    pose proof (enter_writeFree c v2 H2) as H3. rewrite <- (All_world cursor) in H3.
    destruct (All cursor v2) as [[results | e] v3]; cbn [snd] in *; apply H3. }
  unfold Server.GetPost, Blogserver.GetPost, Server.GetPosts, Blogserver.GetPosts.
  destruct (Connect w) as [[[] | e] w0]; cbn [snd] in *; [| repeat split; apply H0].
  split; [| split; [| split]].
  - specialize (Hget [(Server.blogIdKey, Go.Uint64 (IdRequest_BlogId get));
                      (Server.postIdKey, Go.Uint64 (IdRequest_PostId get))] w0 H0).
    destruct (FindOne _ noOptions w0) as [[d | e] w1]; cbn [snd] in *;
      [exact Hget | now destruct (isErrNoDocuments e)].
  - specialize (Hget [(Blogserver.blogIdKey, Go.Uint64 (IdRequest_BlogId get));
                      (Blogserver.postIdKey, Go.Uint64 (IdRequest_PostId get))] w0 H0).
    destruct (FindOne _ noOptions w0) as [[d | e] w1]; cbn [snd] in *;
      [exact Hget | now destruct (isErrNoDocuments e)].
  - apply (Hsearch _ _ _ w0 H0
             (fun total results =>
                {| List_ := Mongoclient.ConvertSlice results Server.convertToContent;
                   Total := toUint64 total |})).
  - apply (Hsearch _ _ _ w0 H0
             (fun total results =>
                {| List_ := Blogserver.convertToContents results;
                   Total := toUint64 total |})).
Qed.

Lemma reads_leave_collection_witness :
  docs (snd (Server.GetPost getRequest faultyWorld)) = docs faultyWorld /\
  docs (snd (Blogserver.GetPost getRequest faultyWorld)) = docs faultyWorld /\
  docs (snd (Server.GetPosts oddRequest faultyWorld)) = docs faultyWorld /\
  docs (snd (Blogserver.GetPosts oddRequest faultyWorld)) = docs faultyWorld.
Proof.
  apply (reads_leave_collection getRequest oddRequest faultyWorld).
  repeat constructor.
Defined.

(** ** Create: what reaches the collection *)

Lemma marshal_post_bounds (request : CreateRequest) (post : Go.M) (n : Z) (d : D) :
  carries request post ->
  marshal (map_to_list (<["postId" := Go.Uint64 n]> post)) = Some d ->
  CreateRequest_BlogId request <= MaxInt64 /\
  CreateRequest_UserId request <= MaxInt64 /\ n <= MaxInt64.
Proof.
  intros Hc. rewrite (Hc n).
  assert (Hl : map_to_list (<["postId" := Go.Uint64 n]> (post0 request))
               = [("userId", Go.Uint64 (CreateRequest_UserId request));
                  ("blogId", Go.Uint64 (CreateRequest_BlogId request));
                  ("text", Go.String_ (CreateRequest_Text request));
                  ("title", Go.String_ (CreateRequest_Title request));
                  ("postId", Go.Uint64 n)]).
  { destruct request. vm_compute. reflexivity. }
  rewrite Hl. cbn [marshal marshalValue]. unfold encodeUint64.
  destruct (Z.leb_spec (CreateRequest_UserId request) MaxInt64); [| discriminate].
  destruct (Z.leb_spec (CreateRequest_BlogId request) MaxInt64); [| discriminate].
  destruct (Z.leb_spec n MaxInt64); [| discriminate].
  intros _. auto.
Qed.

(** What an insert of the post of the request does to the world. *)
Lemma InsertOne_inv (request : CreateRequest) (post : Go.M) (n : Z) (w w' : World)
    (r : result value) :
  carries request post ->
  InsertOne (<["postId" := Go.Uint64 n]> post) w = (r, w') ->
  match r with
  | Ok _ =>
      let w1 := snd (enter w) in
      CreateRequest_BlogId request <= MaxInt64 /\
      CreateRequest_UserId request <= MaxInt64 /\ n <= MaxInt64 /\
      docs w' = (docs w1 ++ [newPost (nextOid w1) request n])%list /\
      script w' = script w1 /\
      forall e, In e (docs w1) -> ~ isPost (CreateRequest_BlogId request) n e
  | Err _ => w' = snd (enter w)
  end.
Proof.
  intros Hc. unfold InsertOne. destruct (enter w) as [[e |] w1]; cbn [snd].
  { intros H. now injection H as <- <-. }
  destruct (marshal (map_to_list (<["postId" := Go.Uint64 n]> post))) as [d |] eqn:Em.
  2: { intros H. now injection H as <- <-. }
  destruct (marshal_post_bounds request post n d Hc Em) as (Hb & Hu & Hn).
  rewrite (marshal_post_inv request post n (nextOid w1) d Hc Em).
  destruct (store (docs w1) (newPost (nextOid w1) request n)) as [c |] eqn:Es.
  2: { intros H. now injection H as <- <-. }
  intros H. injection H as <- <-. apply store_inv in Es as [-> Hno]. cbn [docs script].
  repeat split; try assumption.
  intros e He Hp. apply hasKey_isPost in Hp.
  rewrite <- sameKey_newPost with (oid := nextOid w1) (request := request) in Hp.
  rewrite (Hno e He) in Hp. discriminate.
Qed.

Lemma enter_settled (q : Prop) (c : list D) (w : World) :
  settled q c w -> settled q c (snd (enter w)).
Proof.
  intros (Hd & Hs & Hq).
  destruct (enter_writeFree c w (conj Hd Hs)) as [H1 H2].
  split; [exact H1 |]. split; [exact H2 |].
  intros H. specialize (Hq H). unfold enter. now rewrite Hq.
Qed.

Lemma Server_loop_stores (q : Prop) (request : CreateRequest) (filter : Go.D) (fuel : nat) :
  forall post n c w,
    carries request post -> settled q c w ->
    outcomeStored q request c (fun x k => Id x = k)
      (Server.GeneratePostIdStep fuel filter post n w).
Proof.
  induction fuel as [| fuel IH]; intros post n c w Hc Hw; [exact Hw |].
  assert (Hstep : forall k v, settled q c v ->
            outcomeStored q request c (fun x k => Id x = k)
              (Server.CreatePostStep (Server.GeneratePostIdStep fuel filter) post k v)).
  { intros k v Hv. unfold Server.CreatePostStep, Server.postIdKey.
    destruct (InsertOne (<["postId" := Go.Uint64 k]> post) v) as [[id | e] v'] eqn:Ei;
      pose proof (InsertOne_inv request post k v v' _ Hc Ei) as Hi;
      cbv beta iota zeta in Hi.
    - destruct Hi as (_ & _ & _ & Hd & Hs & _).
      destruct (enter_settled q c v Hv) as (Hd1 & Hs1 & Hq1).
      exists (nextOid (snd (enter v))), k. split; [reflexivity |].
      split; [now rewrite Hd, Hd1 |]. now rewrite Hs.
    - subst v'. pose proof (enter_settled q c v Hv) as Hv'.
      destruct (IsDuplicateKeyError e); [| exact Hv'].
      apply IH; [now apply carries_insert | exact Hv']. }
  cbn [Server.GeneratePostIdStep].
  pose proof (enter_settled q c w Hw) as H1. rewrite <- (FindOne_world filter
    Server.optsMaxPostId) in H1.
  destruct (FindOne filter Server.optsMaxPostId w) as [[result | e] w1]; cbn [snd] in H1.
  - destruct (nth_error result 1); [now apply Hstep | exact H1].
  - destruct (isErrNoDocuments e); [now apply Hstep | exact H1].
Qed.

Lemma Blogserver_loop_stores (q : Prop) (request : CreateRequest) (b : Z) (fuel : nat) :
  forall post n c w,
    carries request post -> settled q c w ->
    outcomeStored q request c (fun _ _ => True)
      (Blogserver.GeneratePostIdStep fuel b post n w).
Proof.
  induction fuel as [| fuel IH]; intros post n c w Hc Hw; [exact Hw |].
  assert (Hstep : forall k v, settled q c v ->
            outcomeStored q request c (fun _ _ => True)
              (Blogserver.CreatePostStep (Blogserver.GeneratePostIdStep fuel b) post k v)).
  { intros k v Hv. unfold Blogserver.CreatePostStep, Blogserver.postIdKey.
    destruct (InsertOne (<["postId" := Go.Uint64 k]> post) v) as [[id | e] v'] eqn:Ei;
      pose proof (InsertOne_inv request post k v v' _ Hc Ei) as Hi;
      cbv beta iota zeta in Hi.
    - destruct Hi as (_ & _ & _ & Hd & Hs & _).
      destruct (enter_settled q c v Hv) as (Hd1 & Hs1 & Hq1).
      exists (nextOid (snd (enter v))), k. split; [exact I |].
      split; [now rewrite Hd, Hd1 |]. now rewrite Hs.
    - subst v'. pose proof (enter_settled q c v Hv) as Hv'.
      destruct (IsDuplicateKeyError e); [| exact Hv'].
      apply IH; [now apply carries_insert | exact Hv']. }
  cbn [Blogserver.GeneratePostIdStep].
  pose proof (enter_settled q c w Hw) as H1.
  rewrite <- (FindOne_world [(Blogserver.blogIdKey, Go.Uint64 b)]
                Blogserver.optsMaxPostId) in H1.
  destruct (FindOne _ Blogserver.optsMaxPostId w) as [[result | e] w1]; cbn [snd] in H1.
  - destruct (nth_error result 0); [now apply Hstep | exact H1].
  - destruct (isErrNoDocuments e); [now apply Hstep | exact H1].
Qed.

Lemma Server_CreatePost_stores (q : Prop) (request : CreateRequest) (fuel : nat)
    (c : list D) (w : World) :
  settled q c w ->
  outcomeStored q request c (fun x k => Id x = k) (Server.CreatePost fuel request w).
Proof.
  intros Hw. unfold Server.CreatePost.
  pose proof (enter_settled q c w Hw) as H0. rewrite <- Connect_world in H0.
  destruct (Connect w) as [[[] | e] w0]; cbn [snd] in H0; [| exact H0].
  apply Server_loop_stores; [apply carries_post0 | exact H0].
Qed.

Lemma Blogserver_CreatePost_stores (q : Prop) (request : CreateRequest) (fuel : nat)
    (c : list D) (w : World) :
  settled q c w ->
  outcomeStored q request c (fun _ _ => True) (Blogserver.CreatePost fuel request w).
Proof.
  intros Hw. unfold Blogserver.CreatePost.
  pose proof (enter_settled q c w Hw) as H0. rewrite <- Connect_world in H0.
  destruct (Connect w) as [[[] | e] w0]; cbn [snd] in H0; [| exact H0].
  apply Blogserver_loop_stores; [apply carries_post0 | exact H0].
Qed.

(** Without concurrent writers, and whatever faults occur, a Create of
    either revision changes the collection in one way only: when it returns
    a response, the post of the request has been appended once, after the
    documents that were there; in every other case (an error, a panic, a
    loop that has not ended) the collection is the one before the call. *)
Theorem Create_stores_one_post_or_nothing (request : CreateRequest) (fuel : nat)
    (w : World) :
  Forall writeFree (script w) ->
  match Server.CreatePost fuel request w with
  | (Some (Returns x), w') =>
      exists oid, docs w' = (docs w ++ [newPost oid request (Id x)])%list
  | (_, w') => docs w' = docs w
  end /\
  match Blogserver.CreatePost fuel request w with
  | (Some (Returns x), w') =>
      exists oid k, docs w' = (docs w ++ [newPost oid request k])%list
  | (_, w') => docs w' = docs w
  end.
Proof.
  intros Hs.
  assert (Hw : settled False (docs w) w) by (repeat split; [exact Hs | contradiction]).
  pose proof (Server_CreatePost_stores False request fuel (docs w) w Hw) as H1.
  pose proof (Blogserver_CreatePost_stores False request fuel (docs w) w Hw) as H2.
  unfold outcomeStored, settled in H1, H2. split.
  - destruct (Server.CreatePost fuel request w) as [[[x | e |] |] w'];
      try (now destruct H1).
    destruct H1 as (oid & k & <- & Hd & _). now exists oid.
  - destruct (Blogserver.CreatePost fuel request w) as [[[x | e |] |] w'];
      try (now destruct H2).
    destruct H2 as (oid & k & _ & Hd & _). now exists oid, k.
Qed.

Lemma Create_stores_one_post_or_nothing_witness :
  docs (snd (Server.CreatePost 2 createRequest faultyWorld)) = docs faultyWorld /\
  docs (snd (Blogserver.CreatePost 2 createRequest faultyWorld)) = docs faultyWorld /\
  exists oid, docs (snd (Server.CreatePost 2 createRequest fiveWorld))
              = (docs fiveWorld ++ [newPost oid createRequest 6])%list.
Proof.
  assert (Hf : Forall writeFree (script faultyWorld)) by (repeat constructor).
  assert (Hq : Forall writeFree (script fiveWorld)) by constructor.
  destruct (Create_stores_one_post_or_nothing createRequest 2 faultyWorld Hf) as [H1 H2].
  destruct (Create_stores_one_post_or_nothing createRequest 2 fiveWorld Hq) as [H3 _].
  split; [exact H1 | split; [exact H2 | exact H3]].
Defined.

(** ** Create, then Get and Search *)

Lemma toUint64_range (x : Z) : 0 <= toUint64 x < two64.
Proof. unfold toUint64, two64. apply Z.mod_pos_bound. lia. Qed.

Lemma isPost_newPost (oid : Z) (request : CreateRequest) (k : Z) :
  isPost (CreateRequest_BlogId request) k (newPost oid request k).
Proof. split; reflexivity. Qed.

Lemma inBlog_newPost (oid : Z) (request : CreateRequest) (k : Z) :
  inBlog (CreateRequest_BlogId request) (newPost oid request k) = true.
Proof. exact (isPost_inBlog _ _ _ (isPost_newPost oid request k)). Qed.

(** Whenever the loop of [src/server.go] returns a response, the post of the
    request stands last in the collection under the identifier returned,
    which no other document bears and which, like the identifiers of the
    request, fits an int64. *)
Lemma Server_loop_success (request : CreateRequest) (filter : Go.D) (fuel : nat) :
  forall post n w r w',
    carries request post -> 0 <= n ->
    Server.GeneratePostIdStep fuel filter post n w = (Some (Returns r), w') ->
    0 <= Id r <= MaxInt64 /\
    CreateRequest_BlogId request <= MaxInt64 /\
    CreateRequest_UserId request <= MaxInt64 /\
    exists c oid, docs w' = (c ++ [newPost oid request (Id r)])%list /\
                  forall e, In e c -> ~ isPost (CreateRequest_BlogId request) (Id r) e.
Proof.
  induction fuel as [| fuel IH]; intros post n w r w' Hc Hn; [discriminate |].
  assert (Hstep : forall k v, 0 <= k ->
            Server.CreatePostStep (Server.GeneratePostIdStep fuel filter) post k v
            = (Some (Returns r), w') ->
            0 <= Id r <= MaxInt64 /\
            CreateRequest_BlogId request <= MaxInt64 /\
            CreateRequest_UserId request <= MaxInt64 /\
            exists c oid, docs w' = (c ++ [newPost oid request (Id r)])%list /\
                          forall e, In e c ->
                                    ~ isPost (CreateRequest_BlogId request) (Id r) e).
  { intros k v Hk. unfold Server.CreatePostStep, Server.postIdKey.
    destruct (InsertOne (<["postId" := Go.Uint64 k]> post) v) as [[id | e] v'] eqn:Ei;
      pose proof (InsertOne_inv request post k v v' _ Hc Ei) as Hi;
      cbv beta iota zeta in Hi.
    - intros H. injection H as <- <-. cbn [Id].
      destruct Hi as (Hb & Hu & Hk' & Hd & _ & Hfree).
      repeat split; try assumption. eauto.
    - destruct (IsDuplicateKeyError e); [| discriminate].
      apply IH; [now apply carries_insert | exact Hk]. }
  cbn [Server.GeneratePostIdStep].
  destruct (FindOne filter Server.optsMaxPostId w) as [[result | e] w1].
  - destruct (nth_error result 1) as [x |]; [| discriminate].
    apply Hstep. apply toUint64_range.
  - destruct (isErrNoDocuments e); [now apply Hstep | discriminate].
Qed.

Lemma Server_convert_newPost (oid : Z) (request : CreateRequest) (k : Z) :
  0 <= k <= MaxInt64 -> 0 <= CreateRequest_UserId request <= MaxInt64 ->
  Server.convertToContent (toM (newPost oid request k)) = contentOf oid request k.
Proof.
  intros Hk Hu. unfold Server.convertToContent, contentOf.
  assert (H1 : toM (newPost oid request k) !! Server.titleKey
               = Some (Str (CreateRequest_Title request)))
    by (destruct request; vm_compute; reflexivity).
  assert (H2 : toM (newPost oid request k) !! Server.textKey
               = Some (Str (CreateRequest_Text request)))
    by (destruct request; vm_compute; reflexivity).
  assert (H3 : toM (newPost oid request k) !! Server.postIdKey = Some (Int64 k))
    by (destruct request; vm_compute; reflexivity).
  assert (H4 : toM (newPost oid request k) !! Server.userIdKey
               = Some (Int64 (CreateRequest_UserId request)))
    by (destruct request; vm_compute; reflexivity).
  assert (H5 : Mongoclient.ExtractCreateDate (toM (newPost oid request k)) = Timestamp oid).
  { unfold Mongoclient.ExtractCreateDate.
    assert (H : toM (newPost oid request k) !! "_id" = Some (ObjectID oid))
      by (destruct request; vm_compute; reflexivity).
    now rewrite H. }
  rewrite H1, H2, H3, H4, H5. cbn [Mongoclient.ExtractUint64].
  rewrite !toUint64_small by (unfold MaxInt64, two63, two64 in *; lia).
  reflexivity.
Qed.

(** A post a Create of [src/server.go] has stored is the one a Get under the
    identifier of the response returns: same title, text and author, and
    the postId of the response. *)
Theorem Server_Create_then_Get (fuel : nat) (request : CreateRequest) (w w' : World)
    (r : Response) :
  Server.CreatePost fuel request w = (Some (Returns r), w') ->
  script w' = [] -> 0 <= CreateRequest_UserId request ->
  exists oid,
    Server.GetPost (idRequest (CreateRequest_BlogId request) (Id r)) w'
    = (Returns (contentOf oid request (Id r)), w').
Proof.
  intros Hcreate Hs Hu0. unfold Server.CreatePost in Hcreate.
  destruct (Connect w) as [[[] | e] w0]; [| discriminate].
  destruct (Server_loop_success request _ fuel _ 1 w0 r w' (carries_post0 request)
              ltac:(lia) Hcreate) as (Hk & Hb & Hu & c & oid & Hd & Hfree).
  exists oid.
  rewrite (Server_GetPost_quiet (idRequest _ (Id r)) w' Hs Hb (proj2 Hk)).
  cbn [idRequest IdRequest_BlogId IdRequest_PostId]. rewrite Hd, List.filter_app.
  rewrite (filter_ext_nil (hasKey _ (Id r)) (hasKey _ (Id r)) c (fun _ => eq_refl)).
  - cbn [List.filter app].
    rewrite (proj2 (hasKey_isPost _ _ _) (isPost_newPost oid request (Id r))).
    now rewrite (Server_convert_newPost oid request (Id r) Hk (conj Hu0 Hu)).
  - intros e He. destruct (hasKey _ (Id r) e) eqn:E; [| reflexivity].
    apply hasKey_isPost in E. now destruct (Hfree e He).
Qed.

Lemma Server_Create_then_Get_witness :
  exists oid,
    Server.GetPost (idRequest 1 6) (inserted fiveWorld (newPost 1000 createRequest 6))
    = (Returns (contentOf oid createRequest 6),
       inserted fiveWorld (newPost 1000 createRequest 6)).
Proof.
  apply (Server_Create_then_Get 1 createRequest fiveWorld
           (inserted fiveWorld (newPost 1000 createRequest 6))
           {| Success := true; Id := 6 |}).
  - vm_compute. reflexivity.
  - reflexivity.
  - vm_compute. discriminate.
Defined.

Lemma Server_GetPosts_quiet_total (request : SearchRequest) (w : World) :
  script w = [] -> SearchRequest_Filter request = "" ->
  SearchRequest_BlogId request <= MaxInt64 ->
  0 <= SearchRequest_Start request <= MaxInt64 ->
  0 <= SearchRequest_End request <= MaxInt64 ->
  Z.of_nat (length (docs w)) < two64 ->
  exists c, Server.GetPosts request w = (Returns c, w) /\
            Total c = Z.of_nat (length (List.filter (inBlog (SearchRequest_BlogId request))
                                          (docs w))).
Proof.
  intros Hs Hf Hb Hstart Hend Hbig.
  eexists. split.
  - apply (Server_GetPosts_page request None w w w w w (Connect_quiet w Hs)
             (enter_quiet w Hs) (enter_quiet w Hs) (enter_quiet w Hs) Hb Hstart Hend);
      [now apply noPattern | exact Hbig].
  - cbn [Total]. f_equal. f_equal. apply List.filter_ext. intros d.
    unfold searchMatch. now rewrite andb_true_r.
Qed.

(** After an undisturbed Create of [src/server.go] into a blog, the total a
    Search of that blog reports is one more than before. *)
Theorem Server_Create_adds_one_to_total (fuel : nat) (request : CreateRequest)
    (search : SearchRequest) (w w' : World) (r : Response) :
  script w = [] ->
  Server.CreatePost fuel request w = (Some (Returns r), w') ->
  SearchRequest_BlogId search = CreateRequest_BlogId request ->
  SearchRequest_Filter search = "" ->
  0 <= SearchRequest_Start search <= MaxInt64 ->
  0 <= SearchRequest_End search <= MaxInt64 ->
  Z.of_nat (length (docs w)) + 1 < two64 ->
  exists c c', Server.GetPosts search w = (Returns c, w) /\
               Server.GetPosts search w' = (Returns c', w') /\
               Total c' = Total c + 1.
Proof.
  intros Hs Hcreate Hblog Hf Hstart Hend Hbig.
  assert (Hw : settled True (docs w) w) by (repeat split; [rewrite Hs; constructor | auto]).
  pose proof (Server_CreatePost_stores True request fuel (docs w) w Hw) as Hst.
  rewrite Hcreate in Hst. destruct Hst as (oid & k & _ & Hd & _ & Hs').
  specialize (Hs' I).
  assert (Hb : CreateRequest_BlogId request <= MaxInt64).
  { unfold Server.CreatePost in Hcreate.
    destruct (Connect w) as [[[] | e] w0]; [| discriminate].
    now destruct (Server_loop_success request _ fuel _ 1 w0 r w' (carries_post0 request)
                    ltac:(lia) Hcreate) as (_ & Hb & _). }
  rewrite <- Hblog in Hb.
  destruct (Server_GetPosts_quiet_total search w Hs Hf Hb Hstart Hend ltac:(lia))
    as (c & Hc & Ht).
  destruct (Server_GetPosts_quiet_total search w' Hs' Hf Hb Hstart Hend) as (c' & Hc' & Ht').
  { rewrite Hd, length_app. cbn [length]. lia. }
  exists c, c'. split; [exact Hc |]. split; [exact Hc' |].
  rewrite Ht, Ht', Hd, List.filter_app, length_app. cbn [List.filter].
  rewrite Hblog, inBlog_newPost. cbn [length]. lia.
Qed.

Lemma Server_Create_adds_one_to_total_witness :
  exists c c',
    Server.GetPosts (search "" 0 5) fiveWorld = (Returns c, fiveWorld) /\
    Server.GetPosts (search "" 0 5) (inserted fiveWorld (newPost 1000 createRequest 6))
    = (Returns c', inserted fiveWorld (newPost 1000 createRequest 6)) /\
    Total c' = Total c + 1.
Proof.
  apply (Server_Create_adds_one_to_total 1 createRequest (search "" 0 5) fiveWorld
           (inserted fiveWorld (newPost 1000 createRequest 6))
           {| Success := true; Id := 6 |} eq_refl);
    try (vm_compute; reflexivity); split; vm_compute; discriminate.
Defined.

(** ** Create: consecutive identifiers *)

(** An undisturbed Create of [src/server.go] into a well-formed blog: the
    post is stored under 1 when the blog is empty and under the greatest
    postId plus one otherwise, and that identifier is returned. *)
Lemma Server_CreatePost_quiet (fuel : nat) (request : CreateRequest) (w : World) :
  let b := CreateRequest_BlogId request in
  script w = [] -> b <= MaxInt64 -> CreateRequest_UserId request <= MaxInt64 ->
  wfBlog b (docs w) ->
  exists k,
    Server.CreatePost (S fuel) request w
    = (Some (Returns {| Success := true; Id := k |}),
       inserted w (newPost (nextOid w) request k)) /\
    ((noPosts b (docs w) /\ k = 1) \/ (isMaxPostId b (docs w) (k - 1) /\ 0 < k)).
Proof.
  intros b Hs Hb Hu Hwf. unfold Server.CreatePost. rewrite (Connect_quiet w Hs).
  change (exists k,
            Server.GeneratePostIdStep (S fuel) [("blogId", Go.Uint64 b)] (post0 request) 1 w
            = (Some (Returns {| Success := true; Id := k |}),
               inserted w (newPost (nextOid w) request k)) /\
            ((noPosts b (docs w) /\ k = 1) \/ (isMaxPostId b (docs w) (k - 1) /\ 0 < k))).
  assert (Hins : forall k, k <= MaxInt64 ->
            (forall e, In e (docs w) -> ~ isPost b k e) ->
            Server.CreatePostStep
              (Server.GeneratePostIdStep fuel [("blogId", Go.Uint64 b)]) (post0 request) k w
            = (Some (Returns {| Success := true; Id := k |}),
               inserted w (newPost (nextOid w) request k))).
  { intros k Hk Hfree. unfold Server.CreatePostStep, Server.postIdKey.
    rewrite (InsertOne_post request (post0 request) k w w (enter_quiet w Hs)
               (carries_post0 request) Hb Hu Hk).
    now rewrite (store_newPost _ _ _ _ Hfree). }
  destruct (Server_candidate fuel b (post0 request) 1 w w (enter_quiet w Hs) Hb Hwf)
    as [[Hnone Hg] | (m & Hmax & Hm & Hg)].
  - exists 1. rewrite Hg. split; [| now left].
    apply Hins; [unfold MaxInt64, two63; lia |].
    intros e He Hp. apply isPost_inBlog in Hp. rewrite (Hnone e He) in Hp. discriminate.
  - exists (m + 1). rewrite Hg. split.
    + apply Hins; [lia |]. intros e He Hp.
      pose proof (proj2 Hmax e (m + 1) He (isPost_inBlog _ _ _ Hp) (proj2 Hp)). lia.
    + right. replace (m + 1 - 1) with m by lia. split; [exact Hmax | lia].
Qed.

Lemma wellFormed_newPost (oid : Z) (request : CreateRequest) (k : Z) :
  0 <= k < MaxInt64 -> wellFormed (newPost oid request k) = true.
Proof.
  intros Hk. unfold wellFormed, newPost. cbn.
  destruct (Z.leb_spec 0 k); [| lia]. destruct (Z.ltb_spec k MaxInt64); [reflexivity | lia].
Qed.

(** Two undisturbed Creates of [src/server.go] into the same blog, one after
    the other: the second returns the identifier of the first plus one. *)
Theorem Server_consecutive_Creates (fuel fuel' : nat) (request request' : CreateRequest)
    (w w1 : World) (r1 : Response) :
  let b := CreateRequest_BlogId request in
  script w = [] -> wfBlog b (docs w) -> b <= MaxInt64 ->
  CreateRequest_UserId request <= MaxInt64 ->
  CreateRequest_UserId request' <= MaxInt64 ->
  CreateRequest_BlogId request' = b ->
  Server.CreatePost (S fuel) request w = (Some (Returns r1), w1) ->
  Id r1 < MaxInt64 ->
  exists r2 w2,
    Server.CreatePost (S fuel') request' w1 = (Some (Returns r2), w2) /\
    Id r2 = Id r1 + 1.
Proof.
  intros b Hs Hwf Hb Hu Hu' Hb' Hcreate Hlt.
  destruct (Server_CreatePost_quiet fuel request w Hs Hb Hu Hwf) as (k & Hk & Hcase).
  fold b in Hcase. rewrite Hk in Hcreate. injection Hcreate as <- <-. cbn [Id] in *.
  set (new := newPost (nextOid w) request k).
  assert (Hk0 : 0 <= k) by (destruct Hcase as [[_ ->] | [_ H]]; lia).
  assert (Hle : forall d p, In d (docs w) -> inBlog b d = true ->
                            numeric (lookupD "postId" d) = Some p -> p <= k).
  { intros d p Hd Hin Hp. destruct Hcase as [[Hnone _] | [[_ Hmax] _]].
    - rewrite (Hnone d Hd) in Hin. discriminate.
    - pose proof (Hmax d p Hd Hin Hp). lia. }
  assert (Hwf1 : wfBlog b (docs (inserted w new))).
  { intros d Hd Hin. cbn [inserted docs] in Hd.
    apply in_app_or in Hd as [Hd | [<- | []]]; [now apply Hwf |].
    now apply wellFormed_newPost. }
  assert (Hmax1 : isMaxPostId b (docs (inserted w new)) k).
  { split.
    - exists new. cbn [inserted docs]. split; [apply in_or_app; right; now left |].
      split; [apply inBlog_newPost | reflexivity].
    - intros d p Hd Hin Hp. cbn [inserted docs] in Hd.
      apply in_app_or in Hd as [Hd | [<- | []]]; [now apply (Hle d) |].
      cbn in Hp. injection Hp as <-. lia. }
  rewrite <- Hb' in Hb, Hwf1, Hmax1.
  destruct (Server_CreatePost_quiet fuel' request' (inserted w new) Hs Hb Hu' Hwf1)
    as (k' & Hk' & Hcase').
  exists {| Success := true; Id := k' |},
    (inserted (inserted w new) (newPost (nextOid (inserted w new)) request' k')).
  split; [exact Hk' |]. cbn [Id].
  destruct Hcase' as [[Hnone _] | [Hmax' _]].
  - destruct (isMaxPostId_some _ _ _ Hmax1 Hnone).
  - pose proof (isMaxPostId_unique _ _ _ _ Hmax1 Hmax'). lia.
Qed.

Lemma Server_consecutive_Creates_witness :
  exists r2 w2,
    Server.CreatePost 1 createRequest (inserted fiveWorld (newPost 1000 createRequest 6))
    = (Some (Returns r2), w2) /\
    Id r2 = Id {| Success := true; Id := 6 |} + 1.
Proof.
  apply (Server_consecutive_Creates 0 0 createRequest createRequest fiveWorld
           (inserted fiveWorld (newPost 1000 createRequest 6))
           {| Success := true; Id := 6 |} eq_refl).
  - intros d [<- | []] _. reflexivity.
  - vm_compute. discriminate.
  - vm_compute. discriminate.
  - vm_compute. discriminate.
  - reflexivity.
  - vm_compute. reflexivity.
  - vm_compute. reflexivity.
Defined.

(** ** Search: the empty blog and the other blogs *)

Lemma applyLimit_nil (limit : option Z) : applyLimit limit [] = [].
Proof.
  destruct limit as [n |]; [| reflexivity]. unfold applyLimit.
  destruct (sentLimit n =? 0); [reflexivity | apply firstn_nil].
Qed.

Lemma filter_noPosts (b : Z) (m : option (string -> bool)) (c : list D) :
  noPosts b c -> List.filter (searchMatch b m) c = [].
Proof.
  intros Hnone. apply (filter_ext_nil _ (searchMatch b m)); [reflexivity |].
  intros d Hd. unfold searchMatch. now rewrite (Hnone d Hd).
Qed.

(** With start 0 and end 2^63 the limit is the least int64: its negation
    in int64 is itself, the limit is sent as it is and refused, and the
    Search of [src/server.go] is an internal error even on a blog without
    posts.  [src/blogserver/blogserver.go] sends no limit. *)
Example GetPosts_least_limit :
  fst (Server.GetPosts (search "" 0 (2 ^ 63)) emptyWorld) = Fails errInternal /\
  fst (Blogserver.GetPosts (search "" 0 (2 ^ 63)) emptyWorld)
  = Returns {| List_ := []; Total := 0 |}.
Proof. split; vm_compute; reflexivity. Qed.

(** An undisturbed Search of a blog without posts, with [start] and [end]
    within the int64 range, is no error: both revisions return an empty page
    and the total 0. *)
Theorem Search_of_empty_blog (request : SearchRequest)
    (m m' : option (string -> bool)) (w : World) :
  let b := SearchRequest_BlogId request in
  script w = [] -> b <= MaxInt64 ->
  0 <= SearchRequest_Start request <= MaxInt64 ->
  0 <= SearchRequest_End request <= MaxInt64 ->
  titleMatcher (engine w) Server.buildRegexFilter request m ->
  titleMatcher (engine w) Blogserver.buildFilterRegex request m' ->
  noPosts b (docs w) ->
  Server.GetPosts request w = (Returns {| List_ := []; Total := 0 |}, w) /\
  Blogserver.GetPosts request w = (Returns {| List_ := []; Total := 0 |}, w).
Proof.
  intros b Hs Hb Hstart Hend Hm Hm' Hnone. split.
  - pose proof (CountDocuments_search _ _ _ w w (enter_quiet w Hs) Hb Hm) as Hn.
    assert (Hk : toInt64 (SearchRequest_Start request) = SearchRequest_Start request)
      by (apply toInt64_small; unfold two63 in *; lia).
    assert (Hk' : toInt64 (SearchRequest_End request) = SearchRequest_End request)
      by (apply toInt64_small; unfold two63 in *; lia).
    assert (Hl : toInt64 (SearchRequest_End request - SearchRequest_Start request)
                 = SearchRequest_End request - SearchRequest_Start request)
      by (apply toInt64_small; unfold MaxInt64, two63 in *; lia).
    pose proof (Find_search _ _ _ (pageOptions request) (SearchRequest_Start request)
                  w w (enter_quiet w Hs) Hb Hm eq_refl) as Hf.
    cbn [pageOptions Skip Limit] in Hf. rewrite Hk, Hk', Hl in Hf.
    assert (Hr : limitRefused
                   (Some (SearchRequest_End request - SearchRequest_Start request)) = false)
      by (apply limitRefused_small; lia).
    specialize (Hf eq_refl (proj1 Hstart) Hr).
    fold b in Hn, Hf. rewrite (filter_noPosts b m _ Hnone) in Hn, Hf.
    cbn [Sort applySort] in Hf. unfold sortBy in Hf. cbn [fold_right] in Hf.
    rewrite skipn_nil, applyLimit_nil in Hf.
    assert (Ha : All [] w = (Ok [], w)) by (unfold All; now rewrite (enter_quiet w Hs)).
    now rewrite (Server_GetPosts_run request w w w w w _ _ _ (Connect_quiet w Hs) Hn Hf Ha).
  - unfold Blogserver.GetPosts. rewrite (Connect_quiet w Hs).
    assert (Hn : CountDocuments [(Blogserver.blogIdKey, Go.Uint64 b)] w = (Ok 0, w)).
    { unfold CountDocuments, runQuery. rewrite (enter_quiet w Hs).
      destruct (compileFilter_blog (engine w) b Hb) as (q & Hq & Hext).
      unfold Blogserver.blogIdKey. rewrite Hq. cbn [noOptions Skip Sort Limit Projection
                                                      applySort applyLimit limitRefused].
      rewrite length_map, (filter_ext_nil q (inBlog b) _ Hext Hnone). reflexivity. }
    fold b. rewrite Hn.
    change (if negb (SearchRequest_Filter request =? "")%string
            then ([(Blogserver.blogIdKey, Go.Uint64 b)] ++
                  [(Blogserver.titleKey,
                    Go.Doc (Blogserver.buildFilterRegex (SearchRequest_Filter request)))])%list
            else [(Blogserver.blogIdKey, Go.Uint64 b)])
      with (searchFilters Blogserver.buildFilterRegex request).
    unfold Find, runQuery. rewrite (enter_quiet w Hs).
    destruct (compileFilter_search _ _ _ _ Hb Hm') as (q & -> & Hq).
    cbn [noOptions Skip Limit limitRefused]. unfold All.
    rewrite (enter_quiet w Hs). reflexivity.
Qed.

Lemma Search_of_empty_blog_witness :
  Server.GetPosts (search "cat" 0 5) emptyWorld
  = (Returns {| List_ := []; Total := 0 |}, emptyWorld) /\
  Blogserver.GetPosts (search "cat" 0 5) emptyWorld
  = (Returns {| List_ := []; Total := 0 |}, emptyWorld).
Proof.
  apply (Search_of_empty_blog (search "cat" 0 5)
           (Fixture.literalEngine ".*cat.*") (Fixture.literalEngine ".*cat.*") emptyWorld
           eq_refl).
  - vm_compute. discriminate.
  - split; vm_compute; discriminate.
  - split; vm_compute; discriminate.
  - apply (withPattern _ _ _ ".*cat.*"); [discriminate | reflexivity | reflexivity].
  - apply (withPattern _ _ _ ".*cat.*"); [discriminate | reflexivity | reflexivity].
  - intros d [].
Defined.

Lemma In_skipn {A : Type} (n : nat) (l : list A) (x : A) : In x (skipn n l) -> In x l.
Proof.
  revert l. induction n as [| n IH]; intros l; [trivial |].
  destruct l as [| y l]; cbn [skipn]; [trivial |]. intros H. right. now apply IH.
Qed.

Lemma In_firstn {A : Type} (n : nat) (l : list A) (x : A) : In x (firstn n l) -> In x l.
Proof.
  revert l. induction n as [| n IH]; intros l; [intros [] |].
  destruct l as [| y l]; cbn [firstn]; [trivial |].
  intros [<- | H]; [now left | right; now apply IH].
Qed.

Lemma In_applyLimit (limit : option Z) (l : list D) (d : D) :
  In d (applyLimit limit l) -> In d l.
Proof.
  destruct limit as [n |]; [| trivial]. unfold applyLimit.
  destruct (sentLimit n =? 0); [trivial | apply In_firstn].
Qed.

(** Every entity a Search of [src/server.go] returns is the conversion of a
    document of the blog asked for: posts of other blogs never appear in the
    page. *)
Theorem Server_GetPosts_only_from_blog (request : SearchRequest)
    (m : option (string -> bool)) (w w0 w1 w2 w3 : World) :
  let b := SearchRequest_BlogId request in
  Connect w = (Ok tt, w0) -> enter w0 = (None, w1) ->
  enter w1 = (None, w2) -> enter w2 = (None, w3) ->
  b <= MaxInt64 ->
  0 <= SearchRequest_Start request <= MaxInt64 ->
  0 <= SearchRequest_End request <= MaxInt64 ->
  titleMatcher (engine w) Server.buildRegexFilter request m ->
  Z.of_nat (length (docs w1)) < two64 ->
  exists c, Server.GetPosts request w = (Returns c, w3) /\
    forall x, In x (List_ c) ->
      exists d, In d (docs w2) /\ numeric (lookupD "blogId" d) = Some b /\
                x = Server.convertToContent (toM d).
Proof.
  intros b Hc E1 E2 E3 Hb Hs He Hm Hbig.
  eexists. split.
  - exact (Server_GetPosts_page request m w w0 w1 w2 w3 Hc E1 E2 E3 Hb Hs He Hm Hbig).
  - cbn [List_]. intros x Hx.
    apply in_map_iff in Hx as (post & <- & Hx). apply in_map_iff in Hx as (d & <- & Hd).
    apply In_applyLimit, In_skipn in Hd. unfold selected in Hd.
    apply (Permutation_in d (proj2 (sortBy_newest_first _))) in Hd.
    apply List.filter_In in Hd as [Hd Hin]. unfold searchMatch in Hin.
    apply andb_true_iff in Hin as [Hin _]. apply valueEqb_Int64 in Hin.
    exists d. auto.
Qed.

Lemma Server_GetPosts_only_from_blog_witness :
  exists c, Server.GetPosts (search "cat" 0 5) searchWorld = (Returns c, searchWorld) /\
    forall x, In x (List_ c) ->
      exists d, In d (docs searchWorld) /\ numeric (lookupD "blogId" d) = Some 1 /\
                x = Server.convertToContent (toM d).
Proof.
  apply (Server_GetPosts_only_from_blog (search "cat" 0 5)
           (Fixture.literalEngine ".*cat.*") searchWorld searchWorld searchWorld
           searchWorld searchWorld eq_refl eq_refl eq_refl eq_refl).
  - vm_compute. discriminate.
  - split; vm_compute; discriminate.
  - split; vm_compute; discriminate.
  - apply (withPattern _ _ _ ".*cat.*"); [discriminate | reflexivity | reflexivity].
  - vm_compute. reflexivity.
Defined.

(** ** The pattern built from a filter *)

Lemma append_assoc (s t u : string) : (s +:+ t) +:+ u = s +:+ (t +:+ u).
Proof.
  induction s as [| c s IH]; [reflexivity |].
  change (String c ((s +:+ t) +:+ u) = String c (s +:+ (t +:+ u))). now rewrite IH.
Qed.

Lemma startsWith_append (s t u : string) :
  startsWith s t = true -> startsWith (s +:+ u) t = true.
Proof.
  rewrite !startsWith_spec. intros [v ->]. exists (v +:+ u). apply append_assoc.
Qed.

Lemma hasPercent_append (s t : string) :
  hasPercent (s +:+ t) = hasPercent s || hasPercent t.
Proof.
  unfold hasPercent. induction s as [| c s IH]; [reflexivity |].
  change (String c s +:+ t) with (String c (s +:+ t)).
  cbn [list_ascii_of_string existsb]. now rewrite IH, orb_assoc.
Qed.

Lemma hasPercent_replacePercent (s : string) : hasPercent (replacePercent s) = false.
Proof.
  induction s as [| c s IH]; [reflexivity |]. cbn [replacePercent].
  destruct (Ascii.eqb_spec c "%") as [-> | Hne].
  - now rewrite hasPercent_append, IH.
  - unfold hasPercent in *. cbn [list_ascii_of_string existsb]. rewrite IH, orb_false_r.
    destruct (Ascii.eqb_spec "%" c); [congruence | reflexivity].
Qed.

Lemma replacePercent_id (s : string) : hasPercent s = false -> replacePercent s = s.
Proof.
  unfold hasPercent. induction s as [| c s IH]; [reflexivity |].
  cbn [list_ascii_of_string existsb replacePercent]. intros H.
  apply orb_false_iff in H as [Hc Hs]. rewrite Ascii.eqb_sym, Hc. now rewrite (IH Hs).
Qed.

(** The text the two builders produce around a pattern [p]: the token in
    front unless [p] starts with it, and possibly the token behind. *)
Lemma built_starts_with_token (p : string) (back : bool) :
  startsWith
    ((if negb (startsWith p anySequence) then "" +:+ anySequence else "") +:+ p +:+
     (if back then anySequence else ""))
    anySequence = true.
Proof.
  destruct (startsWith p anySequence) eqn:E; cbn [negb].
  - change ("" +:+ p +:+ (if back then anySequence else ""))
      with (p +:+ (if back then anySequence else "")).
    now apply startsWith_append.
  - unfold startsWith, anySequence.
    change (("" +:+ ".*") +:+ p +:+ (if back then ".*" else ""))
      with (String "." (String "*" (p +:+ (if back then ".*" else "")))).
    now rewrite !prefix_cons, prefix_empty.
Qed.

(** Whatever the filter, the pattern either revision builds starts with the
    token [.*]; the pattern of [src/server.go] holds no ['%'] any more. *)
Theorem patterns_start_with_token (filter : string) :
  (exists p, Server.buildRegexFilter filter = [("$regex", Go.String_ p)] /\
             startsWith p anySequence = true /\ hasPercent p = false) /\
  (exists p, Blogserver.buildFilterRegex filter = [("$regex", Go.String_ p)] /\
             startsWith p anySequence = true).
Proof.
  split.
  - unfold Server.buildRegexFilter. change ".*" with anySequence.
    rewrite ReplaceAll_percent, Index_zero.
    set (back := negb (LastIndex (replacePercent filter) anySequence
                       =? len (replacePercent filter) - 2)).
    exists ((if negb (startsWith (replacePercent filter) anySequence)
             then "" +:+ anySequence else "")
            +:+ replacePercent filter +:+ (if back then anySequence else "")).
    split; [| split].
    + destruct back; rewrite ?append_empty_r, ?append_assoc; reflexivity.
    + apply built_starts_with_token.
    + rewrite !hasPercent_append, hasPercent_replacePercent.
      now destruct (startsWith (replacePercent filter) anySequence), back.
  - unfold Blogserver.buildFilterRegex. change ".*" with anySequence.
    rewrite Index_zero.
    set (back := negb (LastIndex filter anySequence =? len filter - 2)).
    exists ((if negb (startsWith filter anySequence) then "" +:+ anySequence else "")
            +:+ filter +:+ (if back then anySequence else "")).
    split.
    + destruct back; rewrite ?append_empty_r, ?append_assoc; reflexivity.
    + apply built_starts_with_token.
Qed.

(** On a filter without ['%'] the two revisions build the same pattern. *)
Theorem revisions_agree_without_percent (filter : string) :
  hasPercent filter = false ->
  Server.buildRegexFilter filter = Blogserver.buildFilterRegex filter.
Proof.
  intros H. unfold Server.buildRegexFilter, Blogserver.buildFilterRegex.
  change ".*" with anySequence. now rewrite ReplaceAll_percent, (replacePercent_id _ H).
Qed.

Lemma revisions_agree_without_percent_witness :
  Server.buildRegexFilter "cat.*" = Blogserver.buildFilterRegex "cat.*".
Proof. exact (revisions_agree_without_percent "cat.*" eq_refl). Defined.

(** ** Reading an unsigned identifier *)

(** [extractUint64] never fails and always yields an unsigned 64-bit
    number: a stored integer that is not negative is read as it is, a
    negative one wraps around to itself plus 2^64, and every other value,
    or none, gives 0. *)
Theorem extractUint64_wraps (v : option value) :
  0 <= Blogserver.extractUint64 v < two64 /\
  (forall n, numeric v = Some n -> 0 <= n < two64 -> Blogserver.extractUint64 v = n) /\
  (forall n, numeric v = Some n -> - two64 <= n < 0 ->
             Blogserver.extractUint64 v = n + two64) /\
  (numeric v = None -> Blogserver.extractUint64 v = 0).
Proof.
  assert (Hwrap : forall n, - two64 <= n < 0 -> toUint64 n = n + two64).
  { intros n Hn. unfold toUint64.
    rewrite <- (Z.mod_add n 1 two64) by (unfold two64; lia).
    rewrite Z.mul_1_l. apply Z.mod_small. lia. }
  split; [| split; [| split]].
  - destruct v as [[| n | n | s | i | b | t] |]; cbn;
      try apply toUint64_range; unfold two64; lia.
  - intros n Hv Hn. destruct v as [[| k | k | s | i | b | t] |]; try discriminate;
      injection Hv as ->; cbn; now apply toUint64_small.
  - intros n Hv Hn. destruct v as [[| k | k | s | i | b | t] |]; try discriminate;
      injection Hv as ->; cbn; now apply Hwrap.
  - intros Hv. destruct v as [[| k | k | s | i | b | t] |]; try discriminate; reflexivity.
Qed.

Lemma extractUint64_wraps_witness :
  Blogserver.extractUint64 (Some (Int64 (-1))) = 18446744073709551615 /\
  Blogserver.extractUint64 (Some (Int32 7)) = 7 /\
  Blogserver.extractUint64 (Some (Str "7")) = 0.
Proof.
  split; [| split].
  - exact (proj1 (proj2 (proj2 (extractUint64_wraps (Some (Int64 (-1))))))
             (-1) eq_refl ltac:(vm_compute; split; [discriminate | reflexivity])).
  - exact (proj1 (proj2 (extractUint64_wraps (Some (Int32 7))))
             7 eq_refl ltac:(vm_compute; split; [discriminate | reflexivity])).
  - exact (proj2 (proj2 (proj2 (extractUint64_wraps (Some (Str "7"))))) eq_refl).
Defined.

(** ** Create: a loop that does not end, and a panic *)



Lemma projection_bare (d : D) :
  bare d = true -> exists i, applyProjection (Some ["postId"]) d = [("_id", i)].
Proof.
  destruct d as [| [k i] fields]; [discriminate |]. cbn [bare].
  intros H. apply andb_true_iff in H as [Hk Hn]. apply String.eqb_eq in Hk. subst k.
  apply negb_true_iff in Hn. exists i.
  cbn [applyProjection List.filter fst]. unfold idKey.
  change (String.eqb "_id" "_id") with true. cbn [orb]. f_equal.
  induction fields as [| [k x] fields IH]; [reflexivity |].
  cbn [existsb fst] in Hn. apply orb_false_iff in Hn as [Hk Hn].
  cbn [List.filter fst existsb]. rewrite orb_false_r, Hk. now apply IH.
Qed.

(** In [src/server.go], an undisturbed Create into a blog that has documents,
    none of them with a postId, panics: the query returns the [_id] alone and
    the code reads the second field of the result. *)
Theorem Server_Create_panics_without_postId (fuel : nat) (request : CreateRequest)
    (w : World) :
  let b := CreateRequest_BlogId request in
  script w = [] -> b <= MaxInt64 ->
  (exists d, In d (docs w) /\ inBlog b d = true) ->
  (forall d, In d (docs w) -> inBlog b d = true -> bare d = true) ->
  Server.CreatePost (S fuel) request w = (Some Panics, w).
Proof.
  intros b Hs Hb (d0 & Hd0 & Hin0) Hbare.
  unfold Server.CreatePost. rewrite (Connect_quiet w Hs).
  cbv zeta. cbn [Server.GeneratePostIdStep].
  unfold FindOne, runQuery. rewrite (enter_quiet w Hs).
  destruct (compileFilter_blog (engine w) b Hb) as (q & Hq & Hext).
  unfold Server.blogIdKey. fold b. rewrite Hq, (List.filter_ext _ _ Hext).
  cbn [Server.optsMaxPostId Skip Sort Limit Projection applySort applyLimit limitRefused].
  unfold Server.postIdKey.
  pose proof (proj2 (sortBy_newest_first (List.filter (inBlog b) (docs w)))) as Hperm.
  destruct (sortBy "postId" (-1) (List.filter (inBlog b) (docs w))) as [| d ds].
  - apply Permutation_nil in Hperm.
    assert (Hd : In d0 (List.filter (inBlog b) (docs w))) by (apply List.filter_In; auto).
    rewrite Hperm in Hd. contradiction.
  - assert (Hd : In d (List.filter (inBlog b) (docs w)))
      by (apply (Permutation_in d Hperm); now left).
    apply List.filter_In in Hd as [Hd Hin].
    destruct (projection_bare d (Hbare d Hd Hin)) as [i Hi].
    cbn [map]. rewrite Hi. reflexivity.
Qed.

Lemma Server_Create_panics_without_postId_witness :
  Server.CreatePost 1 createRequest bareWorld = (Some Panics, bareWorld).
Proof.
  apply (Server_Create_panics_without_postId 0 createRequest bareWorld eq_refl).
  - vm_compute. discriminate.
  - eexists. split; [now left | reflexivity].
  - intros d [<- | []] _. reflexivity.
Defined.
